(** * ai-web-tester: the exploration decision engine, embedded and verified

    A shallow embedding of [smart_exploration_agent.py] and of the depth
    prompt of [smart_demo.py].

    Conventions of the embedding.
    - A Python [str] is a Rocq [string] holding its UTF-8 bytes.  Case
      folding ([str.lower]), white space ([str.strip]) and lengths are
      modelled on ASCII text; other bytes are left as they are.
    - A Python [dict] used as a map is a [gmap string _]; a dict used as a
      record with fixed keys read through [.get(key, default)] is a Rocq
      record whose fields hold the value after the default was applied.
    - A JSON-like Python value is a [pyval].
    - Everything that talks to the browser, the clock, the random generator,
      the language model or the file system is an operation of a type class
      over an abstract world [W]; an operation may raise.  The agent's code is
      written in the state-and-exception monad [M W] over these operations, so
      every theorem holds for every behaviour of the page.  *)

From Stdlib Require Import ZArith QArith String Ascii List Lia DecimalString DecimalZ.
From stdpp Require Import base option strings list gmap.

Set Warnings "-register-all".
Local Open Scope string_scope.
Local Open Scope Z_scope.
Local Open Scope list_scope.

(** ** Python strings *)

(** [str.lower()], ASCII letters. *)
Definition lower_char (c : ascii) : ascii :=
  let n := nat_of_ascii c in
  if ((65 <=? n) && (n <=? 90))%nat then ascii_of_nat (n + 32) else c.

Fixpoint lower (s : string) : string :=
  match s with
  | EmptyString => EmptyString
  | String c s' => String (lower_char c) (lower s')
  end.

(** [kw in text] on strings: [kw] occurs in [text] as a contiguous run. *)
Fixpoint str_in (kw text : string) : bool :=
  String.prefix kw text ||
  match text with
  | EmptyString => false
  | String _ text' => str_in kw text'
  end.

(** [any(keyword in text for keyword in keywords)] *)
Definition any_in (keywords : list string) (text : string) : bool :=
  existsb (fun keyword => str_in keyword text) keywords.

(** [x in xs] on a list of strings. *)
Definition list_in (x : string) (xs : list string) : bool :=
  existsb (String.eqb x) xs.

(** [sep.join(xs)] *)
Fixpoint join (sep : string) (xs : list string) : string :=
  match xs with
  | [] => ""
  | [x] => x
  | x :: xs' => x +:+ sep +:+ join sep xs'
  end.

(** [text.startswith(p)] *)
Definition startswith (p text : string) : bool := String.prefix p text.

(** A string holds its text in UTF-8, and Python counts and cuts characters:
    a character starts at every byte that is not a continuation byte
    [10xxxxxx]. *)
Definition is_continuation (c : ascii) : bool :=
  (128 <=? nat_of_ascii c)%nat && (nat_of_ascii c <? 192)%nat.

(** [len(s)] *)
Fixpoint py_len (s : string) : nat :=
  match s with
  | EmptyString => 0%nat
  | String c rest => ((if is_continuation c then 0 else 1) + py_len rest)%nat
  end.

(** [s[:n]] for [0 <= n]. *)
Fixpoint take_str (n : nat) (s : string) : string :=
  match s with
  | EmptyString => EmptyString
  | String c rest =>
      if is_continuation c then String c (take_str n rest)
      else match n with
           | O => EmptyString
           | S n' => String c (take_str n' rest)
           end
  end.

(** [str(z)] for a Python [int]. *)
Definition str_of_int (z : Z) : string := NilEmpty.string_of_int (Z.to_int z).

(** Python truthiness of a string. *)
Definition truthy (s : string) : bool := negb (String.eqb s "").

(** ** JSON-like Python values *)

Inductive pyval :=
| PNone
| PBool (b : bool)
| PInt (z : Z)
| PStr (s : string)
| PList (l : list pyval)
| PDict (d : gmap string pyval).

(** ** Forms as the page extraction produces them
    ([browser_tool.py], [_extract_page_info], and the three in-page
    extractions of [_search_for_auth_links]). *)

(** One entry of [form['inputs']].  [type] is kept optional because the
    classifier reads it with default [''] and the form filler with default
    ['text']. *)
Record InputField := {
  name : string;
  type : option string;
  required : bool;
  placeholder : string;
  value : string
}.

Record Button := { text : string; btn_type : string }.

Record Form := {
  index : Z;
  action : string;
  method : string;
  inputs : list InputField;
  buttons : list Button;
  classes : string;
  form_text : string;
  nearby_text : string
}.

Definition get_type (inp : InputField) (default : string) : string :=
  match type inp with Some t => t | None => default end.

(** ** FormPurposeClassifier: [_classify_form_purpose] *)

Definition registration_keywords : list string :=
  [ "sign up"; "register"; "create account"; "join"; "get started";
    "create your account"; "become a member"; "start your journey";
    "join us"; "create profile"; "new account"; "registration";
    "create a password"; "create password"; "birthdate"; "birth date";
    "date of birth"; "age verification" ].

Definition login_keywords : list string :=
  [ "sign in"; "login"; "log in"; "enter"; "access account";
    "welcome back"; "member login"; "user login"; "enter password" ].

Definition contact_keywords : list string := [ "contact"; "message"; "email us" ].
Definition search_keywords : list string := [ "search" ].
Definition subscription_keywords : list string := [ "subscribe"; "newsletter" ].
Definition create_password_keywords : list string :=
  [ "create a password"; "create password" ].

(** [text_lower] of the classifier. *)
Definition text_lower_of (form : Form) : string :=
  lower (form_text form +:+ " " +:+ nearby_text form).

Definition input_types_of (form : Form) : list string :=
  map (fun inp => lower (get_type inp "")) (inputs form).
Definition input_names_of (form : Form) : list string :=
  map (fun inp => lower (name inp)) (inputs form).
Definition input_placeholders_of (form : Form) : list string :=
  map (fun inp => lower (placeholder inp)) (inputs form).
Definition all_input_text_of (form : Form) : string :=
  lower (join " " (input_names_of form ++ input_placeholders_of form)).

(** The list [registration_indicators] of the password-and-email branch. *)
Definition registration_indicators (form : Form) : list bool :=
  let all_input_text := all_input_text_of form in
  let input_types := input_types_of form in
  let text_lower := text_lower_of form in
  [ str_in "confirm" all_input_text;
    str_in "first" all_input_text;
    str_in "last" all_input_text;
    str_in "name" all_input_text;
    str_in "phone" all_input_text;
    str_in "birth" all_input_text;
    list_in "date" input_types;
    str_in "agree" text_lower;
    str_in "terms" text_lower;
    Z.ltb 2 (Z.of_nat (length (inputs form))) ].

(** The guard of the password-and-email branch. *)
Definition has_password_and_email (form : Form) : bool :=
  list_in "password" (input_types_of form) &&
  (list_in "email" (input_types_of form) || str_in "email" (all_input_text_of form)).

(** The field-based part of the classifier, reached when no keyword of the
    form text matched. *)
Definition classify_by_fields (form : Form) : string :=
  let input_types := input_types_of form in
  let text_lower := text_lower_of form in
  if existsb (any_in create_password_keywords) (input_placeholders_of form)
  then "registration"
  else if has_password_and_email form then
    if existsb id (registration_indicators form) then "registration" else "login"
  else if list_in "email" input_types && negb (list_in "password" input_types)
          && any_in ["subscribe"; "newsletter"; "updates"] text_lower
  then "subscription"
  else "unknown".

Definition _classify_form_purpose (form : Form) : string :=
  let text_lower := text_lower_of form in
  if any_in registration_keywords text_lower then "registration"
  else if any_in login_keywords text_lower then "login"
  else if any_in contact_keywords text_lower then "contact"
  else if any_in search_keywords text_lower then "search"
  else if any_in subscription_keywords text_lower then "subscription"
  else classify_by_fields form.

(** ** FieldMatcher: [_match_field_to_data] *)

Definition _match_field_to_data (field_name field_type placeholder : string)
    (test_data : gmap string string) : option string :=
  let field_hints := lower (field_name +:+ " " +:+ field_type +:+ " " +:+ placeholder) in
  if any_in ["email"; "e-mail"] field_hints then test_data !! "email"
  else if any_in ["password"; "pass"] field_hints then
    if str_in "confirm" field_hints || str_in "repeat" field_hints
    then test_data !! "password_confirm"
    else test_data !! "password"
  else if any_in ["username"; "user"; "login"] field_hints then test_data !! "username"
  else if any_in ["first"; "fname"] field_hints then test_data !! "first_name"
  else if any_in ["last"; "lname"; "surname"] field_hints then test_data !! "last_name"
  else if any_in ["name"] field_hints && negb (str_in "user" field_hints)
  then test_data !! "name"
  else if any_in ["phone"; "tel"] field_hints then test_data !! "phone"
  else if any_in ["address"] field_hints then test_data !! "address"
  else if any_in ["city"] field_hints then test_data !! "city"
  else if any_in ["country"] field_hints then test_data !! "country"
  else if any_in ["company"; "organization"] field_hints then test_data !! "company"
  else if any_in ["age"] field_hints then test_data !! "age"
  else if any_in ["zip"; "postal"] field_hints then test_data !! "zip"
  else if String.eqb field_type "checkbox" then None
  else if String.eqb field_type "text" && negb (truthy field_name) then Some "Test input"
  else None.

(** ** Effects: a state-and-exception monad over the world *)

Inductive outcome (A : Type) : Type :=
| Ok (a : A)
| Raised (e : string).
Arguments Ok {A} a.
Arguments Raised {A} e.

Definition M (W A : Type) : Type := W -> outcome A * W.

Section Monad.
Context {W : Type}.

Definition ret {A} (a : A) : M W A := fun w => (Ok a, w).

Definition bind {A B} (m : M W A) (k : A -> M W B) : M W B :=
  fun w => match m w with
           | (Ok a, w') => k a w'
           | (Raised e, w') => (Raised e, w')
           end.

Definition raise {A} (e : string) : M W A := fun w => (Raised e, w).

(** [try: m  except Exception as e: handler(e)]; what [m] did to the world
    before it raised stays done. *)
Definition try_ {A} (m : M W A) (handler : string -> M W A) : M W A :=
  fun w => match m w with
           | (Ok a, w') => (Ok a, w')
           | (Raised e, w') => handler e w'
           end.

(** An operation that cannot raise. *)
Definition lift {A} (f : W -> A * W) : M W A :=
  fun w => let '(a, w') := f w in (Ok a, w').

End Monad.

Declare Scope monad_scope.
Delimit Scope monad_scope with monad.
Notation "x <- m ;; k" := (bind m (fun x => k))
  (at level 100, m at next level, right associativity) : monad_scope.
Notation "m ;;; k" := (bind m (fun _ => k))
  (at level 100, right associativity) : monad_scope.
Local Open Scope monad_scope.

(** ** The collaborators *)

(** [time] and [datetime]: [time_time] is [int(time.time())], the clock read
    in whole seconds. *)
Class Clock (W : Type) := {
  time_time : W -> Z * W;
  now_isoformat : W -> string * W
}.

(** [random]: the index drawn for a population of the given size. *)
Class Random (W : Type) := {
  random_index : nat -> W -> nat * W
}.

(** The Playwright page and element handles. *)
Class Page (W E : Type) := {
  query_selector_all : string -> M W (list E);
  query_selector : string -> M W (option E);
  is_visible : E -> M W bool;
  is_enabled : E -> M W bool;
  scroll_into_view_if_needed : E -> M W unit;
  wait_for_timeout : Z -> M W unit;
  (** [element.click(force=..., timeout=...)] *)
  click : E -> bool -> option Z -> M W unit;
  (** [element.evaluate("el => el.click()")] *)
  evaluate_click : E -> M W unit;
  fill : E -> string -> M W unit;
  goto : string -> M W unit;
  wait_for_load_state : string -> Z -> M W unit;
  page_url : M W string;
  page_content : M W string;
  page_title : M W string;
  (** [page.evaluate] of the script of [_security_analysis] that fetches the
      page again and returns its response headers as an object *)
  evaluate_fetch_headers : M W (gmap string pyval);
  (** [page.evaluate] of the script of [_security_analysis] that counts the
      POST forms without a csrf or token field *)
  evaluate_count_forms_without_csrf : M W Z;
  (** [page.evaluate] of the script of [_trace_user_flow] *)
  evaluate_interactive_elements : M W pyval
}.

(** ** PersonaDataGenerator *)

Record Persona := {
  persona_name : string;
  email_prefix : string;
  first_name : string;
  last_name : string;
  age : string;
  phone : string;
  address : string;
  city : string;
  country : string;
  company : string;
  behavior : string
}.

Definition _create_user_personas : list Persona :=
  [ {| persona_name := "regular_user"; email_prefix := "testuser";
       first_name := "John"; last_name := "Doe"; age := "25";
       phone := "+1234567890"; address := "123 Main St"; city := "New York";
       country := "USA"; company := "Test Corp"; behavior := "cautious" |};
    {| persona_name := "power_user"; email_prefix := "poweruser";
       first_name := "Jane"; last_name := "Smith"; age := "35";
       phone := "+1987654321"; address := "456 Oak Ave"; city := "San Francisco";
       country := "USA"; company := "Tech Solutions"; behavior := "aggressive" |};
    {| persona_name := "edge_case_user"; email_prefix := "edgeuser";
       first_name := "Александр"; last_name := "O'Connor-Smith"; age := "99";
       phone := "+7-800-555-0199"; address := "Улица Пушкина, дом Колотушкина";
       city := "Москва"; country := "Россия"; company := "ООО 'Тест & Ко'";
       behavior := "boundary_testing" |} ].

(** [string.ascii_lowercase + string.digits] *)
Definition suffix_alphabet : string := "abcdefghijklmnopqrstuvwxyz0123456789".

Definition search_terms : list string := ["test"; "example"; "demo"; "sample"; "product"].

(** The character a draw selects from a population. *)
Definition pick_char (population : string) (i : nat) : string :=
  match String.get (i mod String.length population) population with
  | Some c => String c ""
  | None => ""
  end.

(** The dict [_generate_test_data] returns, given the clock reading and the
    random suffix it drew. *)
Definition test_data_of (persona : Persona) (timestamp : Z) (random_suffix : string)
    : gmap string string :=
  list_to_map
    [ ("email", email_prefix persona +:+ "." +:+ str_of_int timestamp +:+ "."
                +:+ random_suffix +:+ "@testmail.com");
      ("username", email_prefix persona +:+ "_" +:+ random_suffix);
      ("password", "TestPass123!@#");
      ("password_confirm", "TestPass123!@#");
      ("first_name", first_name persona);
      ("last_name", last_name persona);
      ("name", first_name persona +:+ " " +:+ last_name persona);
      ("full_name", first_name persona +:+ " " +:+ last_name persona);
      ("age", age persona);
      ("phone", phone persona);
      ("address", address persona);
      ("city", city persona);
      ("country", country persona);
      ("company", company persona);
      ("zip", "12345");
      ("postal_code", "12345");
      ("state", "NY");
      ("region", "New York") ].

Definition contact_data_of (timestamp : Z) : gmap string string :=
  list_to_map
    [ ("name", "Test User");
      ("email", "testcontact." +:+ str_of_int timestamp +:+ "@example.com");
      ("subject", "Test inquiry from automated testing");
      ("message", "This is a test message generated by automated testing system. Please ignore.");
      ("phone", "+1234567890");
      ("company", "Test Company") ].

Definition subscription_data_of (timestamp : Z) : gmap string string :=
  list_to_map
    [ ("email", "testsub." +:+ str_of_int timestamp +:+ "@example.com");
      ("newsletter", "true") ].

Definition search_data_of (i1 i2 i3 : nat) : gmap string string :=
  let choice i := nth (i mod length search_terms) search_terms "" in
  list_to_map [ ("search", choice i1); ("query", choice i2); ("q", choice i3) ].

Section Generator.
Context {W : Type} `{Clock W, Random W}.

(** [''.join(random.choices(population, k=k))] *)
Fixpoint random_choices (population : string) (k : nat) : M W string :=
  match k with
  | O => ret ""
  | S k' =>
      i <- lift (random_index (String.length population)) ;;
      rest <- random_choices population k' ;;
      ret (pick_char population i +:+ rest)
  end.

Definition _generate_test_data (persona : Persona) : M W (gmap string string) :=
  timestamp <- lift time_time ;;
  random_suffix <- random_choices suffix_alphabet 6 ;;
  ret (test_data_of persona timestamp random_suffix).

Definition _generate_contact_data : M W (gmap string string) :=
  timestamp <- lift time_time ;;
  ret (contact_data_of timestamp).

Definition _generate_search_data : M W (gmap string string) :=
  i1 <- lift (random_index (length search_terms)) ;;
  i2 <- lift (random_index (length search_terms)) ;;
  i3 <- lift (random_index (length search_terms)) ;;
  ret (search_data_of i1 i2 i3).

Definition _generate_subscription_data : M W (gmap string string) :=
  timestamp <- lift time_time ;;
  ret (subscription_data_of timestamp).

(** The choice of generator by purpose, as [_explore_all_forms] makes it
    (there with the first persona); [_attempt_registration] calls
    [_generate_test_data] with the persona at hand. *)
Definition generate (persona : Persona) (purpose : string) : M W (gmap string string) :=
  if String.eqb purpose "contact" then _generate_contact_data
  else if String.eqb purpose "search" then _generate_search_data
  else if String.eqb purpose "subscription" then _generate_subscription_data
  else _generate_test_data persona.

End Generator.

(** ** InteractiveElementResolver
    The click loop that [_search_for_auth_links] (signup button),
    [_attempt_registration] (modal trigger) and [_attempt_registration]
    (mode switch) each spell out. *)

Inductive ClickKind := Normal | Forced | Scripted.

(** The branch of [if is_visible and is_enabled: ... elif is_enabled: ...
    else: ...]. *)
Definition choose_click (visible enabled : bool) : ClickKind :=
  if visible && enabled then Normal
  else if enabled then Forced
  else Scripted.

Section Resolver.
Context {W E : Type} `{Page W E}.

Definition perform_click (k : ClickKind) (element : E) : M W unit :=
  match k with
  | Normal => click element false (Some 5000)
  | Forced => click element true (Some 5000)
  | Scripted => evaluate_click element
  end.

(** The second look at an element that was not visible: scroll to it, wait a
    second, ask again; any failure on the way leaves it not visible. *)
Definition recheck_visible (element : E) : M W bool :=
  try_ (scroll_into_view_if_needed element ;;;
        wait_for_timeout 1000 ;;;
        is_visible element)
       (fun _ => ret false).

(** The state of an element the click is chosen on: visibility (after the
    retry, when one was made) and enabledness. *)
Definition observe (element : E) : M W (bool * bool) :=
  visible <- is_visible element ;;
  enabled <- is_enabled element ;;
  visible' <- (if negb visible then recheck_visible element else ret visible) ;;
  ret (visible', enabled).

(** The body of the inner [try]: look at the element, click it the way its
    state asks for. *)
Definition click_element (element : E) : M W ClickKind :=
  st <- observe element ;;
  let k := choose_click (fst st) (snd st) in
  perform_click k element ;;;
  ret k.

(** [for element in elements]: the first element whose click succeeds ends
    the loop; an exception moves on to the next element. *)
Fixpoint click_first (elements : list E) : M W (option ClickKind) :=
  match elements with
  | [] => ret None
  | element :: rest =>
      r <- try_ (k <- click_element element ;; ret (Some k)) (fun _ => ret None) ;;
      match r with
      | Some k => ret (Some k)
      | None => click_first rest
      end
  end.

(** [for selector in selectors]: the result is [Some] exactly when
    [button_clicked] ends up [True]; it then names the selector and the kind
    of click that worked. *)
Fixpoint resolve (selectors : list string) : M W (option (string * ClickKind)) :=
  match selectors with
  | [] => ret None
  | selector :: rest =>
      r <- try_ (elements <- query_selector_all selector ;; click_first elements)
                (fun _ => ret None) ;;
      match r with
      | Some k => ret (Some (selector, k))
      | None => resolve rest
      end
  end.

End Resolver.

(** The candidate selectors. *)

Definition generic_signup_selectors : list string :=
  [ "[data-testid*='signup']"; "[data-testid*='register']";
    "[aria-label*='sign up']"; "[aria-label*='register']";
    "button[class*='signup']"; "button[class*='register']";
    ".signup-btn"; ".register-btn"; "#signup"; "#register" ].

Definition text_selectors (t : string) : list string :=
  [ "button:has-text('" +:+ t +:+ "')";
    "[role='button']:has-text('" +:+ t +:+ "')";
    "div:has-text('" +:+ t +:+ "')";
    "a:has-text('" +:+ t +:+ "')";
    "span:has-text('" +:+ t +:+ "')" ].

(** One entry of [signup_buttons]. *)
Record ButtonInfo := {
  bi_text : string;
  tagName : string;
  className : string;
  dataTestId : string;
  ariaLabel : string;
  bi_id : string;
  href : string
}.

(** [className.split()[:3]] is taken as given: the first three class names. *)
Definition signup_selectors (button_info : ButtonInfo) (first_classes : list string)
    : list string :=
  (if truthy (bi_text button_info) then text_selectors (bi_text button_info) else []) ++
  (if truthy (dataTestId button_info)
   then ["[data-testid='" +:+ dataTestId button_info +:+ "']"] else []) ++
  (if truthy (ariaLabel button_info)
   then ["[aria-label='" +:+ ariaLabel button_info +:+ "']"] else []) ++
  (if truthy (className button_info)
   then map (fun cls => "." +:+ cls) (List.filter truthy first_classes)
   else []) ++
  generic_signup_selectors.

Definition trigger_selectors (trigger_button : string) : list string :=
  (if truthy trigger_button then text_selectors trigger_button else []) ++
  generic_signup_selectors.

Definition switch_selectors (switch_button : string) : list string :=
  (if truthy switch_button
   then [ "button:has-text('" +:+ switch_button +:+ "')";
          "a:has-text('" +:+ switch_button +:+ "')";
          "div:has-text('" +:+ switch_button +:+ "')";
          "span:has-text('" +:+ switch_button +:+ "')" ]
   else []) ++
  [ "[data-testid*='switch']"; "[data-testid*='signup']";
    "[data-testid*='register']"; "button[class*='switch']"; ".switch-btn" ].

(** ** Form filling: [_fill_form_intelligently] *)

(** One entry of [filled_fields]. *)
Record FilledField := { field : string; field_type : string; value_preview : string }.

(** The dict [_fill_form_intelligently] returns. *)
Record FillResult := {
  success : bool;
  filled_fields : list FilledField;
  errors : list string
}.

(** [value[:20] + "..." if len(value) > 20 else value] *)
Definition preview (value : string) : string :=
  if (20 <? py_len value)%nat then take_str 20 value +:+ "..." else value.

(** The entry of [errors] for a field that could not be filled. *)
Definition fill_error (field_name e : string) : string :=
  "Ошибка заполнения поля " +:+ field_name +:+ ": " +:+ e.

Section Filler.
Context {W E : Type} `{Page W E}.

(** The body of [try: ... except Exception as e: errors.append(...)] for one
    field with a value: the entry for [filled_fields], when the field was
    found and filled. *)
Definition fill_located (input_field : InputField) (field_name field_type value : string)
    : M W (option FilledField) :=
  let selector :=
    if truthy (name input_field)
    then "input[name='" +:+ name input_field +:+ "']"
    else "input[type='" +:+ field_type +:+ "']" in
  element <- query_selector selector ;;
  match element with
  | Some el =>
      fill el value ;;;
      ret (Some {| field := field_name; field_type := field_type;
                   value_preview := preview value |})
  | None => ret None
  end.

(** One turn of [for input_field in inputs], on the two lists it appends to. *)
Definition fill_step (test_data : gmap string string)
    (acc : list FilledField * list string) (input_field : InputField)
    : M W (list FilledField * list string) :=
  let field_name := lower (name input_field) in
  let field_type := lower (get_type input_field "text") in
  let placeholder := lower (placeholder input_field) in
  match _match_field_to_data field_name field_type placeholder test_data with
  | Some value =>
      if truthy value then
        try_ (r <- fill_located input_field field_name field_type value ;;
              match r with
              | Some entry => ret (fst acc ++ [entry], snd acc)
              | None => ret acc
              end)
             (fun e => ret (fst acc, snd acc ++ [fill_error field_name e]))
      else ret acc
  | None => ret acc
  end.

Fixpoint fill_loop (test_data : gmap string string) (inputs : list InputField)
    (acc : list FilledField * list string) : M W (list FilledField * list string) :=
  match inputs with
  | [] => ret acc
  | input_field :: rest =>
      acc' <- fill_step test_data acc input_field ;;
      fill_loop test_data rest acc'
  end.

Definition _fill_form_intelligently (form : Form) (test_data : gmap string string)
    : M W FillResult :=
  try_ (acc <- fill_loop test_data (inputs form) ([], []) ;;
        ret {| success := (0 <? length (fst acc))%nat;
               filled_fields := fst acc;
               errors := snd acc |})
       (fun e => ret {| success := false; filled_fields := [];
                        errors := ["Общая ошибка заполнения формы: " +:+ e] |}).

End Filler.

(** ** Values put into the report *)

Definition py_dict (l : list (string * pyval)) : pyval := PDict (list_to_map l).
Definition py_opt_str (o : option string) : pyval :=
  match o with Some s => PStr s | None => PNone end.
Definition py_of_test_data (test_data : gmap string string) : pyval :=
  PDict (PStr <$> test_data).
Definition py_of_filled (f : FilledField) : pyval :=
  py_dict [("field", PStr (field f)); ("type", PStr (field_type f));
           ("value", PStr (value_preview f))].
Definition py_of_fill_result (r : FillResult) : pyval :=
  py_dict [("success", PBool (success r));
           ("filled_fields", PList (map py_of_filled (filled_fields r)));
           ("errors", PList (map PStr (errors r)))].

(** ** Form submission: [_submit_form_safely] *)

Definition success_indicators : list string :=
  ["success"; "welcome"; "registered"; "created"; "thank you"].
Definition error_indicators : list string :=
  ["error"; "invalid"; "failed"; "required"; "already exists"].

Section Submit.
Context {W E : Type} `{Page W E}.

Definition _submit_form_safely (form : Form) : M W pyval :=
  try_ (submit_button <- query_selector
          "input[type='submit'], button[type='submit'], button:has-text('Submit'), button:has-text('Register'), button:has-text('Sign up')" ;;
        match submit_button with
        | None => ret (py_dict [("success", PBool false);
                                ("error", PStr "Submit button not found")])
        | Some b =>
            current_url <- page_url ;;
            click b false None ;;;
            try_ (wait_for_load_state "networkidle" 10000) (fun _ => ret tt) ;;;
            new_url <- page_url ;;
            content <- page_content ;;
            let content_lower := lower content in
            let has_success := any_in success_indicators content_lower in
            let has_error := any_in error_indicators content_lower in
            ret (py_dict
                   [("success", PBool (has_success && negb has_error));
                    ("url_changed", PBool (negb (String.eqb current_url new_url)));
                    ("new_url", PStr new_url);
                    ("has_success_message", PBool has_success);
                    ("has_error_message", PBool has_error);
                    ("response_analysis",
                     PStr (if has_success then "Form submitted successfully"
                           else "Form submission may have failed"))])
        end)
       (fun e => ret (py_dict [("success", PBool false);
                               ("error", PStr ("Form submission error: " +:+ e))])).

End Submit.

(** ** Registration attempts: [_attempt_registration] *)

(** One entry of [auth_forms]. *)
Record AuthForm := {
  af_form : Form;
  purpose : string;
  confidence : Q;
  source_url : option string;
  trigger_button : option string;
  switch_button : option string
}.

Definition opt_truthy (o : option string) : bool :=
  match o with Some s => truthy s | None => false end.
Definition opt_eqb (o : option string) (s : string) : bool :=
  match o with Some t => String.eqb t s | None => false end.
Definition opt_or (o : option string) (default : string) : string :=
  match o with Some s => if truthy s then s else default | None => default end.

Section Registration.
Context {W E : Type} `{Page W E, Clock W, Random W}.

(** The best-effort closing of the modal window. *)
Definition close_modal : M W unit :=
  try_ (close_button <- query_selector
          "button[aria-label*='close'], button[aria-label*='Close'], .close, [data-testid*='close']" ;;
        match close_button with
        | Some b => click b false None ;;; wait_for_timeout 1000
        | None => ret tt
        end)
       (fun _ => ret tt).

(** Getting to the form: [false] when the trigger of a modal form could not
    be clicked (the [continue] of the source). *)
Definition reach_form (form_data : AuthForm) : M W bool :=
  if opt_eqb (source_url form_data) "modal_window" && opt_truthy (trigger_button form_data)
  then
    clicked <- resolve (trigger_selectors (opt_or (trigger_button form_data) "")) ;;
    match clicked with
    | None => ret false
    | Some _ =>
        wait_for_timeout 3000 ;;;
        (if opt_truthy (switch_button form_data) then
           switched <- resolve (switch_selectors (opt_or (switch_button form_data) "")) ;;
           match switched with
           | Some _ => wait_for_timeout 2000
           | None => ret tt
           end
         else ret tt) ;;;
        ret true
    end
  else if opt_truthy (source_url form_data)
          && negb (opt_eqb (source_url form_data) "modal_window")
  then
    goto (opt_or (source_url form_data) "") ;;;
    wait_for_load_state "networkidle" 5000 ;;;
    ret true
  else ret true.

(** The body of [for form_data in registration_forms]: [Some] is the
    [return] of the attempt, [None] moves on to the next form. *)
Definition register_on (persona : Persona) (form_data : AuthForm) : M W (option pyval) :=
  reached <- reach_form form_data ;;
  if negb reached then ret None else
  test_data <- _generate_test_data persona ;;
  fill_result <- _fill_form_intelligently (af_form form_data) test_data ;;
  if success fill_result then
    submit_result <- _submit_form_safely (af_form form_data) ;;
    (if opt_eqb (source_url form_data) "modal_window" then close_modal else ret tt) ;;;
    timestamp <- lift now_isoformat ;;
    ret (Some (py_dict
      [("persona", PStr (persona_name persona));
       ("form_url", PStr (opt_or (source_url form_data) "main_page"));
       ("trigger_button", py_opt_str (trigger_button form_data));
       ("switch_button", py_opt_str (switch_button form_data));
       ("test_data", py_of_test_data test_data);
       ("fill_result", py_of_fill_result fill_result);
       ("submit_result", submit_result);
       ("timestamp", PStr timestamp)]))
  else ret None.

Fixpoint registration_loop (persona : Persona) (registration_forms : list AuthForm)
    : M W (option pyval) :=
  match registration_forms with
  | [] => ret None
  | form_data :: rest =>
      r <- try_ (register_on persona form_data) (fun _ => ret None) ;;
      match r with
      | Some attempt => ret (Some attempt)
      | None => registration_loop persona rest
      end
  end.

Definition _attempt_registration (auth_forms : list AuthForm) (persona : Persona)
    : M W (option pyval) :=
  let registration_forms :=
    List.filter (fun f => String.eqb (purpose f) "registration") auth_forms in
  match registration_forms with
  | [] => ret None
  | _ => registration_loop persona registration_forms
  end.

End Registration.

(** ** The page snapshot ([PageInfo] of [browser_tool.py]) *)

Record PageInfo := {
  url : string;
  title : string;
  content : string;
  links : list string;
  images : list string;
  forms : list Form;
  meta_tags : gmap string string;
  status_code : option Z;
  load_time : option Q;
  page_errors : list string
}.

(** ** Stages of the run that are taken as given
    The browser session ([async with self.browser_tool]), the page snapshot,
    the language-model analysis, the link and modal search of
    [_search_for_auth_links] (whose click loop is [resolve]), the scan for
    hidden functionality, the performance measurement and the writing of the
    report file.  None of them is handed the report under construction. *)
Class Stages (W : Type) := {
  browser_start : M W unit;
  browser_close : M W unit;
  navigate_to_page : string -> M W PageInfo;
  _analyze_page_deeply : PageInfo -> M W pyval;
  _search_for_auth_links : M W (list AuthForm);
  _discover_hidden_functionality : M W (list pyval);
  _performance_analysis : M W pyval;
  _save_exploration_report : gmap string pyval -> M W unit
}.

(** ** Security analysis: [_security_analysis] *)

Definition security_headers : list string :=
  [ "x-frame-options"; "x-content-type-options"; "x-xss-protection";
    "strict-transport-security"; "content-security-policy" ].

Definition missing_headers_of (response : gmap string pyval) : list string :=
  List.filter (fun header => negb (bool_decide (is_Some (response !! header))))
              security_headers.

Definition missing_headers_finding (missing_headers : list string) : gmap string pyval :=
  list_to_map [ ("type", PStr "missing_security_headers");
                ("severity", PStr "medium");
                ("headers", PList (map PStr missing_headers)) ].

Definition csrf_finding (forms_without_csrf : Z) : gmap string pyval :=
  list_to_map [ ("type", PStr "forms_without_csrf");
                ("severity", PStr "high");
                ("count", PInt forms_without_csrf) ].

Definition error_finding (e : string) : gmap string pyval :=
  list_to_map [ ("type", PStr "security_analysis_error");
                ("error", PStr e) ].

Section Security.
Context {W E : Type} `{Page W E}.

(** The first half of the [try] block: the findings so far, or the message of
    the exception. *)
Definition header_findings : M W (list (gmap string pyval)) :=
  response <- evaluate_fetch_headers ;;
  let missing_headers := missing_headers_of response in
  ret (match missing_headers with
       | [] => []
       | _ => [missing_headers_finding missing_headers]
       end).

Definition _security_analysis : M W (list (gmap string pyval)) :=
  r <- try_ (fs <- header_findings ;; ret (inl fs)) (fun e => ret (inr e)) ;;
  match r with
  | inr e => ret [error_finding e]
  | inl security_findings =>
      try_ (forms_without_csrf <- evaluate_count_forms_without_csrf ;;
            ret (if Z.ltb 0 forms_without_csrf
                 then security_findings ++ [csrf_finding forms_without_csrf]
                 else security_findings))
           (fun e => ret (security_findings ++ [error_finding e]))
  end.

End Security.

(** ** The orchestrator *)

Definition first_persona : Persona :=
  match _create_user_personas with
  | p :: _ => p
  | [] => {| persona_name := ""; email_prefix := ""; first_name := ""; last_name := "";
             age := ""; phone := ""; address := ""; city := ""; country := "";
             company := ""; behavior := "" |}
  end.

(** [report[key].append(v)] *)
Definition py_append (key : string) (v : pyval) (report : gmap string pyval)
    : gmap string pyval :=
  match report !! key with
  | Some (PList l) => <[key := PList (l ++ [v])]> report
  | _ => report
  end.

(** The dict [exploration_report] as first built. *)
Definition initial_report (url timestamp : string) (max_depth : Z) : gmap string pyval :=
  list_to_map
    [ ("url", PStr url);
      ("timestamp", PStr timestamp);
      ("exploration_depth", PInt max_depth);
      ("discovered_pages", PList []);
      ("registration_attempts", PList []);
      ("form_interactions", PList []);
      ("hidden_functionality", PList []);
      ("user_flows", PList []);
      ("security_findings", PList []);
      ("accessibility_issues", PList []);
      ("performance_insights", PList []) ].

Section Orchestrator.
Context {W E : Type} `{Page W E, Clock W, Random W, Stages W}.

(** The auth forms among the forms of the snapshot. *)
Definition classified_auth_forms (page_forms : list Form) : list AuthForm :=
  omap (fun form =>
          let form_purpose := _classify_form_purpose form in
          if list_in form_purpose ["registration"; "login"; "signup"; "signin"]
          then Some {| af_form := form; purpose := form_purpose;
                       confidence := (8 # 10)%Q; source_url := None;
                       trigger_button := None; switch_button := None |}
          else None)
       page_forms.

Definition _discover_auth_forms (page_info : PageInfo) : M W (list AuthForm) :=
  let auth_forms := classified_auth_forms (forms page_info) in
  additional_forms <- _search_for_auth_links ;;
  ret (auth_forms ++ additional_forms).

(** Stage 3: [for persona in self.user_personas]. *)
Fixpoint registration_stage (auth_forms : list AuthForm) (personas : list Persona)
    (exploration_report : gmap string pyval) : M W (gmap string pyval) :=
  match personas with
  | [] => ret exploration_report
  | persona :: rest =>
      registration_result <- _attempt_registration auth_forms persona ;;
      registration_stage auth_forms rest
        (match registration_result with
         | Some r => py_append "registration_attempts" r exploration_report
         | None => exploration_report
         end)
  end.

(** [_explore_all_forms]; [i] is the index [enumerate] has reached. *)
Fixpoint explore_forms_from (i : Z) (page_forms : list Form) : M W (list pyval) :=
  match page_forms with
  | [] => ret []
  | form :: rest =>
      let form_purpose := _classify_form_purpose form in
      test_data <- generate first_persona form_purpose ;;
      fill_result <- _fill_form_intelligently form test_data ;;
      let entry := py_dict
        [("form_index", PInt (i + 1));
         ("purpose", PStr form_purpose);
         ("inputs_count", PInt (Z.of_nat (length (inputs form))));
         ("fill_result", py_of_fill_result fill_result);
         ("test_data_used", py_of_test_data test_data)] in
      more <- explore_forms_from (i + 1) rest ;;
      ret (entry :: more)
  end.

Definition _explore_all_forms (page_info : PageInfo) : M W (list pyval) :=
  explore_forms_from 0 (forms page_info).

Definition _trace_user_flow (start_url : string) (max_depth : Z) : M W (option pyval) :=
  try_ (goto start_url ;;;
        wait_for_load_state "networkidle" 5000 ;;;
        page_title <- page_title ;;
        interactive_elements <- evaluate_interactive_elements ;;
        ret (Some (py_dict [("start_url", PStr start_url);
                            ("page_title", PStr page_title);
                            ("interactive_elements", interactive_elements);
                            ("depth_explored", PInt 1)])))
       (fun _ => ret None).

Fixpoint user_flows_of (main_links : list string) : M W (list pyval) :=
  match main_links with
  | [] => ret []
  | link :: rest =>
      flow <- try_ (if startswith "http" link && negb (str_in "javascript:" link)
                    then _trace_user_flow link 2
                    else ret None)
                   (fun _ => ret None) ;;
      more <- user_flows_of rest ;;
      ret (match flow with Some f => f :: more | None => more end)
  end.

Definition _analyze_user_flows (page_info : PageInfo) (max_depth : Z) : M W (list pyval) :=
  user_flows_of (take 10 (links page_info)).

(** [async with self.browser_tool: body] *)
Definition with_browser {A} (body : M W A) : M W A :=
  browser_start ;;;
  (fun w =>
     let '(r, w1) := body w in
     match browser_close w1 with
     | (Ok _, w2) => (r, w2)
     | (Raised e, w2) => (Raised e, w2)
     end).

Definition deep_explore_website (url : string) (max_depth : Z) : M W (gmap string pyval) :=
  timestamp <- lift now_isoformat ;;
  let exploration_report := initial_report url timestamp max_depth in
  with_browser (
    main_page <- navigate_to_page url ;;
    analysis <- _analyze_page_deeply main_page ;;
    let exploration_report := <["main_page_analysis" := analysis]> exploration_report in
    auth_forms <- _discover_auth_forms main_page ;;
    let exploration_report :=
      <["auth_forms_discovered" := PInt (Z.of_nat (length auth_forms))]> exploration_report in
    exploration_report <- registration_stage auth_forms _create_user_personas exploration_report ;;
    form_results <- _explore_all_forms main_page ;;
    let exploration_report := <["form_interactions" := PList form_results]> exploration_report in
    hidden_features <- _discover_hidden_functionality ;;
    let exploration_report := <["hidden_functionality" := PList hidden_features]> exploration_report in
    user_flows <- _analyze_user_flows main_page max_depth ;;
    let exploration_report := <["user_flows" := PList user_flows]> exploration_report in
    security_findings <- _security_analysis ;;
    let exploration_report :=
      <["security_findings" := PList (map PDict security_findings)]> exploration_report in
    performance_insights <- _performance_analysis ;;
    let exploration_report := <["performance_insights" := performance_insights]> exploration_report in
    _save_exploration_report exploration_report ;;;
    ret exploration_report).

End Orchestrator.

(** ** The depth prompt of the demo: [get_exploration_depth] of [smart_demo.py] *)

(** [str.strip()] *)
Definition is_space (c : ascii) : bool :=
  let n := nat_of_ascii c in
  (((9 <=? n) && (n <=? 13)) || ((28 <=? n) && (n <=? 32)))%nat.

Fixpoint lstrip (s : string) : string :=
  match s with
  | EmptyString => EmptyString
  | String c s' => if is_space c then lstrip s' else s
  end.

Fixpoint rstrip (s : string) : string :=
  match s with
  | EmptyString => EmptyString
  | String c s' =>
      let r := rstrip s' in
      if is_space c && String.eqb r "" then "" else String c r
  end.

Definition strip (s : string) : string := rstrip (lstrip s).

(** [int(s)] on a decimal literal: an optional sign, then digits, single
    underscores allowed between digits.  [None] is [ValueError]. *)
Definition digit_of (c : ascii) : option Z :=
  let n := nat_of_ascii c in
  if ((48 <=? n) && (n <=? 57))%nat then Some (Z.of_nat n - 48) else None.

Fixpoint digits_value (acc : Z) (after_digit : bool) (s : string) : option Z :=
  match s with
  | EmptyString => if after_digit then Some acc else None
  | String c s' =>
      match digit_of c with
      | Some d => digits_value (10 * acc + d) true s'
      | None =>
          if Ascii.eqb c "_" && after_digit then digits_value acc false s' else None
      end
  end.

Definition py_int (s : string) : option Z :=
  match strip s with
  | String "-" r => Z.opp <$> digits_value 0 false r
  | String "+" r => digits_value 0 false r
  | r => digits_value 0 false r
  end.

(** What the console delivers to one call of [input]. *)
Inductive ConsoleEvent :=
| Line (typed : string)
| KeyboardInterrupt
| EndOfFile.

Inductive PromptResult :=
| Returned (depth : Z)
| Exited                 (* sys.exit(0) *)
| Failed (e : string)    (* an exception the prompt does not catch *)
| Waiting                (* the prompt is shown again and nothing more was typed *).

(** [while True: ...] over the events still to come. *)
Fixpoint get_exploration_depth (console : list ConsoleEvent) : PromptResult :=
  match console with
  | [] => Waiting
  | KeyboardInterrupt :: _ => Exited
  | EndOfFile :: _ => Failed "EOFError"
  | Line typed :: rest =>
      let depth := strip typed in
      if negb (truthy depth) then Returned 3
      else match py_int depth with
           | Some depth =>
               if (1 <=? depth) && (depth <=? 5) then Returned depth
               else get_exploration_depth rest
           | None => get_exploration_depth rest
           end
  end.

(** ** A scripted page, clock and random source, for running the model *)

Record ToyElem := {
  shown : bool;
  shown_after_scroll : bool;
  enabled : bool;
  accepts_normal : bool;
  accepts_forced : bool;
  accepts_scripted : bool;
  fillable : bool
}.

Record Toy := {
  seconds : list Z;                              (* clock readings to come *)
  draws : list nat;                              (* random indices to come *)
  dom : list (string * option (list ToyElem));   (* selector matches; [None] raises *)
  scrolled : bool;
  snapshot_forms : list Form;
  response_headers : outcome (gmap string pyval);
  csrf_count : outcome Z;
  log : list string
}.

Definition toy_log (entry : string) (w : Toy) : Toy :=
  {| seconds := seconds w; draws := draws w; dom := dom w; scrolled := scrolled w;
     snapshot_forms := snapshot_forms w; response_headers := response_headers w;
     csrf_count := csrf_count w; log := log w ++ [entry] |}.

Definition toy_scroll (w : Toy) : Toy :=
  {| seconds := seconds w; draws := draws w; dom := dom w; scrolled := true;
     snapshot_forms := snapshot_forms w; response_headers := response_headers w;
     csrf_count := csrf_count w; log := log w ++ ["scroll"] |}.

Definition toy_tick (w : Toy) : Z * Toy :=
  (hd 0 (seconds w),
   {| seconds := tl (seconds w); draws := draws w; dom := dom w; scrolled := scrolled w;
      snapshot_forms := snapshot_forms w; response_headers := response_headers w;
      csrf_count := csrf_count w; log := log w |}).

Definition toy_draw (n : nat) (w : Toy) : nat * Toy :=
  (hd 0%nat (draws w),
   {| seconds := seconds w; draws := tl (draws w); dom := dom w; scrolled := scrolled w;
      snapshot_forms := snapshot_forms w; response_headers := response_headers w;
      csrf_count := csrf_count w; log := log w |}).

Fixpoint toy_lookup (selector : string) (d : list (string * option (list ToyElem)))
    : option (list ToyElem) :=
  match d with
  | [] => Some []
  | (s, r) :: d' => if String.eqb s selector then r else toy_lookup selector d'
  end.

Definition toy_query_all (selector : string) : M Toy (list ToyElem) :=
  fun w => match toy_lookup selector (dom w) with
           | Some els => (Ok els, w)
           | None => (Raised ("bad selector " +:+ selector), w)
           end.

Definition toy_act (entry : string) (ok : bool) : M Toy unit :=
  fun w => if ok then (Ok tt, toy_log entry w)
           else (Raised (entry +:+ " failed"), toy_log (entry +:+ " failed") w).

#[export] Instance toy_clock : Clock Toy :=
  {| time_time := toy_tick;
     now_isoformat := fun w => ("2024-01-01T00:00:00", w) |}.

#[export] Instance toy_random : Random Toy :=
  {| random_index := toy_draw |}.

#[export] Instance toy_page : Page Toy ToyElem :=
  {| query_selector_all := toy_query_all;
     query_selector := fun selector =>
       (els <- toy_query_all selector ;; ret (head els));
     is_visible := fun e w => (Ok (shown e || (scrolled w && shown_after_scroll e)), w);
     is_enabled := fun e => ret (enabled e);
     scroll_into_view_if_needed := fun e w => (Ok tt, toy_scroll w);
     wait_for_timeout := fun _ => ret tt;
     click := fun e force _ =>
       if force then toy_act "forced click" (accepts_forced e)
       else toy_act "normal click" (accepts_normal e);
     evaluate_click := fun e => toy_act "scripted click" (accepts_scripted e);
     fill := fun e v => toy_act ("fill " +:+ v) (fillable e);
     goto := fun _ => ret tt;
     wait_for_load_state := fun _ _ => ret tt;
     page_url := ret "about:blank";
     page_content := ret "";
     page_title := ret "";
     evaluate_fetch_headers := fun w => (response_headers w, w);
     evaluate_count_forms_without_csrf := fun w => (csrf_count w, w);
     evaluate_interactive_elements := ret PNone |}.

#[export] Instance toy_stages : Stages Toy :=
  {| browser_start := ret tt;
     browser_close := ret tt;
     navigate_to_page := fun u w =>
       (Ok {| url := u; title := ""; content := ""; links := []; images := [];
              forms := snapshot_forms w; meta_tags := ∅; status_code := Some 200;
              load_time := None; page_errors := [] |}, w);
     _analyze_page_deeply := fun _ => ret PNone;
     _search_for_auth_links := ret [];
     _discover_hidden_functionality := ret [];
     _performance_analysis := ret PNone;
     _save_exploration_report := fun _ => ret tt |}.

(** A page with nothing on it. *)
Definition blank : Toy :=
  {| seconds := []; draws := []; dom := []; scrolled := false; snapshot_forms := [];
     response_headers := Ok ∅; csrf_count := Ok 0; log := [] |}.

(** An element with every flag off. *)
Definition dead_elem : ToyElem :=
  {| shown := false; shown_after_scroll := false; enabled := false;
     accepts_normal := false; accepts_forced := false; accepts_scripted := false;
     fillable := false |}.

(** A form with the given text and fields and nothing else. *)
Definition mk_input (n t p : string) : InputField :=
  {| name := n; type := Some t; required := false; placeholder := p; value := "" |}.
Definition mk_form (txt : string) (fields : list InputField) : Form :=
  {| index := 1; action := ""; method := "GET"; inputs := fields; buttons := [];
     classes := ""; form_text := txt; nearby_text := "" |}.

(** ** Vocabulary of the statements *)

(** The form text matched no keyword list and no placeholder asks to create a
    password: the classifier gets as far as the password-and-email rule. *)
Definition reaches_field_rules (form : Form) : bool :=
  negb (any_in registration_keywords (text_lower_of form)) &&
  negb (any_in login_keywords (text_lower_of form)) &&
  negb (any_in contact_keywords (text_lower_of form)) &&
  negb (any_in search_keywords (text_lower_of form)) &&
  negb (any_in subscription_keywords (text_lower_of form)) &&
  negb (existsb (any_in create_password_keywords) (input_placeholders_of form)).

(** The registration indicators other than the field count. *)
Definition content_indicators (form : Form) : list bool :=
  firstn 9 (registration_indicators form).

(** Some field name contains the word. *)
Definition some_name_contains (word : string) (form : Form) : bool :=
  existsb (fun inp => str_in word (name inp)) (inputs form).

(** Sample forms. *)
Definition password_confirm_form : Form :=
  mk_form "" [ mk_input "password" "password" "";
               mk_input "confirm_password" "password" "" ].

Definition signup_form : Form :=
  mk_form "" [ mk_input "email" "email" "";
               mk_input "password" "password" "";
               mk_input "confirm_password" "password" "" ].

Definition search_box_with_credentials : Form :=
  mk_form "Search" [ mk_input "pw" "password" ""; mk_input "mail" "email" "" ].

Definition two_field_form : Form :=
  mk_form "" [ mk_input "pw" "password" ""; mk_input "mail" "email" "" ].

Definition sample_test_data : gmap string string :=
  test_data_of first_persona 1700000000 "abc123".

(** The clock stands still for two readings, and the random source repeats
    itself. *)
Definition frozen : Toy :=
  {| seconds := [1700000000; 1700000000];
     draws := [0; 1; 2; 3; 4; 5; 0; 1; 2; 3; 4; 5]%nat;
     dom := []; scrolled := false; snapshot_forms := [];
     response_headers := Ok ∅; csrf_count := Ok 0; log := [] |}.

(** The e-mail slots of two successive calls of the generator. *)
Definition successive_emails {W : Type} `{Clock W, Random W}
    (persona : Persona) (purpose : string) (w : W)
    : option (option string * option string) :=
  match generate persona purpose w with
  | (Ok d1, w1) =>
      match generate persona purpose w1 with
      | (Ok d2, _) => Some (d1 !! "email", d2 !! "email")
      | _ => None
      end
  | _ => None
  end.

(** An action that never raises. *)
Definition total {W A : Type} (m : M W A) : Prop :=
  forall w, exists a w', m w = (Ok a, w').

(** The three shapes of a security finding. *)
Definition headers_finding_shape (f : gmap string pyval) : Prop :=
  f !! "type" = Some (PStr "missing_security_headers") /\
  f !! "severity" = Some (PStr "medium") /\
  is_Some (f !! "headers").

Definition csrf_finding_shape (f : gmap string pyval) : Prop :=
  f !! "type" = Some (PStr "forms_without_csrf") /\
  f !! "severity" = Some (PStr "high") /\
  is_Some (f !! "count").

Definition error_finding_shape (f : gmap string pyval) : Prop :=
  f !! "type" = Some (PStr "security_analysis_error") /\
  f !! "severity" = None /\
  is_Some (f !! "error").

(** A page whose headers cannot be fetched. *)
Definition unreachable : Toy :=
  {| seconds := []; draws := []; dom := []; scrolled := false; snapshot_forms := [];
     response_headers := Raised "net::ERR_FAILED"; csrf_count := Ok 0; log := [] |}.

(** What [_fill_form_intelligently] returns for the two lists of the loop. *)
Definition fill_result_of (acc : list FilledField * list string) : FillResult :=
  {| success := (0 <? length (fst acc))%nat;
     filled_fields := fst acc;
     errors := snd acc |}.

(** A page whose e-mail field refuses input and whose password field takes
    it. *)
Definition stubborn_email_page : Toy :=
  {| seconds := []; draws := [];
     dom := [ ("input[name='email']",
               Some [ {| shown := true; shown_after_scroll := true; enabled := true;
                         accepts_normal := true; accepts_forced := true;
                         accepts_scripted := true; fillable := false |} ]);
              ("input[name='password']",
               Some [ {| shown := true; shown_after_scroll := true; enabled := true;
                         accepts_normal := true; accepts_forced := true;
                         accepts_scripted := true; fillable := true |} ]) ];
     scrolled := false; snapshot_forms := [];
     response_headers := Ok ∅; csrf_count := Ok 0; log := [] |}.

Definition email_password_form : Form :=
  mk_form "" [ mk_input "email" "email" ""; mk_input "password" "password" "" ].

Section ResolverVocabulary.
Context {W E : Type} `{Page W E}.

(** Each element of the list was tried, in order, and its attempt raised. *)
Inductive all_fail : list E -> W -> W -> Prop :=
| all_fail_nil w : all_fail [] w w
| all_fail_cons element rest w e w1 w2 :
    click_element element w = (Raised e, w1) ->
    all_fail rest w1 w2 ->
    all_fail (element :: rest) w w2.

(** Each selector of the list was tried, in order: its query raised, or each
    element it matched was tried and failed. *)
Inductive exhausted : list string -> W -> W -> Prop :=
| exhausted_nil w : exhausted [] w w
| exhausted_query_raised selector rest w e w1 w2 :
    query_selector_all selector w = (Raised e, w1) ->
    exhausted rest w1 w2 ->
    exhausted (selector :: rest) w w2
| exhausted_elements selector rest w elements w1 w2 w3 :
    query_selector_all selector w = (Ok elements, w1) ->
    all_fail elements w1 w2 ->
    exhausted rest w2 w3 ->
    exhausted (selector :: rest) w w3.

(** The selector is the first of the list with an element whose click
    succeeded, that element is the first such of the selector, and the click
    was of the given kind; [w'] is the world right after that click. *)
Definition first_success (selectors : list string) (w : W)
    (selector : string) (k : ClickKind) (w' : W) : Prop :=
  exists before after failed element others w1 w2 w3,
    selectors = before ++ selector :: after /\
    exhausted before w w1 /\
    query_selector_all selector w1 = (Ok (failed ++ element :: others), w2) /\
    all_fail failed w2 w3 /\
    click_element element w3 = (Ok k, w').

End ResolverVocabulary.

(** A button under an overlay: never visible, enabled, taking a forced
    click only. *)
Definition covered_button : ToyElem :=
  {| shown := false; shown_after_scroll := false; enabled := true;
     accepts_normal := false; accepts_forced := true; accepts_scripted := true;
     fillable := false |}.

(** A button below the fold: visible once scrolled to. *)
Definition low_button : ToyElem :=
  {| shown := false; shown_after_scroll := true; enabled := true;
     accepts_normal := true; accepts_forced := true; accepts_scripted := true;
     fillable := false |}.

Definition signup_page (button : ToyElem) : Toy :=
  {| seconds := []; draws := [];
     dom := [ ("button:has-text('Sign up')", None);
              ("[role='button']:has-text('Sign up')", Some [dead_elem; button]) ];
     scrolled := false; snapshot_forms := [];
     response_headers := Ok ∅; csrf_count := Ok 0; log := [] |}.

(** The keys of the report that stages 3 to 8 write. *)
Definition later_keys : list string :=
  [ "registration_attempts"; "form_interactions"; "hidden_functionality";
    "user_flows"; "security_findings"; "performance_insights" ].

(** The report as it stands after stage 2. *)
Definition report_after_discovery (url timestamp : string) (max_depth : Z)
    (analysis : pyval) (auth_forms : list AuthForm) : gmap string pyval :=
  <["auth_forms_discovered" := PInt (Z.of_nat (length auth_forms))]>
    (<["main_page_analysis" := analysis]> (initial_report url timestamp max_depth)).

(** The run on the page with nothing on it. *)
Definition blank_run (max_depth : Z) : outcome (gmap string pyval) * Toy :=
  deep_explore_website "https://example.com" max_depth blank.

Definition blank_report (max_depth : Z) : gmap string pyval :=
  match fst (blank_run max_depth) with
  | Ok report => report
  | Raised _ => ∅
  end.

(** ** Further vocabulary *)

(** The labels the classifier can give. *)
Definition classifier_labels : list string :=
  [ "registration"; "login"; "contact"; "search"; "subscription"; "unknown" ].

(** A form with its texts, and the names, types and placeholders of its
    fields, put in lower case. *)
Definition lower_input (inp : InputField) : InputField :=
  {| name := lower (name inp);
     type := option_map lower (type inp);
     required := required inp;
     placeholder := lower (placeholder inp);
     value := value inp |}.

Definition lower_form (form : Form) : Form :=
  {| index := index form; action := action form; method := method form;
     inputs := map lower_input (inputs form); buttons := buttons form;
     classes := classes form;
     form_text := lower (form_text form);
     nearby_text := lower (nearby_text form) |}.

(** The label makes a form an auth form for [_discover_auth_forms]. *)
Definition is_auth_label (label : string) : bool :=
  String.eqb label "registration" || String.eqb label "login".

Definition login_or_signup_form : Form :=
  mk_form "Already a member? Login" [ mk_input "email" "email" ""; mk_input "pw" "password" "" ].

Definition login_form_near_signup : Form :=
  {| index := 1; action := ""; method := "POST";
     inputs := [ mk_input "email" "email" ""; mk_input "pw" "password" "" ];
     buttons := []; classes := "";
     form_text := "Welcome back";
     nearby_text := "Welcome back  New here? SIGN UP" |}.

(** Some keyword of the list occurs in the name, the type or the placeholder
    of a field, letter case aside. *)
Definition hint_has (keywords : list string) (field_name field_type placeholder : string)
    : bool :=
  any_in keywords (lower field_name) || any_in keywords (lower field_type)
  || any_in keywords (lower placeholder).

(** The keywords of the rules of the field matcher, in the order of the
    rules. *)
Definition matcher_keywords : list string :=
  [ "email"; "e-mail"; "password"; "pass"; "username"; "user"; "login";
    "first"; "fname"; "last"; "lname"; "surname"; "name"; "phone"; "tel";
    "address"; "city"; "country"; "company"; "organization"; "age";
    "zip"; "postal" ].

(** No keyword of the list contains the character. *)
Definition free_of (c : ascii) (keywords : list string) : bool :=
  forallb (fun keyword => negb (str_in (String c "") keyword)) keywords.

(** Every character of the text is a character of the alphabet. *)
Fixpoint drawn_from (alphabet : string) (s : string) : bool :=
  match s with
  | EmptyString => true
  | String c s' => str_in (String c "") alphabet && drawn_from alphabet s'
  end.

(** The value the form filler asks the matcher for, for one field. *)
Definition matched_value (test_data : gmap string string) (input_field : InputField)
    : option string :=
  _match_field_to_data (lower (name input_field)) (lower (get_type input_field "text"))
    (lower (placeholder input_field)) test_data.

(** The field gets no value: the matcher gave none, or gave the empty
    string. *)
Definition skipped (test_data : gmap string string) (input_field : InputField) : bool :=
  match matched_value test_data input_field with
  | Some v => negb (truthy v)
  | None => true
  end.

(** The entry of [filled_fields] belongs to the field. *)
Definition entry_of (test_data : gmap string string) (input_field : InputField)
    (entry : FilledField) : Prop :=
  field entry = lower (name input_field) /\
  field_type entry = lower (get_type input_field "text") /\
  exists v, matched_value test_data input_field = Some v /\
            truthy v = true /\ value_preview entry = preview v.

Definition comment_form : Form :=
  mk_form "" [ mk_input "comment" "textarea" ""; mk_input "rating" "range" "" ].

(** The top-level keys of a report. *)
Definition report_keys : list string :=
  [ "url"; "timestamp"; "exploration_depth"; "discovered_pages";
    "registration_attempts"; "form_interactions"; "hidden_functionality";
    "user_flows"; "security_findings"; "accessibility_issues";
    "performance_insights"; "main_page_analysis"; "auth_forms_discovered" ].

(** The link is one [_analyze_user_flows] follows. *)
Definition followed_link (link : string) : bool :=
  startswith "http" link && negb (str_in "javascript:" link).

(** A page that has all the hardening headers and no unprotected form. *)
Definition hardened : Toy :=
  {| seconds := []; draws := []; dom := []; scrolled := false; snapshot_forms := [];
     response_headers :=
       Ok (list_to_map [ ("x-frame-options", PStr "DENY");
                         ("x-content-type-options", PStr "nosniff");
                         ("x-xss-protection", PStr "0");
                         ("strict-transport-security", PStr "max-age=31536000");
                         ("content-security-policy", PStr "default-src 'self'");
                         ("content-type", PStr "text/html") ]);
     csrf_count := Ok 0; log := [] |}.

Definition login_only : list AuthForm :=
  [ {| af_form := two_field_form; purpose := "login"; confidence := (8 # 10)%Q;
       source_url := None; trigger_button := None; switch_button := None |} ].

(** ** The other prompts of the demo ([smart_demo.py]) *)

(** What a prompt makes of the console: an answer and the events left over,
    or one of the ways of not answering. *)
Inductive Prompt (A : Type) : Type :=
| Answered (a : A) (rest : list ConsoleEvent)
| PExited
| PFailed (e : string)
| PWaiting.
Arguments Answered {A} a rest.
Arguments PExited {A}.
Arguments PFailed {A} e.
Arguments PWaiting {A}.

(** [get_user_choice] *)
Fixpoint get_user_choice (console : list ConsoleEvent) : Prompt string :=
  match console with
  | [] => PWaiting
  | KeyboardInterrupt :: _ => PExited
  | EndOfFile :: _ => PFailed "EOFError"
  | Line typed :: rest =>
      let choice := strip typed in
      if list_in choice ["1"; "2"; "3"; "4"; "5"] then Answered choice rest
      else get_user_choice rest
  end.

(** [get_custom_url] *)
Fixpoint get_custom_url (console : list ConsoleEvent) : Prompt string :=
  match console with
  | [] => PWaiting
  | KeyboardInterrupt :: _ => PExited
  | EndOfFile :: _ => PFailed "EOFError"
  | Line typed :: rest =>
      let url := strip typed in
      if truthy url then
        Answered (if negb (startswith "http://" url || startswith "https://" url)
                  then "https://" +:+ url else url) rest
      else get_custom_url rest
  end.

(** [get_exploration_depth], with the events it leaves over. *)
Fixpoint get_exploration_depth_on (console : list ConsoleEvent) : Prompt Z :=
  match console with
  | [] => PWaiting
  | KeyboardInterrupt :: _ => PExited
  | EndOfFile :: _ => PFailed "EOFError"
  | Line typed :: rest =>
      let depth := strip typed in
      if negb (truthy depth) then Answered 3 rest
      else match py_int depth with
           | Some depth =>
               if (1 <=? depth) && (depth <=? 5) then Answered depth rest
               else get_exploration_depth_on rest
           | None => get_exploration_depth_on rest
           end
  end.

(** The result of a prompt, the events left over forgotten. *)
Definition prompt_result (p : Prompt Z) : PromptResult :=
  match p with
  | Answered depth _ => Returned depth
  | PExited => Exited
  | PFailed e => Failed e
  | PWaiting => Waiting
  end.

(** [get_demo_sites]: the address of each demonstration site. *)
Definition demo_site_url (choice : string) : option string :=
  if String.eqb choice "1" then Some "https://httpbin.org/forms/post"
  else if String.eqb choice "2" then Some "http://books.toscrape.com"
  else if String.eqb choice "3" then Some "https://example.com"
  else if String.eqb choice "4" then Some "https://jsonplaceholder.typicode.com"
  else None.

(** The first part of a round of [main]: the address and the depth that
    [run_smart_exploration] is then called with.  [sites[choice]] raises
    [KeyError] for a choice that is no site. *)
Definition demo_inputs (console : list ConsoleEvent) : Prompt (string * Z) :=
  match get_user_choice console with
  | Answered choice rest =>
      let url_prompt :=
        if String.eqb choice "5" then get_custom_url rest
        else match demo_site_url choice with
             | Some url => Answered url rest
             | None => PFailed "KeyError"
             end in
      match url_prompt with
      | Answered url rest' =>
          match get_exploration_depth_on rest' with
          | Answered depth rest'' => Answered (url, depth) rest''
          | PExited => PExited
          | PFailed e => PFailed e
          | PWaiting => PWaiting
          end
      | PExited => PExited
      | PFailed e => PFailed e
      | PWaiting => PWaiting
      end
  | PExited => PExited
  | PFailed e => PFailed e
  | PWaiting => PWaiting
  end.

(** The address has a scheme. *)
Definition has_scheme (url : string) : bool :=
  startswith "http://" url || startswith "https://" url.

(** ** Code that appends to a list while it runs
    The list lives next to the world, so that what was appended before an
    exception is still there after it. *)

Section Accumulate.
Context {W X : Type}.

Definition lift_acc {A} (m : M W A) : M (W * list X) A :=
  fun s => let '(r, w') := m (fst s) in (r, (w', snd s)).

(** [xs.append(x)] *)
Definition append_acc (x : X) : M (W * list X) unit :=
  fun s => (Ok tt, (fst s, snd s ++ [x])).

Definition read_acc : M (W * list X) (list X) :=
  fun s => (Ok (snd s), s).

(** [for x in xs: body(x)] *)
Fixpoint for_each {A} (body : A -> M (W * list X) unit) (xs : list A)
    : M (W * list X) unit :=
  match xs with
  | [] => ret tt
  | x :: rest => body x ;;; for_each body rest
  end.

(** The code starts from the empty list and returns the list; the code
    itself catches what is raised inside it. *)
Definition collect (m : M (W * list X) unit) : M W (list X) :=
  fun w => let '(_, s) := m (w, []) in (Ok (snd s), fst s).

(** The code keeps a property of the entries of the list, whether it
    returns or raises. *)
Definition keeps (P : X -> Prop) {A} (m : M (W * list X) A) : Prop :=
  forall s, Forall P (snd s) -> Forall P (snd (snd (m s))).

End Accumulate.

(** [s.split()] *)
Fixpoint py_split_go (cur s : string) : list string :=
  match s with
  | EmptyString => if truthy cur then [cur] else []
  | String c s' =>
      if is_space c
      then (if truthy cur then cur :: py_split_go "" s' else py_split_go "" s')
      else py_split_go (cur +:+ String c "") s'
  end.

Definition py_split (s : string) : list string := py_split_go "" s.

(** ** The stages in full
    [_search_for_auth_links], [_discover_hidden_functionality] and
    [_generate_performance_recommendations] of the agent and
    [navigate_to_page] of [browser_tool.py], as the source has them. *)

Module Stage.

(** One entry of [auth_links]. *)
Record LinkInfo := { link_href : string; link_text : string }.

(** One entry of [mode_switches]. *)
Record SwitchInfo := {
  sw_text : string;
  sw_tagName : string;
  sw_className : string;
  sw_href : string;
  sw_role : string
}.

(** The scripts [_search_for_auth_links] and [_debug_page_elements] evaluate
    in the page.  The three scripts that list the forms are one operation:
    the keys they leave out of a form ([buttons], [classes], and
    [nearby_text] on the page of a link) are read by the classifier with an
    empty default, which is what an empty field of [Form] stands for. *)
Class AuthProbe (W : Type) := {
  evaluate_auth_links : M W (list LinkInfo);
  evaluate_signup_buttons : M W (list ButtonInfo);
  evaluate_debug_elements : string -> M W unit;
  evaluate_forms : M W (list Form);
  evaluate_mode_switches : M W (list SwitchInfo)
}.

Definition modal_entry (form : Form) (form_purpose button_text : string) : AuthForm :=
  {| af_form := form; purpose := form_purpose; confidence := (9 # 10)%Q;
     source_url := Some "modal_window"; trigger_button := Some button_text;
     switch_button := None |}.

Definition switched_entry (form : Form) (form_purpose button_text switch_text : string)
    : AuthForm :=
  {| af_form := form; purpose := form_purpose; confidence := (95 # 100)%Q;
     source_url := Some "modal_window"; trigger_button := Some button_text;
     switch_button := Some switch_text |}.

Definition link_entry (form : Form) (form_purpose link : string) : AuthForm :=
  {| af_form := form; purpose := form_purpose; confidence := (9 # 10)%Q;
     source_url := Some link; trigger_button := None; switch_button := None |}.

Section Search.
Context {W E : Type} `{Page W E, AuthProbe W}.

#[local] Abbreviation AccM := (M (W * list AuthForm)).

(** [_debug_page_elements]: what it prints is not modelled; it catches
    whatever its script raises. *)
Definition _debug_page_elements (search_text : string) : AccM unit :=
  try_ (lift_acc (evaluate_debug_elements search_text)) (fun _ => ret tt).

(** [for updated_form in updated_forms]: the first registration form is
    appended and ends the loop. *)
Fixpoint add_first_registration (button_text switch_text : string)
    (updated_forms : list Form) : AccM unit :=
  match updated_forms with
  | [] => ret tt
  | updated_form :: rest =>
      let updated_purpose := _classify_form_purpose updated_form in
      if String.eqb updated_purpose "registration"
      then append_acc (switched_entry updated_form updated_purpose button_text switch_text)
      else add_first_registration button_text switch_text rest
  end.

(** The body of [try] for one mode switch: [true] when the [break] after the
    click was reached. *)
Definition use_switch (button_text : string) (switch : SwitchInfo) : AccM bool :=
  let switch_selector :=
    if String.eqb (sw_tagName switch) "A"
    then "a:has-text('" +:+ sw_text switch +:+ "')"
    else "button:has-text('" +:+ sw_text switch +:+ "')" in
  switch_element <- lift_acc (query_selector switch_selector) ;;
  match switch_element with
  | Some el =>
      lift_acc (click el false None) ;;;
      lift_acc (wait_for_timeout 2000) ;;;
      updated_forms <- lift_acc evaluate_forms ;;
      add_first_registration button_text (sw_text switch) updated_forms ;;;
      ret true
  | None => ret false
  end.

(** [for switch in mode_switches] *)
Fixpoint try_switches (button_text : string) (mode_switches : list SwitchInfo)
    : AccM unit :=
  match mode_switches with
  | [] => ret tt
  | switch :: rest =>
      if any_in ["sign up"; "register"; "create"] (lower (sw_text switch)) then
        done <- try_ (use_switch button_text switch) (fun _ => ret false) ;;
        if done then ret tt else try_switches button_text rest
      else try_switches button_text rest
  end.

(** The body of [for form in modal_forms]. *)
Definition handle_modal_form (button_text : string) (form : Form) : AccM unit :=
  let form_purpose := _classify_form_purpose form in
  (if list_in form_purpose ["registration"; "login"]
   then append_acc (modal_entry form form_purpose button_text)
   else ret tt) ;;;
  auth_forms <- read_acc ;;
  (if existsb (fun f => opt_eqb (source_url f) "modal_window"
                        && String.eqb (purpose f) "login") auth_forms
   then mode_switches <- lift_acc evaluate_mode_switches ;;
        try_switches button_text mode_switches
   else ret tt) ;;;
  lift_acc close_modal.

(** The body of [for button_info in signup_buttons[:2]]. *)
Definition try_button (button_info : ButtonInfo) : AccM unit :=
  try_ (button_clicked <-
          lift_acc (resolve (signup_selectors button_info
                               (take 3 (py_split (className button_info))))) ;;
        match button_clicked with
        | None =>
            _debug_page_elements
              (if truthy (bi_text button_info) then bi_text button_info else "sign up")
        | Some _ =>
            lift_acc (wait_for_timeout 3000) ;;;
            modal_forms <- lift_acc evaluate_forms ;;
            for_each (handle_modal_form (bi_text button_info)) modal_forms
        end)
       (fun _ => ret tt).

(** The body of [for link in auth_links[:3]]. *)
Definition visit_link (link : LinkInfo) : AccM unit :=
  try_ (lift_acc (goto (link_href link)) ;;;
        lift_acc (wait_for_load_state "networkidle" 5000) ;;;
        page_forms <- lift_acc evaluate_forms ;;
        for_each (fun form =>
                    let form_purpose := _classify_form_purpose form in
                    if list_in form_purpose ["registration"; "login"]
                    then append_acc (link_entry form form_purpose (link_href link))
                    else ret tt)
                 page_forms)
       (fun _ => ret tt).

Definition search_body : AccM unit :=
  try_ (auth_links <- lift_acc evaluate_auth_links ;;
        signup_buttons <- lift_acc evaluate_signup_buttons ;;
        (if Nat.eqb (length signup_buttons) 0
         then _debug_page_elements "sign up" ;;; _debug_page_elements "register"
         else ret tt) ;;;
        for_each try_button (take 2 signup_buttons) ;;;
        for_each visit_link (take 3 auth_links))
       (fun _ => ret tt).

Definition _search_for_auth_links : M W (list AuthForm) := collect search_body.

End Search.

(** *** [_discover_hidden_functionality] *)

Class HiddenProbe (W : Type) := {
  evaluate_hidden_elements : M W (list pyval);
  evaluate_html_comments : M W (list pyval);
  evaluate_data_attributes : M W (list pyval)
}.

Definition hidden_elements_entry (hidden_elements : list pyval) : gmap string pyval :=
  list_to_map [ ("type", PStr "hidden_elements");
                ("count", PInt (Z.of_nat (length hidden_elements)));
                ("elements", PList hidden_elements) ].

Definition html_comments_entry (html_comments : list pyval) : gmap string pyval :=
  list_to_map [ ("type", PStr "html_comments"); ("comments", PList html_comments) ].

Definition data_attributes_entry (data_attributes : list pyval) : gmap string pyval :=
  list_to_map [ ("type", PStr "data_attributes"); ("attributes", PList data_attributes) ].

Definition hidden_error_entry (e : string) : gmap string pyval :=
  list_to_map [ ("type", PStr "error");
                ("message", PStr ("Error discovering hidden functionality: " +:+ e)) ].

(** [if xs: hidden_features.append(entry)] *)
Definition append_if_any {W : Type} (xs : list pyval) (entry : gmap string pyval)
    : M (W * list (gmap string pyval)) unit :=
  match xs with
  | [] => ret tt
  | _ => append_acc entry
  end.

Section Hidden.
Context {W : Type} `{HiddenProbe W}.

Definition _discover_hidden_functionality : M W (list (gmap string pyval)) :=
  collect
    (try_ (hidden_elements <- lift_acc evaluate_hidden_elements ;;
           append_if_any hidden_elements (hidden_elements_entry hidden_elements) ;;;
           html_comments <- lift_acc evaluate_html_comments ;;
           append_if_any html_comments (html_comments_entry html_comments) ;;;
           data_attributes <- lift_acc evaluate_data_attributes ;;
           append_if_any data_attributes (data_attributes_entry data_attributes))
          (fun e => append_acc (hidden_error_entry e))).

End Hidden.

(** *** [_generate_performance_recommendations]
    The numbers of the metrics are taken as rationals. *)

Definition metric (metrics : gmap string Q) (key : string) : Q :=
  default 0%Q (metrics !! key).

(** [a > b] *)
Definition Qgtb (a b : Q) : bool := negb (Qle_bool a b).

Definition slow_page_advice : string :=
  "Page load time is over 3 seconds - consider optimization".
Definition many_resources_advice : string :=
  "High number of resources - consider bundling and minification".
Definition large_resource_advice : string :=
  "Large resources detected - consider compression and lazy loading".

Definition _generate_performance_recommendations (metrics : gmap string Q) : list string :=
  (if Qgtb (metric metrics "page_load_time") (inject_Z 3000)
   then [slow_page_advice] else []) ++
  (if Qgtb (metric metrics "resources_count") (inject_Z 50)
   then [many_resources_advice] else []) ++
  (if Qgtb (metric metrics "largest_resource") (inject_Z 1000000)
   then [large_resource_advice] else []).

(** *** [navigate_to_page] of [browser_tool.py] *)

(** What the browser tool does to the browser: whether a page is open, the
    navigation with the status of its response, the wait for the network,
    the seconds since the start and the extraction of the snapshot. *)
Class Navigator (W : Type) := {
  page_open : W -> bool;
  goto_status : string -> M W (option Z);
  wait_network_idle : Z -> M W unit;
  seconds_since_start : W -> Q * W;
  _extract_page_info : string -> option Z -> Q -> M W PageInfo
}.

(** [Config.PAGE_LOAD_TIMEOUT] *)
Definition PAGE_LOAD_TIMEOUT : Z := 10000.

Definition with_errors (page_info : PageInfo) (errors : list string) : PageInfo :=
  {| url := url page_info; title := title page_info; content := content page_info;
     links := links page_info; images := images page_info; forms := forms page_info;
     meta_tags := meta_tags page_info; status_code := status_code page_info;
     load_time := load_time page_info; page_errors := errors |}.

(** The snapshot returned when loading failed. *)
Definition failed_snapshot (u : string) (seconds : Q) (e : string) : PageInfo :=
  {| url := u; title := ""; content := ""; links := []; images := []; forms := [];
     meta_tags := ∅; status_code := None; load_time := Some seconds;
     page_errors := ["Ошибка при загрузке страницы: " +:+ e] |}.

Section Navigate.
Context {W : Type} `{Navigator W}.

Definition navigate_to_page (u : string) : M W PageInfo :=
  fun w =>
    if negb (page_open w)
    then (Raised "Браузер не запущен. Используйте async with или вызовите start()", w)
    else
      try_ (status <- goto_status u ;;
            wait_network_idle PAGE_LOAD_TIMEOUT ;;;
            seconds <- lift seconds_since_start ;;
            page_info <- _extract_page_info u status seconds ;;
            ret (with_errors page_info []))
           (fun e =>
              seconds <- lift seconds_since_start ;;
              ret (failed_snapshot u seconds e))
           w.

End Navigate.

End Stage.

(** What every entry found by [_search_for_auth_links] is like. *)
Definition found_entry_ok (f : AuthForm) : Prop :=
  purpose f = _classify_form_purpose (af_form f) /\
  (purpose f = "registration" \/ purpose f = "login") /\
  is_Some (source_url f) /\
  match switch_button f with
  | Some _ =>
      purpose f = "registration" /\ confidence f = (95 # 100)%Q /\
      source_url f = Some "modal_window" /\ is_Some (trigger_button f)
  | None =>
      confidence f = (9 # 10)%Q /\
      (is_Some (trigger_button f) -> source_url f = Some "modal_window")
  end.

(** Where an entry found by [_search_for_auth_links] comes from: a modal
    window opened by one of the given buttons, or the page of one of the
    given links. *)
Definition found_entry_from (buttons : list ButtonInfo) (auth_links : list Stage.LinkInfo)
    (f : AuthForm) : Prop :=
  (exists button_info, In button_info buttons /\
     trigger_button f = Some (bi_text button_info) /\
     source_url f = Some "modal_window") \/
  (exists link, In link auth_links /\
     trigger_button f = None /\ source_url f = Some (Stage.link_href link)).

(** The property holds of the entries that a modal window opened by the
    button can add. *)
Definition modal_ok (P : AuthForm -> Prop) (button_text : string) : Prop :=
  (forall form,
     list_in (_classify_form_purpose form) ["registration"; "login"] = true ->
     P (Stage.modal_entry form (_classify_form_purpose form) button_text)) /\
  (forall form switch_text,
     _classify_form_purpose form = "registration" ->
     P (Stage.switched_entry form (_classify_form_purpose form) button_text switch_text)).

(** The property holds of the entries that the page of the link can add. *)
Definition link_ok (P : AuthForm -> Prop) (link : string) : Prop :=
  forall form,
    list_in (_classify_form_purpose form) ["registration"; "login"] = true ->
    P (Stage.link_entry form (_classify_form_purpose form) link).



(** The kinds of entry [_discover_hidden_functionality] can add, in the
    order the code adds them. *)
Definition hidden_kinds : list (option pyval) :=
  [ Some (PStr "hidden_elements"); Some (PStr "html_comments");
    Some (PStr "data_attributes"); Some (PStr "error") ].

(** [entry.get('type')] *)
Definition kind_of (entry : gmap string pyval) : option pyval := entry !! "type".

(** An entry of the hidden features: one of the three kinds, built from a
    list that is not empty, or the error entry. *)
Definition hidden_entry_ok (entry : gmap string pyval) : Prop :=
  (exists xs, xs <> [] /\ entry = Stage.hidden_elements_entry xs) \/
  (exists xs, xs <> [] /\ entry = Stage.html_comments_entry xs) \/
  (exists xs, xs <> [] /\ entry = Stage.data_attributes_entry xs) \/
  (exists e, entry = Stage.hidden_error_entry e).

(** The third persona, whose name, address and company are not ASCII. *)
Definition edge_case_user : Persona := nth 2 _create_user_personas first_persona.

(** The selector [_submit_form_safely] looks the submit button up with. *)
Definition submit_button_selector : string :=
  "input[type='submit'], button[type='submit'], button:has-text('Submit'), button:has-text('Register'), button:has-text('Sign up')".

(** A page whose snapshot holds one login form, and the run on it. *)
Definition login_page : Toy :=
  {| seconds := []; draws := []; dom := []; scrolled := false;
     snapshot_forms := [email_password_form];
     response_headers := Ok ∅; csrf_count := Ok 0; log := [] |}.

Definition login_run : outcome (gmap string pyval) * Toy :=
  deep_explore_website "https://example.com" 3 login_page.

Definition login_report : gmap string pyval :=
  match fst login_run with
  | Ok report => report
  | Raised _ => ∅
  end.

(** * Properties *)

(** ** Strings *)

#[local] Arguments String.append !_ _ / : simpl nomatch.

Lemma prefix_split kw s :
  String.prefix kw s = true <-> exists post, s = kw +:+ post.
Proof.
  revert s. induction kw as [|a kw IH]; intros [|b s]; simpl.
  - split; [intros _; exists ""; reflexivity | reflexivity].
  - split; [intros _; exists (String b s); reflexivity | reflexivity].
  - split; [discriminate | intros [post Hp]; discriminate].
  - destruct (ascii_dec a b) as [->|Hne].
    + rewrite IH. split; intros [post Hp]; exists post.
      * now rewrite Hp.
      * now injection Hp.
    + split; [discriminate | intros [post Hp]; injection Hp; congruence].
Qed.

Lemma append_assoc (a b c : string) : (a +:+ b) +:+ c = a +:+ (b +:+ c).
Proof. induction a as [|x a IH]; simpl; [reflexivity | now rewrite IH]. Qed.

Lemma append_nil_r (a : string) : a +:+ "" = a.
Proof. induction a as [|x a IH]; simpl; [reflexivity | now rewrite IH]. Qed.

Lemma str_in_nil kw : str_in kw "" = String.prefix kw "".
Proof. change (str_in kw "") with (String.prefix kw "" || false). apply orb_false_r. Qed.

Lemma str_in_cons kw c s :
  str_in kw (String c s) = String.prefix kw (String c s) || str_in kw s.
Proof. reflexivity. Qed.

(** [str_in] is the substring test. *)
Lemma str_in_split kw s :
  str_in kw s = true <-> exists pre post, s = pre +:+ kw +:+ post.
Proof.
  induction s as [|c s IH].
  - rewrite str_in_nil, prefix_split. split.
    + intros [post Hp]. exists "", post. exact Hp.
    + intros [pre [post Hp]]. destruct pre; [exists post; exact Hp | discriminate].
  - rewrite str_in_cons, orb_true_iff, prefix_split, IH. split.
    + intros [[post Hp] | [pre [post Hp]]].
      * exists "", post. exact Hp.
      * exists (String c pre), post. simpl. now rewrite Hp.
    + intros [pre [post Hp]]. destruct pre as [|d pre]; simpl in Hp.
      * left. exists post. exact Hp.
      * right. exists pre, post. congruence.
Qed.

Lemma str_in_app_l kw a b : str_in kw a = true -> str_in kw (a +:+ b) = true.
Proof.
  rewrite !str_in_split. intros [pre [post ->]].
  exists pre, (post +:+ b). now rewrite !append_assoc.
Qed.

Lemma str_in_app_r kw a b : str_in kw b = true -> str_in kw (a +:+ b) = true.
Proof.
  rewrite !str_in_split. intros [pre [post ->]].
  exists (a +:+ pre), post. now rewrite !append_assoc.
Qed.

Lemma lower_app a b : lower (a +:+ b) = lower a +:+ lower b.
Proof. induction a as [|x a IH]; simpl; [reflexivity | now rewrite IH]. Qed.

(** A lower-case keyword found in a text is found in the lowered text. *)
Lemma str_in_lower kw s :
  lower kw = kw -> str_in kw s = true -> str_in kw (lower s) = true.
Proof.
  intros Hkw. rewrite !str_in_split. intros [pre [post ->]].
  exists (lower pre), (lower post). now rewrite !lower_app, Hkw.
Qed.

Lemma str_in_join kw sep x xs :
  In x xs -> str_in kw x = true -> str_in kw (join sep xs) = true.
Proof.
  induction xs as [|y ys IH]; simpl; [tauto|].
  intros [-> | Hin] Hx.
  - destruct ys; [exact Hx | now apply str_in_app_l].
  - destruct ys as [|z zs]; [destruct Hin|].
    apply str_in_app_r, str_in_app_r. now apply IH.
Qed.

Lemma any_in_true kws kw s :
  In kw kws -> str_in kw s = true -> any_in kws s = true.
Proof.
  intros Hin Hs. unfold any_in. apply existsb_exists. now exists kw.
Qed.

(** ** The classifier *)

Lemma all_input_text_has_name form inp kw :
  lower kw = kw ->
  In inp (inputs form) ->
  str_in kw (lower (name inp)) = true ->
  str_in kw (all_input_text_of form) = true.
Proof.
  intros Hkw Hin Hs. unfold all_input_text_of.
  apply str_in_lower; [exact Hkw|].
  apply str_in_join with (x := lower (name inp)); [|exact Hs].
  apply in_or_app. left. unfold input_names_of.
  apply in_map_iff. now exists inp.
Qed.

Lemma classify_by_fields_confirm form inp :
  has_password_and_email form = true ->
  In inp (inputs form) ->
  str_in "confirm" (lower (name inp)) = true ->
  classify_by_fields form = "registration".
Proof.
  intros Hpe Hin Hc. unfold classify_by_fields.
  destruct (existsb _ (input_placeholders_of form)); [reflexivity|].
  rewrite Hpe.
  assert (Hi : existsb id (registration_indicators form) = true).
  { unfold registration_indicators.
    rewrite (all_input_text_has_name form inp "confirm" eq_refl Hin Hc).
    reflexivity. }
  now rewrite Hi.
Qed.

(** C1, as amended.  A form with a password-typed field, an email field (by
    type, or the word in a name or placeholder) and a field whose name
    contains "confirm" is classified [registration], provided its text matches
    no login, contact, search or subscription keyword. *)
Theorem confirm_field_is_registration (form : Form) (inp : InputField) :
  list_in "password" (input_types_of form) = true ->
  (list_in "email" (input_types_of form)
   || str_in "email" (all_input_text_of form)) = true ->
  In inp (inputs form) ->
  str_in "confirm" (lower (name inp)) = true ->
  any_in login_keywords (text_lower_of form) = false ->
  any_in contact_keywords (text_lower_of form) = false ->
  any_in search_keywords (text_lower_of form) = false ->
  any_in subscription_keywords (text_lower_of form) = false ->
  _classify_form_purpose form = "registration".
Proof.
  intros Hp He Hin Hc Hl Hct Hs Hsub.
  unfold _classify_form_purpose.
  destruct (any_in registration_keywords (text_lower_of form)); [reflexivity|].
  rewrite Hl, Hct, Hs, Hsub.
  apply classify_by_fields_confirm with (inp := inp); [|exact Hin|exact Hc].
  unfold has_password_and_email. now rewrite Hp, He.
Qed.

Lemma confirm_field_is_registration_witness :
  _classify_form_purpose signup_form = "registration".
Proof.
  apply (confirm_field_is_registration signup_form
           (mk_input "confirm_password" "password" ""));
    try reflexivity.
  simpl. right. right. left. reflexivity.
Defined.

(** C1 as stated fails: a password field and a "confirm" field without an
    email field are classified [unknown]. *)
Lemma confirm_field_without_email :
  list_in "password" (input_types_of password_confirm_form) = true /\
  some_name_contains "confirm" password_confirm_form = true /\
  _classify_form_purpose password_confirm_form = "unknown" /\
  _classify_form_purpose password_confirm_form <> "registration".
Proof. repeat split; try reflexivity. discriminate. Qed.

(** C6, as amended.  On a form that reaches the field rules and has a
    password-typed field and an email field, the label is [registration] when
    some registration indicator holds and [login] otherwise; with no other
    indicator, two fields give [login] and more than two give
    [registration]. *)
Theorem password_email_rule (form : Form) :
  reaches_field_rules form = true ->
  has_password_and_email form = true ->
  _classify_form_purpose form =
    (if existsb id (registration_indicators form) then "registration" else "login") /\
  (existsb id (content_indicators form) = false ->
   length (inputs form) = 2%nat -> _classify_form_purpose form = "login") /\
  ((2 < length (inputs form))%nat -> _classify_form_purpose form = "registration").
Proof.
  intros Hr Hpe.
  unfold reaches_field_rules in Hr.
  repeat (apply andb_true_iff in Hr; destruct Hr as [Hr ?]).
  repeat match goal with H : negb _ = true |- _ => apply negb_true_iff in H end.
  assert (Hc : _classify_form_purpose form =
    (if existsb id (registration_indicators form) then "registration" else "login")).
  { unfold _classify_form_purpose.
    repeat match goal with H : any_in _ _ = false |- _ => rewrite H; clear H end.
    unfold classify_by_fields.
    match goal with H : existsb _ _ = false |- _ => rewrite H end.
    now rewrite Hpe. }
  split; [exact Hc|]. rewrite Hc. clear Hc.
  unfold content_indicators, registration_indicators.
  cbn [firstn existsb id].
  split.
  - intros Hnone Hlen. rewrite Hlen.
    repeat (apply orb_false_iff in Hnone; destruct Hnone as [? Hnone]).
    repeat match goal with H : _ = false |- _ => rewrite H; clear H end.
    reflexivity.
  - intros Hlen.
    replace (Z.ltb 2 (Z.of_nat (length (inputs form)))) with true
      by (symmetry; apply Z.ltb_lt; lia).
    rewrite !orb_true_r. reflexivity.
Qed.

Lemma password_email_rule_witness :
  _classify_form_purpose two_field_form = "login".
Proof.
  refine (proj1 (proj2 (password_email_rule two_field_form _ _)) _ _);
    reflexivity.
Defined.

(** C6 as stated fails: the text of the form is looked at first, so a
    password-and-email form of two fields and no indicator whose text says
    "Search" is classified [search]. *)
Lemma password_email_form_labelled_search :
  has_password_and_email search_box_with_credentials = true /\
  existsb id (registration_indicators search_box_with_credentials) = false /\
  length (inputs search_box_with_credentials) = 2%nat /\
  _classify_form_purpose search_box_with_credentials = "search" /\
  _classify_form_purpose search_box_with_credentials <> "login".
Proof. repeat split; try reflexivity. discriminate. Qed.

(** ** The field matcher *)

(** C3, the code at the failing input: a checkbox whose name contains
    "email" is given the e-mail address, the keyword rules being tried before
    the checkbox rule. *)
Theorem checkbox_named_email_gets_value :
  _match_field_to_data "newsletter_email" "checkbox" "" sample_test_data
  = Some "testuser.1700000000.abc123@testmail.com".
Proof. vm_compute. reflexivity. Qed.

(** A checkbox that no keyword rule claims is left alone. *)
Lemma plain_checkbox_skipped (test_data : gmap string string) :
  _match_field_to_data "" "checkbox" "" test_data = None.
Proof. reflexivity. Qed.

(** ** The data generator *)

Lemma length_append (a b : string) :
  String.length (a +:+ b) = (String.length a + String.length b)%nat.
Proof. induction a as [|x a IH]; simpl; [reflexivity | now rewrite IH]. Qed.

Lemma append_inv_tail (a b t : string) : a +:+ t = b +:+ t -> a = b.
Proof.
  revert b. induction a as [|x a IH]; intros [|y b] Heq; simpl in Heq.
  - reflexivity.
  - apply (f_equal String.length) in Heq. simpl in Heq.
    rewrite length_append in Heq. lia.
  - apply (f_equal String.length) in Heq. simpl in Heq.
    rewrite length_append in Heq. lia.
  - injection Heq as -> Heq. f_equal. now apply IH.
Qed.

(** Two texts free of a separator, each followed by it, are cut at the same
    place. *)
Lemma append_sep_inj (c : ascii) (a1 a2 r1 r2 : string) :
  str_in (String c "") a1 = false ->
  str_in (String c "") a2 = false ->
  a1 +:+ String c r1 = a2 +:+ String c r2 ->
  a1 = a2 /\ r1 = r2.
Proof.
  revert a2. induction a1 as [|x a1 IH]; intros [|y a2] H1 H2 Heq; simpl in Heq.
  - injection Heq as ->. now split.
  - injection Heq as <- _.
    assert (str_in (String c "") (String c a2) = true)
      by (apply str_in_split; exists "", a2; reflexivity).
    congruence.
  - injection Heq as -> _.
    assert (str_in (String c "") (String c a1) = true)
      by (apply str_in_split; exists "", a1; reflexivity).
    congruence.
  - injection Heq as -> Heq.
    rewrite str_in_cons in H1, H2.
    apply orb_false_iff in H1 as [_ H1]. apply orb_false_iff in H2 as [_ H2].
    destruct (IH a2 H1 H2 Heq) as [-> ->]. now split.
Qed.

Lemma str_of_int_inj (a b : Z) : str_of_int a = str_of_int b -> a = b.
Proof.
  unfold str_of_int. intros Heq.
  apply DecimalZ.to_int_inj.
  assert (Hs : Some (Z.to_int a) = Some (Z.to_int b))
    by (rewrite <- !NilEmpty.isi, Heq; reflexivity).
  congruence.
Qed.

Lemma string_of_uint_no (c : ascii) (d : Decimal.uint) :
  digit_of c = None ->
  str_in (String c "") (NilEmpty.string_of_uint d) = false.
Proof.
  intros Hc.
  induction d as [|d IH|d IH|d IH|d IH|d IH|d IH|d IH|d IH|d IH|d IH];
    cbn [NilEmpty.string_of_uint]; [reflexivity|..];
    rewrite str_in_cons, IH, orb_false_r; simpl;
    (destruct (ascii_dec c _) as [Heq|];
     [subst c; vm_compute in Hc; discriminate Hc | reflexivity]).
Qed.

Lemma str_of_int_no (c : ascii) (z : Z) :
  digit_of c = None -> c <> "-"%char ->
  str_in (String c "") (str_of_int z) = false.
Proof.
  intros Hc Hm. unfold str_of_int.
  destruct (Z.to_int z) as [d|d]; cbn [NilEmpty.string_of_int].
  - now apply string_of_uint_no.
  - rewrite str_in_cons, string_of_uint_no, orb_false_r by exact Hc.
    simpl. destruct (ascii_dec c "-"); [contradiction | reflexivity].
Qed.

Lemma test_data_email persona timestamp random_suffix :
  test_data_of persona timestamp random_suffix !! "email" =
  Some (email_prefix persona +:+ "." +:+ str_of_int timestamp +:+ "."
        +:+ random_suffix +:+ "@testmail.com").
Proof. reflexivity. Qed.

Lemma contact_data_email timestamp :
  contact_data_of timestamp !! "email" =
  Some ("testcontact." +:+ str_of_int timestamp +:+ "@example.com").
Proof. reflexivity. Qed.

Lemma subscription_data_email timestamp :
  subscription_data_of timestamp !! "email" =
  Some ("testsub." +:+ str_of_int timestamp +:+ "@example.com").
Proof. reflexivity. Qed.

Lemma stamped_address_inj (pre post : string) (t1 t2 : Z) :
  pre +:+ str_of_int t1 +:+ String "@" post = pre +:+ str_of_int t2 +:+ String "@" post ->
  t1 = t2.
Proof.
  intros Heq. apply String.app_inj in Heq.
  apply append_sep_inj in Heq as [Heq _];
    [now apply str_of_int_inj | now apply str_of_int_no..].
Qed.

Section GeneratorFacts.
Context {W : Type} `{Clock W, Random W}.

Lemma random_choices_run population k (w : W) :
  exists s w', random_choices population k w = (Ok s, w').
Proof.
  revert w. induction k as [|k IH]; intros w; cbn [random_choices].
  - eexists _, _. reflexivity.
  - unfold bind, lift. destruct (random_index _ w) as [i w1].
    destruct (IH w1) as [s [w2 Hs]]. rewrite Hs. eexists _, _. reflexivity.
Qed.

Lemma generate_test_data_run persona (w : W) :
  exists random_suffix w',
    _generate_test_data persona w
    = (Ok (test_data_of persona (fst (time_time w)) random_suffix), w').
Proof.
  unfold _generate_test_data, bind, lift.
  destruct (time_time w) as [t w1].
  destruct (random_choices_run suffix_alphabet 6 w1) as [s [w2 Hs]].
  rewrite Hs. eexists _, _. reflexivity.
Qed.

Lemma generate_contact_data_run (w : W) :
  _generate_contact_data w
  = (Ok (contact_data_of (fst (time_time w))), snd (time_time w)).
Proof.
  unfold _generate_contact_data, bind, lift. now destruct (time_time w).
Qed.

Lemma generate_subscription_data_run (w : W) :
  _generate_subscription_data w
  = (Ok (subscription_data_of (fst (time_time w))), snd (time_time w)).
Proof.
  unfold _generate_subscription_data, bind, lift. now destruct (time_time w).
Qed.

Lemma generate_search_data_run (w : W) :
  exists i1 i2 i3 w', _generate_search_data w = (Ok (search_data_of i1 i2 i3), w').
Proof.
  unfold _generate_search_data, bind, lift.
  destruct (random_index _ w) as [i1 w1].
  destruct (random_index _ w1) as [i2 w2].
  destruct (random_index _ w2) as [i3 w3].
  eexists _, _, _, _. reflexivity.
Qed.

(** C2, as amended.  Each generator returns the data set of the second it
    read off the clock (and, for registration data, of the suffix it drew).
    The e-mail addresses of two registration data sets of one persona are
    equal exactly when the second and the suffix are the same; those of two
    contact or two subscription data sets exactly when the second is the
    same; search data has no e-mail slot. *)
Theorem emails_differ_with_clock_or_suffix :
  (forall persona (w : W), exists random_suffix w',
     _generate_test_data persona w
     = (Ok (test_data_of persona (fst (time_time w)) random_suffix), w')) /\
  (forall w : W,
     _generate_contact_data w
     = (Ok (contact_data_of (fst (time_time w))), snd (time_time w))) /\
  (forall w : W,
     _generate_subscription_data w
     = (Ok (subscription_data_of (fst (time_time w))), snd (time_time w))) /\
  (forall w : W, exists i1 i2 i3 w',
     _generate_search_data w = (Ok (search_data_of i1 i2 i3), w')) /\
  (forall persona t1 s1 t2 s2,
     test_data_of persona t1 s1 !! "email" = test_data_of persona t2 s2 !! "email"
     <-> t1 = t2 /\ s1 = s2) /\
  (forall t1 t2,
     contact_data_of t1 !! "email" = contact_data_of t2 !! "email" <-> t1 = t2) /\
  (forall t1 t2,
     subscription_data_of t1 !! "email" = subscription_data_of t2 !! "email"
     <-> t1 = t2) /\
  (forall i1 i2 i3, search_data_of i1 i2 i3 !! "email" = None).
Proof.
  split; [exact generate_test_data_run|].
  split; [exact generate_contact_data_run|].
  split; [exact generate_subscription_data_run|].
  split; [exact generate_search_data_run|].
  split; [|split; [|split]].
  - intros persona t1 s1 t2 s2. split.
    + intros Heq. rewrite !test_data_email in Heq. injection Heq as Heq.
      apply String.app_inj in Heq. injection Heq as Heq.
      apply append_sep_inj in Heq as [Ht Hs];
        [| now apply str_of_int_no..].
      split; [now apply str_of_int_inj | now apply append_inv_tail in Hs].
    + intros [-> ->]. reflexivity.
  - intros t1 t2. split; [|intros ->; reflexivity].
    intros Heq. rewrite !contact_data_email in Heq. injection Heq as Heq.
    exact (stamped_address_inj "" "example.com" t1 t2 Heq).
  - intros t1 t2. split; [|intros ->; reflexivity].
    intros Heq. rewrite !subscription_data_email in Heq. injection Heq as Heq.
    exact (stamped_address_inj "" "example.com" t1 t2 Heq).
  - intros i1 i2 i3. reflexivity.
Qed.

End GeneratorFacts.

(** C2 as stated fails: two successive calls within one second give the same
    subscription address, and the same registration address when the random
    suffix repeats as well. *)
Lemma same_second_same_email :
  successive_emails first_persona "subscription" frozen
    = Some (Some "testsub.1700000000@example.com",
            Some "testsub.1700000000@example.com") /\
  successive_emails first_persona "registration" frozen
    = Some (Some "testuser.1700000000.abcdef@testmail.com",
            Some "testuser.1700000000.abcdef@testmail.com").
Proof. split; vm_compute; reflexivity. Qed.

(** ** The monad *)

Section MonadFacts.
Context {W : Type}.

Lemma bind_Ok_inv {A B} (m : M W A) (k : A -> M W B) w b w' :
  bind m k w = (Ok b, w') ->
  exists a w1, m w = (Ok a, w1) /\ k a w1 = (Ok b, w').
Proof.
  unfold bind. destruct (m w) as [[a|e] w1]; [|discriminate].
  intros Hk. now exists a, w1.
Qed.

Lemma total_ret {A} (a : A) : total (ret (W:=W) a).
Proof. intros w. now exists a, w. Qed.

Lemma total_lift {A} (f : W -> A * W) : total (lift f).
Proof. intros w. unfold lift. destruct (f w) as [a w']. now exists a, w'. Qed.

Lemma total_bind {A B} (m : M W A) (k : A -> M W B) :
  total m -> (forall a, total (k a)) -> total (bind m k).
Proof.
  intros Hm Hk w. unfold bind. destruct (Hm w) as [a [w1 ->]]. apply Hk.
Qed.

Lemma total_try {A} (m : M W A) (handler : string -> M W A) :
  (forall e, total (handler e)) -> total (try_ m handler).
Proof.
  intros Hh w. unfold try_. destruct (m w) as [[a|e] w1].
  - now exists a, w1.
  - apply Hh.
Qed.

End MonadFacts.

(** ** Security findings *)

Section SecurityFacts.
Context {W E : Type} `{Page W E}.

Lemma missing_headers_finding_shape l : headers_finding_shape (missing_headers_finding l).
Proof. repeat split. now exists (PList (map PStr l)). Qed.

Lemma csrf_finding_has_shape n : csrf_finding_shape (csrf_finding n).
Proof. repeat split. now exists (PInt n). Qed.

Lemma error_finding_has_shape e : error_finding_shape (error_finding e).
Proof. repeat split. now exists (PStr e). Qed.

(** C8, as amended.  The security stage always returns a list; each of its
    entries has a type of the closed set; the entries for missing headers and
    for forms without a token carry a severity (medium, high), the entry for a
    failed analysis carries the error message and no severity. *)
Theorem security_findings_shapes (w : W) :
  exists findings w',
    _security_analysis w = (Ok findings, w') /\
    Forall (fun f => headers_finding_shape f \/ csrf_finding_shape f
                     \/ error_finding_shape f) findings.
Proof.
  unfold _security_analysis, header_findings, bind, try_, ret.
  destruct (evaluate_fetch_headers w) as [[response|e] w1].
  - set (hs := match missing_headers_of response with
               | [] => []
               | _ => [missing_headers_finding (missing_headers_of response)]
               end).
    assert (Hhs : Forall (fun f => headers_finding_shape f \/ csrf_finding_shape f
                                   \/ error_finding_shape f) hs).
    { subst hs. destruct (missing_headers_of response); constructor;
        [left; apply missing_headers_finding_shape | constructor]. }
    destruct (evaluate_count_forms_without_csrf w1) as [[n|e] w2].
    + eexists _, _. split; [reflexivity|].
      destruct (Z.ltb 0 n); [|exact Hhs].
      apply Forall_app. split; [exact Hhs|].
      constructor; [right; left; apply csrf_finding_has_shape | constructor].
    + eexists _, _. split; [reflexivity|].
      apply Forall_app. split; [exact Hhs|].
      constructor; [right; right; apply error_finding_has_shape | constructor].
  - eexists _, _. split; [reflexivity|].
    constructor; [right; right; apply error_finding_has_shape | constructor].
Qed.

End SecurityFacts.

(** C8 as stated fails: when the headers cannot be fetched the only finding
    is the error entry, which has no severity. *)
Lemma error_finding_without_severity :
  fst (_security_analysis unreachable) = Ok [error_finding "net::ERR_FAILED"] /\
  error_finding "net::ERR_FAILED" !! "type" = Some (PStr "security_analysis_error") /\
  error_finding "net::ERR_FAILED" !! "severity" = None.
Proof. repeat split. Qed.

(** ** Form filling *)

Section FillerFacts.
Context {W E : Type} `{Page W E}.

Lemma fill_step_total test_data acc input_field :
  total (fill_step test_data acc input_field).
Proof.
  unfold fill_step.
  destruct (_match_field_to_data _ _ _ test_data) as [value|]; [|apply total_ret].
  destruct (truthy value); [|apply total_ret].
  apply total_try. intros e. apply total_ret.
Qed.

Lemma fill_loop_total test_data inputs acc : total (fill_loop test_data inputs acc).
Proof.
  revert acc. induction inputs as [|f fs IH]; intros acc; cbn [fill_loop].
  - apply total_ret.
  - apply total_bind; [apply fill_step_total | intros a; apply IH].
Qed.

Lemma fill_loop_app test_data xs ys acc (w : W) :
  fill_loop test_data (xs ++ ys) acc w =
  match fill_loop test_data xs acc w with
  | (Ok acc1, w1) => fill_loop test_data ys acc1 w1
  | (Raised e, w1) => (Raised e, w1)
  end.
Proof.
  revert acc w. induction xs as [|x xs IH]; intros acc w; cbn [fill_loop app].
  - reflexivity.
  - unfold bind. destruct (fill_step test_data acc x w) as [[acc'|e] w1].
    + apply IH.
    + reflexivity.
Qed.

(** The loop only ever appends to the list of errors. *)
Lemma fill_step_keeps_errors test_data acc input_field (w : W) acc' w' msg :
  fill_step test_data acc input_field w = (Ok acc', w') ->
  In msg (snd acc) -> In msg (snd acc').
Proof.
  unfold fill_step.
  destruct (_match_field_to_data _ _ _ test_data) as [value|];
    [|intros [= <- _]; auto].
  destruct (truthy value); [|intros [= <- _]; auto].
  unfold try_, bind, ret.
  destruct (fill_located _ _ _ _ w) as [[[entry|]|e] w1]; intros [= <- _]; cbn; auto.
  intros Hin. apply in_or_app. now left.
Qed.

Lemma fill_loop_keeps_errors test_data inputs acc (w : W) acc' w' msg :
  fill_loop test_data inputs acc w = (Ok acc', w') ->
  In msg (snd acc) -> In msg (snd acc').
Proof.
  revert acc w. induction inputs as [|f fs IH]; intros acc w; cbn [fill_loop].
  - intros [= <- _]. auto.
  - intros Hrun Hin. apply bind_Ok_inv in Hrun as [acc1 [w1 [Hstep Hrest]]].
    eapply IH; [exact Hrest|]. eapply fill_step_keeps_errors; eauto.
Qed.

Lemma fill_form_run form test_data (w : W) acc w' :
  fill_loop test_data (inputs form) ([], []) w = (Ok acc, w') ->
  _fill_form_intelligently form test_data w = (Ok (fill_result_of acc), w').
Proof.
  intros Hrun. unfold _fill_form_intelligently, try_, bind. now rewrite Hrun.
Qed.

(** A field whose filling raises adds its message to the errors and nothing
    else. *)
Lemma fill_step_failure test_data acc input_field (w : W) value e w' :
  _match_field_to_data (lower (name input_field))
    (lower (get_type input_field "text")) (lower (placeholder input_field)) test_data
    = Some value ->
  truthy value = true ->
  fill_located input_field (lower (name input_field))
    (lower (get_type input_field "text")) value w = (Raised e, w') ->
  fill_step test_data acc input_field w
  = (Ok (fst acc, snd acc ++ [fill_error (lower (name input_field)) e]), w').
Proof.
  intros Hm Ht Hf. unfold fill_step. rewrite Hm, Ht.
  unfold try_, bind. now rewrite Hf.
Qed.

(** C9.  Filling a form never raises: it returns the result record.  When
    filling one field raises, the message for that field is put on the list of
    errors, the fields after it are processed from the page as that failure
    left it, and the message is in the errors of the result. *)
Theorem fill_failures_are_collected :
  (forall form test_data, total (_fill_form_intelligently form test_data)) /\
  (forall form test_data before input_field after value e (w w1 w2 : W) acc1,
     inputs form = before ++ input_field :: after ->
     fill_loop test_data before ([], []) w = (Ok acc1, w1) ->
     _match_field_to_data (lower (name input_field))
       (lower (get_type input_field "text")) (lower (placeholder input_field)) test_data
       = Some value ->
     truthy value = true ->
     fill_located input_field (lower (name input_field))
       (lower (get_type input_field "text")) value w1 = (Raised e, w2) ->
     exists acc3 w3,
       fill_loop test_data after
         (fst acc1, snd acc1 ++ [fill_error (lower (name input_field)) e]) w2
         = (Ok acc3, w3) /\
       _fill_form_intelligently form test_data w = (Ok (fill_result_of acc3), w3) /\
       In (fill_error (lower (name input_field)) e) (errors (fill_result_of acc3))).
Proof.
  split.
  - intros form test_data. unfold _fill_form_intelligently.
    apply total_try. intros e. apply total_ret.
  - intros form test_data before f after value e w w1 w2 acc1 Hin Hbefore Hm Ht Hf.
    destruct (fill_loop_total test_data after
                (fst acc1, snd acc1 ++ [fill_error (lower (name f)) e]) w2)
      as [acc3 [w3 Hafter]].
    exists acc3, w3. split; [exact Hafter|]. split.
    + apply fill_form_run. rewrite Hin, fill_loop_app, Hbefore.
      cbn [fill_loop]. unfold bind.
      now rewrite (fill_step_failure _ _ _ _ _ _ _ Hm Ht Hf).
    + cbn [errors fill_result_of].
      eapply fill_loop_keeps_errors; [exact Hafter|].
      cbn. apply in_or_app. right. now left.
Qed.

End FillerFacts.

Lemma fill_failures_are_collected_witness :
  exists acc3 w3,
    fill_loop sample_test_data [mk_input "password" "password" ""]
      ([], [fill_error "email" "fill testuser.1700000000.abc123@testmail.com failed"])
      (toy_log "fill testuser.1700000000.abc123@testmail.com failed" stubborn_email_page)
      = (Ok acc3, w3) /\
    _fill_form_intelligently email_password_form sample_test_data stubborn_email_page
      = (Ok (fill_result_of acc3), w3) /\
    In (fill_error "email" "fill testuser.1700000000.abc123@testmail.com failed")
       (errors (fill_result_of acc3)).
Proof.
  exact (proj2 fill_failures_are_collected
           email_password_form sample_test_data
           [] (mk_input "email" "email" "") [mk_input "password" "password" ""]
           "testuser.1700000000.abc123@testmail.com"
           "fill testuser.1700000000.abc123@testmail.com failed"
           stubborn_email_page stubborn_email_page
           (toy_log "fill testuser.1700000000.abc123@testmail.com failed"
                    stubborn_email_page)
           ([], [])
           eq_refl eq_refl eq_refl eq_refl eq_refl).
Defined.

(** ** The resolver *)

Section ResolverFacts.
Context {W E : Type} `{Page W E}.

Lemma recheck_visible_total element : total (recheck_visible element).
Proof. unfold recheck_visible. apply total_try. intros e. apply total_ret. Qed.

(** The retry reports the element visible exactly when the scroll, the wait
    and the second look all went through and the second look said so. *)
Lemma recheck_visible_true element (w w' : W) :
  recheck_visible element w = (Ok true, w') <->
  exists wa wb,
    scroll_into_view_if_needed element w = (Ok tt, wa) /\
    wait_for_timeout 1000 wa = (Ok tt, wb) /\
    is_visible element wb = (Ok true, w').
Proof.
  unfold recheck_visible, try_, bind, ret.
  destruct (scroll_into_view_if_needed element w) as [[[]|e] wa] eqn:Hs.
  - destruct (wait_for_timeout 1000 wa) as [[[]|e] wb] eqn:Hw.
    + destruct (is_visible element wb) as [[v|e] wc] eqn:Hv.
      * split.
        -- intros [= -> ->]. now exists wa, wb.
        -- intros [wa' [wb' [[= <-] [Hw' Hv']]]].
           rewrite Hw in Hw'. injection Hw' as <-.
           rewrite Hv in Hv'. injection Hv' as -> ->. reflexivity.
      * split; [discriminate|].
        intros [wa' [wb' [[= <-] [Hw' Hv']]]].
        rewrite Hw in Hw'. injection Hw' as <-.
        rewrite Hv in Hv'. discriminate.
    + split; [discriminate|].
      intros [wa' [wb' [[= <-] [Hw' _]]]]. rewrite Hw in Hw'. discriminate.
  - split; [discriminate|]. intros [wa' [wb' [Hs' _]]]. discriminate.
Qed.

Lemma observe_visible element (w w1 w2 : W) enabled :
  is_visible element w = (Ok true, w1) ->
  is_enabled element w1 = (Ok enabled, w2) ->
  observe element w = (Ok (true, enabled), w2).
Proof.
  intros Hv He. unfold observe, bind. rewrite Hv, He. reflexivity.
Qed.

Lemma observe_hidden element (w w1 w2 w3 : W) enabled visible' :
  is_visible element w = (Ok false, w1) ->
  is_enabled element w1 = (Ok enabled, w2) ->
  recheck_visible element w2 = (Ok visible', w3) ->
  observe element w = (Ok (visible', enabled), w3).
Proof.
  intros Hv He Hr. unfold observe, bind. rewrite Hv, He. cbn. rewrite Hr. reflexivity.
Qed.

(** The click made on an element whose state was read. *)
Lemma click_element_run element (w w1 : W) st :
  observe element w = (Ok st, w1) ->
  click_element element w =
  match perform_click (choose_click (fst st) (snd st)) element w1 with
  | (Ok _, w2) => (Ok (choose_click (fst st) (snd st)), w2)
  | (Raised e, w2) => (Raised e, w2)
  end.
Proof.
  intros Ho. unfold click_element, bind. rewrite Ho.
  destruct (perform_click _ element w1) as [[[]|e] w2]; reflexivity.
Qed.

Lemma click_first_total elements : total (click_first elements).
Proof.
  induction elements as [|e es IH]; cbn [click_first].
  - apply total_ret.
  - apply total_bind.
    + apply total_try. intros x. apply total_ret.
    + intros [k|]; [apply total_ret | exact IH].
Qed.

Lemma resolve_total selectors : total (resolve selectors).
Proof.
  induction selectors as [|s ss IH]; cbn [resolve].
  - apply total_ret.
  - apply total_bind.
    + apply total_try. intros x. apply total_ret.
    + intros [k|]; [apply total_ret | exact IH].
Qed.

Lemma click_first_cons element rest (w : W) :
  click_first (element :: rest) w =
  match click_element element w with
  | (Ok k, w1) => (Ok (Some k), w1)
  | (Raised _, w1) => click_first rest w1
  end.
Proof.
  cbn [click_first]. unfold bind, try_, ret.
  destruct (click_element element w) as [[k|e] w1]; reflexivity.
Qed.

Lemma resolve_cons selector rest (w : W) :
  resolve (selector :: rest) w =
  match query_selector_all selector w with
  | (Ok elements, w1) =>
      match click_first elements w1 with
      | (Ok (Some k), w2) => (Ok (Some (selector, k)), w2)
      | (Ok None, w2) => resolve rest w2
      | (Raised _, w2) => resolve rest w2
      end
  | (Raised _, w1) => resolve rest w1
  end.
Proof.
  cbn [resolve]. unfold bind, try_, ret.
  destruct (query_selector_all selector w) as [[els|e] w1]; [|reflexivity].
  destruct (click_first els w1) as [[[k|]|e] w2]; reflexivity.
Qed.

Lemma click_first_none elements (w w' : W) :
  click_first elements w = (Ok None, w') <-> all_fail elements w w'.
Proof.
  revert w. induction elements as [|e es IH]; intros w.
  - cbn. unfold ret. split.
    + intros [= ->]. constructor.
    + intros Hf. inversion Hf. reflexivity.
  - rewrite click_first_cons. split.
    + destruct (click_element e w) as [[k|x] w1] eqn:Hc; [discriminate|].
      intros Hr. econstructor; [exact Hc | now apply IH].
    + intros Hf. inversion Hf as [|? ? ? x w1 ? Hc Hrest]; subst.
      rewrite Hc. now apply IH.
Qed.

Lemma click_first_some elements (w w' : W) k :
  click_first elements w = (Ok (Some k), w') <->
  exists failed element others w1,
    elements = failed ++ element :: others /\
    all_fail failed w w1 /\
    click_element element w1 = (Ok k, w').
Proof.
  revert w. induction elements as [|e es IH]; intros w.
  - cbn. unfold ret. split; [discriminate|].
    intros [failed [el [others [w1 [Heq _]]]]]. now destruct failed.
  - rewrite click_first_cons. split.
    + destruct (click_element e w) as [[k'|x] w1] eqn:Hc.
      * intros [= -> ->]. exists [], e, es, w. repeat split; [constructor | exact Hc].
      * intros Hr. apply IH in Hr as [failed [el [others [w2 [-> [Hf Hk]]]]]].
        exists (e :: failed), el, others, w2. repeat split; [|exact Hk].
        econstructor; eauto.
    + intros [failed [el [others [w1 [Heq [Hf Hk]]]]]].
      destruct failed as [|e' failed]; cbn in Heq; injection Heq as -> ->.
      * inversion Hf; subst. now rewrite Hk.
      * inversion Hf as [|? ? ? x w2 ? Hc Hrest]; subst. rewrite Hc.
        apply IH. now exists failed, el, others, w1.
Qed.

Lemma click_first_never_raises elements (w w' : W) e :
  click_first elements w <> (Raised e, w').
Proof.
  destruct (click_first_total elements w) as [r [w1 Hr]]. rewrite Hr. discriminate.
Qed.

Lemma resolve_none selectors (w w' : W) :
  resolve selectors w = (Ok None, w') <-> exhausted selectors w w'.
Proof.
  revert w. induction selectors as [|s ss IH]; intros w.
  - cbn. unfold ret. split.
    + intros [= ->]. constructor.
    + intros Hx. inversion Hx. reflexivity.
  - rewrite resolve_cons. split.
    + destruct (query_selector_all s w) as [[els|x] w1] eqn:Hq.
      * destruct (click_first els w1) as [[[k|]|x] w2] eqn:Hc.
        -- discriminate.
        -- intros Hr. eapply exhausted_elements;
             [exact Hq | apply click_first_none; exact Hc | apply IH; exact Hr].
        -- now apply click_first_never_raises in Hc.
      * intros Hr. eapply exhausted_query_raised; [exact Hq | apply IH; exact Hr].
    + intros Hx.
      inversion Hx as [|? ? ? x w1 ? Hq Hrest|? ? ? els w1 w2 ? Hq Hf Hrest]; subst.
      * rewrite Hq. now apply IH.
      * rewrite Hq. apply click_first_none in Hf. rewrite Hf. now apply IH.
Qed.

Lemma resolve_some selectors (w w' : W) selector k :
  resolve selectors w = (Ok (Some (selector, k)), w') <->
  first_success selectors w selector k w'.
Proof.
  unfold first_success.
  revert w. induction selectors as [|s ss IH]; intros w.
  - cbn. unfold ret. split; [discriminate|].
    intros [before [after [? [? [? [? [? [? [Heq _]]]]]]]]]. now destruct before.
  - rewrite resolve_cons. split.
    + destruct (query_selector_all s w) as [[els|x] w1] eqn:Hq.
      * destruct (click_first els w1) as [[[k'|]|x] w2] eqn:Hc.
        -- intros [= -> -> ->].
           apply click_first_some in Hc as [failed [el [others [w3 [-> [Hf Hk]]]]]].
           exists [], ss, failed, el, others, w, w1, w3.
           repeat split; [constructor | exact Hq | exact Hf | exact Hk].
        -- intros Hr.
           apply IH in Hr
             as [before [after [failed [el [others [wa [wb [wc [-> [Hx Hrest]]]]]]]]]].
           exists (s :: before), after, failed, el, others, wa, wb, wc.
           split; [reflexivity|]. split; [|exact Hrest].
           eapply exhausted_elements;
             [exact Hq | apply click_first_none; exact Hc | exact Hx].
        -- now apply click_first_never_raises in Hc.
      * intros Hr.
        apply IH in Hr
          as [before [after [failed [el [others [wa [wb [wc [-> [Hx Hrest]]]]]]]]]].
        exists (s :: before), after, failed, el, others, wa, wb, wc.
        split; [reflexivity|]. split; [|exact Hrest].
        eapply exhausted_query_raised; [exact Hq | exact Hx].
    + intros [before [after [failed [el [others [wa [wb [wc [Heq [Hx Hrest]]]]]]]]]].
      destruct before as [|s' before]; cbn in Heq; injection Heq as -> ->.
      * inversion Hx; subst. destruct Hrest as [Hq [Hf Hk]]. rewrite Hq.
        assert (Hc : click_first (failed ++ el :: others) wb = (Ok (Some k), w'))
          by (apply click_first_some; now exists failed, el, others, wc).
        now rewrite Hc.
      * inversion Hx as [|? ? ? x w1 ? Hq Hx'|? ? ? els w1 w2 ? Hq Hf Hx']; subst.
        -- rewrite Hq. apply IH.
           now exists before, after, failed, el, others, wa, wb, wc.
        -- rewrite Hq. apply click_first_none in Hf. rewrite Hf. apply IH.
           now exists before, after, failed, el, others, wa, wb, wc.
Qed.

End ResolverFacts.

Section ResolverClaim.
Context {W E : Type} `{Page W E}.

(** C5.  The click is chosen from the state of the element: visible and
    enabled, a normal click; enabled and not visible, a forced click;
    otherwise a scripted click.  An element seen visible is not scrolled to;
    an element seen not visible gets one scroll, wait and second look, and
    counts as visible exactly when all three went through and the second look
    said so.  The element then receives exactly the click its state asks
    for, from the world the look left, and nothing else: seen visible and
    enabled, [click(timeout=5000)]; seen enabled and not visible,
    [click(force=True, timeout=5000)]; seen not enabled, the scripted
    [el.click()]; when that click raises, so does the attempt on the
    element.  The search never raises; it succeeds exactly at the first
    selector and element whose click went through, with nothing done after
    that click, and it fails exactly when every selector and every element
    was tried. *)
Theorem three_tier_escalation :
  (choose_click true true = Normal /\
   choose_click false true = Forced /\
   forall visible, choose_click visible false = Scripted) /\
  (forall element (w w1 w2 : W) enabled,
     is_visible element w = (Ok true, w1) ->
     is_enabled element w1 = (Ok enabled, w2) ->
     observe element w = (Ok (true, enabled), w2)) /\
  (forall element (w w1 w2 : W) enabled,
     is_visible element w = (Ok false, w1) ->
     is_enabled element w1 = (Ok enabled, w2) ->
     exists visible' w3,
       recheck_visible element w2 = (Ok visible', w3) /\
       observe element w = (Ok (visible', enabled), w3)) /\
  (forall element (w w' : W),
     recheck_visible element w = (Ok true, w') <->
     exists wa wb,
       scroll_into_view_if_needed element w = (Ok tt, wa) /\
       wait_for_timeout 1000 wa = (Ok tt, wb) /\
       is_visible element wb = (Ok true, w')) /\
  (forall element (w w1 : W),
     observe element w = (Ok (true, true), w1) ->
     click_element element w =
     match click element false (Some 5000) w1 with
     | (Ok _, w2) => (Ok Normal, w2)
     | (Raised e, w2) => (Raised e, w2)
     end) /\
  (forall element (w w1 : W),
     observe element w = (Ok (false, true), w1) ->
     click_element element w =
     match click element true (Some 5000) w1 with
     | (Ok _, w2) => (Ok Forced, w2)
     | (Raised e, w2) => (Raised e, w2)
     end) /\
  (forall element (w w1 : W) visible,
     observe element w = (Ok (visible, false), w1) ->
     click_element element w =
     match evaluate_click element w1 with
     | (Ok _, w2) => (Ok Scripted, w2)
     | (Raised e, w2) => (Raised e, w2)
     end) /\
  (forall element (w w1 : W) e,
     observe element w = (Raised e, w1) ->
     click_element element w = (Raised e, w1)) /\
  (forall selectors, total (resolve (W:=W) selectors)) /\
  (forall selectors (w w' : W) selector k,
     resolve selectors w = (Ok (Some (selector, k)), w') <->
     first_success selectors w selector k w') /\
  (forall selectors (w w' : W),
     resolve selectors w = (Ok None, w') <-> exhausted selectors w w').
Proof.
  split; [repeat split; now destruct visible|].
  split; [exact observe_visible|].
  split.
  { intros element w w1 w2 enabled Hv He.
    destruct (recheck_visible_total element w2) as [visible' [w3 Hr]].
    exists visible', w3. split; [exact Hr|]. eapply observe_hidden; eauto. }
  split; [exact recheck_visible_true|].
  split; [intros element w w1 Ho; exact (click_element_run element w w1 _ Ho)|].
  split; [intros element w w1 Ho; exact (click_element_run element w w1 _ Ho)|].
  split.
  { intros element w w1 visible Ho.
    rewrite (click_element_run element w w1 _ Ho). now destruct visible. }
  split.
  { intros element w w1 e Ho. unfold click_element, bind. now rewrite Ho. }
  split; [exact resolve_total|].
  split; [intros; apply resolve_some | intros; apply resolve_none].
Qed.

End ResolverClaim.

Lemma three_tier_escalation_witness :
  click_element covered_button (signup_page covered_button)
  = (Ok Forced, toy_log "forced click" (toy_scroll (signup_page covered_button))) /\
  log (snd (click_element covered_button (signup_page covered_button)))
  = ["scroll"; "forced click"].
Proof.
  assert (Ho : observe covered_button (signup_page covered_button)
               = (Ok (false, true), toy_scroll (signup_page covered_button)))
    by reflexivity.
  rewrite (proj1 (proj2 (proj2 (proj2 (proj2 (proj2
             (three_tier_escalation (W:=Toy) (E:=ToyElem)))))))
             covered_button _ _ Ho).
  split; reflexivity.
Defined.

(** ** The orchestrator and the report *)

Lemma py_append_other key v (report : gmap string pyval) k :
  k <> key -> py_append key v report !! k = report !! k.
Proof.
  intros Hne. unfold py_append.
  destruct (report !! key) as [[]|]; try reflexivity.
  now rewrite lookup_insert_ne.
Qed.

Lemma initial_report_later_key url timestamp max_depth analysis auth_forms k :
  ~ In k later_keys ->
  forall (v1 v2 v3 v4 v5 : pyval) (report : gmap string pyval),
    (forall k', k' <> "registration_attempts" ->
        report !! k' = report_after_discovery url timestamp max_depth analysis auth_forms !! k') ->
    (<["performance_insights" := v5]>
       (<["security_findings" := v4]>
          (<["user_flows" := v3]>
             (<["hidden_functionality" := v2]>
                (<["form_interactions" := v1]> report))))) !! k
    = report_after_discovery url timestamp max_depth analysis auth_forms !! k.
Proof.
  intros Hk v1 v2 v3 v4 v5 report Hrep.
  unfold later_keys in Hk. cbn [In] in Hk.
  rewrite !lookup_insert_ne by (intros <-; apply Hk; tauto).
  apply Hrep. intros ->. apply Hk. tauto.
Qed.

Section OrchestratorFacts.
Context {W E : Type} `{Page W E, Clock W, Random W, Stages W}.

Lemma with_browser_Ok_inv {A} (body : M W A) (w w' : W) a :
  with_browser body w = (Ok a, w') ->
  exists w0 w1, browser_start w = (Ok tt, w0) /\ body w0 = (Ok a, w1).
Proof.
  unfold with_browser. intros Hrun.
  apply bind_Ok_inv in Hrun as [[] [w0 [Hs Hrun]]].
  destruct (body w0) as [r w1] eqn:Hb.
  destruct (browser_close w1) as [[[]|e] w2]; [|discriminate].
  injection Hrun as -> _. now exists w0, w1.
Qed.

(** Stage 3 writes to the registration attempts only. *)
Lemma registration_stage_other_keys auth_forms personas report (w w' : W) report' k :
  registration_stage auth_forms personas report w = (Ok report', w') ->
  k <> "registration_attempts" ->
  report' !! k = report !! k.
Proof.
  revert report w. induction personas as [|p ps IH]; intros report w; cbn [registration_stage].
  - intros [= <- _] _. reflexivity.
  - intros Hrun Hk. apply bind_Ok_inv in Hrun as [r [w1 [_ Hrun]]].
    rewrite (IH _ _ Hrun Hk).
    destruct r; [now apply py_append_other | reflexivity].
Qed.

(** What a run that returns a report went through in stages 1 and 2, and what
    its report holds under the keys that the later stages do not write. *)
Lemma deep_explore_report url max_depth (w w' : W) report :
  deep_explore_website url max_depth w = (Ok report, w') ->
  exists timestamp main_page analysis auth_forms w0 w1 w2 w3,
    navigate_to_page url w0 = (Ok main_page, w1) /\
    _analyze_page_deeply main_page w1 = (Ok analysis, w2) /\
    _discover_auth_forms main_page w2 = (Ok auth_forms, w3) /\
    forall k, ~ In k later_keys ->
      report !! k
      = report_after_discovery url timestamp max_depth analysis auth_forms !! k.
Proof.
  unfold deep_explore_website. intros Hrun.
  apply bind_Ok_inv in Hrun as [timestamp [wt [_ Hrun]]].
  apply with_browser_Ok_inv in Hrun as [w0 [wz [_ Hrun]]].
  apply bind_Ok_inv in Hrun as [main_page [w1 [Hnav Hrun]]].
  apply bind_Ok_inv in Hrun as [analysis [w2 [Han Hrun]]].
  apply bind_Ok_inv in Hrun as [auth_forms [w3 [Hdisc Hrun]]].
  apply bind_Ok_inv in Hrun as [report3 [w4 [Hreg Hrun]]].
  apply bind_Ok_inv in Hrun as [form_results [w5 [_ Hrun]]].
  apply bind_Ok_inv in Hrun as [hidden_features [w6 [_ Hrun]]].
  apply bind_Ok_inv in Hrun as [user_flows [w7 [_ Hrun]]].
  apply bind_Ok_inv in Hrun as [security_findings [w8 [_ Hrun]]].
  apply bind_Ok_inv in Hrun as [performance_insights [w9 [_ Hrun]]].
  apply bind_Ok_inv in Hrun as [[] [w10 [_ Hrun]]].
  injection Hrun as <- _.
  exists timestamp, main_page, analysis, auth_forms, w0, w1, w2, w3.
  repeat split; try assumption.
  intros k Hk. apply initial_report_later_key; [exact Hk|].
  intros k' Hk'. exact (registration_stage_other_keys _ _ _ _ _ _ _ Hreg Hk').
Qed.

(** The run up to the end of stage 2, each step starting from the world the
    step before it left, and what the report holds under the keys that the
    later stages do not write. *)
Lemma deep_explore_discovery url max_depth (w w' : W) report :
  deep_explore_website url max_depth w = (Ok report, w') ->
  exists timestamp wt w0 main_page w1 analysis w2 auth_forms w3,
    now_isoformat w = (timestamp, wt) /\
    browser_start wt = (Ok tt, w0) /\
    navigate_to_page url w0 = (Ok main_page, w1) /\
    _analyze_page_deeply main_page w1 = (Ok analysis, w2) /\
    _discover_auth_forms main_page w2 = (Ok auth_forms, w3) /\
    forall k, ~ In k later_keys ->
      report !! k
      = report_after_discovery url timestamp max_depth analysis auth_forms !! k.
Proof.
  unfold deep_explore_website. intros Hrun.
  unfold bind at 1 in Hrun. unfold lift in Hrun.
  destruct (now_isoformat w) as [timestamp wt] eqn:Hts.
  apply with_browser_Ok_inv in Hrun as [w0 [wz [Hstart Hrun]]].
  apply bind_Ok_inv in Hrun as [main_page [w1 [Hnav Hrun]]].
  apply bind_Ok_inv in Hrun as [analysis [w2 [Han Hrun]]].
  apply bind_Ok_inv in Hrun as [auth_forms [w3 [Hdisc Hrun]]].
  apply bind_Ok_inv in Hrun as [report3 [w4 [Hreg Hrun]]].
  apply bind_Ok_inv in Hrun as [form_results [w5 [_ Hrun]]].
  apply bind_Ok_inv in Hrun as [hidden_features [w6 [_ Hrun]]].
  apply bind_Ok_inv in Hrun as [user_flows [w7 [_ Hrun]]].
  apply bind_Ok_inv in Hrun as [security_findings [w8 [_ Hrun]]].
  apply bind_Ok_inv in Hrun as [performance_insights [w9 [_ Hrun]]].
  apply bind_Ok_inv in Hrun as [[] [w10 [_ Hrun]]].
  injection Hrun as <- _.
  exists timestamp, wt, w0, main_page, w1, analysis, w2, auth_forms, w3.
  repeat split; try assumption.
  intros k Hk. apply initial_report_later_key; [exact Hk|].
  intros k' Hk'. exact (registration_stage_other_keys _ _ _ _ _ _ _ Hreg Hk').
Qed.

(** C4.  In every report, [auth_forms_discovered] is the length of the list
    of auth forms that stage 2 of this very run discovered, whatever that
    length is: the run reads the clock, starts the browser, takes the
    snapshot of the address, has it analysed and runs the discovery on that
    snapshot, each step from the world the step before it left, and the
    number in the report is the length of the list that discovery returned. *)
Theorem auth_forms_count_matches url max_depth (w w' : W) report :
  deep_explore_website url max_depth w = (Ok report, w') ->
  exists timestamp wt w0 main_page w1 analysis w2 auth_forms w3,
    now_isoformat w = (timestamp, wt) /\
    browser_start wt = (Ok tt, w0) /\
    navigate_to_page url w0 = (Ok main_page, w1) /\
    _analyze_page_deeply main_page w1 = (Ok analysis, w2) /\
    _discover_auth_forms main_page w2 = (Ok auth_forms, w3) /\
    report !! "auth_forms_discovered" = Some (PInt (Z.of_nat (length auth_forms))).
Proof.
  intros Hrun.
  apply deep_explore_discovery in Hrun
    as (timestamp & wt & w0 & main_page & w1 & analysis & w2 & auth_forms & w3 &
        Hts & Hstart & Hn & Han & Hd & Hk).
  exists timestamp, wt, w0, main_page, w1, analysis, w2, auth_forms, w3.
  repeat (split; [assumption|]).
  rewrite Hk by (cbn; intuition discriminate).
  unfold report_after_discovery. apply lookup_insert_eq.
Qed.

(** C10.  In every report, [accessibility_issues] is the empty list. *)
Theorem accessibility_issues_empty url max_depth (w w' : W) report :
  deep_explore_website url max_depth w = (Ok report, w') ->
  report !! "accessibility_issues" = Some (PList []).
Proof.
  intros Hrun.
  apply deep_explore_report in Hrun
    as [timestamp [main_page [analysis [auth_forms [w0 [w1 [w2 [w3 [_ [_ [_ Hk]]]]]]]]]]].
  rewrite Hk by (cbn; intuition discriminate).
  unfold report_after_discovery.
  rewrite !lookup_insert_ne by discriminate.
  reflexivity.
Qed.

(** The depth handed to the run is written into the report as it is. *)
Lemma exploration_depth_recorded url max_depth (w w' : W) report :
  deep_explore_website url max_depth w = (Ok report, w') ->
  report !! "exploration_depth" = Some (PInt max_depth).
Proof.
  intros Hrun.
  apply deep_explore_report in Hrun
    as [timestamp [main_page [analysis [auth_forms [w0 [w1 [w2 [w3 [_ [_ [_ Hk]]]]]]]]]]].
  rewrite Hk by (cbn; intuition discriminate).
  unfold report_after_discovery.
  rewrite !lookup_insert_ne by discriminate.
  reflexivity.
Qed.

End OrchestratorFacts.

Lemma auth_forms_count_matches_witness :
  (exists timestamp wt w0 main_page w1 analysis w2 auth_forms w3,
     now_isoformat login_page = (timestamp, wt) /\
     browser_start wt = (Ok tt, w0) /\
     navigate_to_page "https://example.com" w0 = (Ok main_page, w1) /\
     _analyze_page_deeply main_page w1 = (Ok analysis, w2) /\
     _discover_auth_forms main_page w2 = (Ok auth_forms, w3) /\
     login_report !! "auth_forms_discovered"
     = Some (PInt (Z.of_nat (length auth_forms)))) /\
  login_report !! "auth_forms_discovered" = Some (PInt 1).
Proof.
  split.
  - apply (auth_forms_count_matches (W:=Toy) (E:=ToyElem)
             "https://example.com" 3 login_page (snd login_run) login_report).
    vm_compute. reflexivity.
  - vm_compute. reflexivity.
Defined.

(** The run on a page with no form and no trigger reports zero auth forms and
    no registration attempt. *)
Lemma blank_page_report :
  fst (blank_run 3) = Ok (blank_report 3) /\
  blank_report 3 !! "auth_forms_discovered" = Some (PInt 0) /\
  blank_report 3 !! "registration_attempts" = Some (PList []).
Proof. repeat split. Qed.

Lemma accessibility_issues_empty_witness :
  blank_report 3 !! "accessibility_issues" = Some (PList []).
Proof.
  apply (accessibility_issues_empty (W:=Toy) (E:=ToyElem)
           "https://example.com" 3 blank (snd (blank_run 3)) (blank_report 3)).
  vm_compute. reflexivity.
Defined.

(** ** The depth *)

Lemma get_exploration_depth_range console depth :
  get_exploration_depth console = Returned depth -> 1 <= depth <= 5.
Proof.
  induction console as [|ev rest IH]; cbn [get_exploration_depth]; [discriminate|].
  destruct ev as [typed| |]; try discriminate.
  destruct (negb (truthy (strip typed))); [intros [= <-]; lia|].
  destruct (py_int (strip typed)) as [d|]; [|exact IH].
  destruct ((1 <=? d) && (d <=? 5)) eqn:Hd; [|exact IH].
  intros [= <-]. apply andb_true_iff in Hd as [H1 H2].
  apply Z.leb_le in H1, H2. lia.
Qed.

Lemma get_exploration_depth_typed typed rest depth :
  truthy (strip typed) = true ->
  py_int (strip typed) = Some depth ->
  get_exploration_depth (Line typed :: rest) =
  if (1 <=? depth) && (depth <=? 5) then Returned depth
  else get_exploration_depth rest.
Proof.
  intros Ht Hp. cbn [get_exploration_depth]. rewrite Ht, Hp. reflexivity.
Qed.

(** C7, as amended.  The prompt of the demo returns depths of 1 to 5 only: a
    typed number in that range is returned, a typed number outside it is
    turned down and the prompt asks again.  [deep_explore_website] itself
    checks nothing: the depth it is given is written into the report as it
    is, and on the blank page the run goes through for every depth. *)
Theorem depth_checked_by_prompt_only :
  (forall console depth,
     get_exploration_depth console = Returned depth -> 1 <= depth <= 5) /\
  (forall typed rest depth,
     truthy (strip typed) = true ->
     py_int (strip typed) = Some depth ->
     get_exploration_depth (Line typed :: rest) =
     if (1 <=? depth) && (depth <=? 5) then Returned depth
     else get_exploration_depth rest) /\
  (forall (W E : Type) (page : Page W E) (clock : Clock W) (random : Random W)
          (stages : Stages W) url max_depth (w w' : W) report,
     deep_explore_website url max_depth w = (Ok report, w') ->
     report !! "exploration_depth" = Some (PInt max_depth)) /\
  (forall max_depth,
     fst (blank_run max_depth) = Ok (blank_report max_depth) /\
     blank_report max_depth !! "exploration_depth" = Some (PInt max_depth)).
Proof.
  split; [exact get_exploration_depth_range|].
  split; [exact get_exploration_depth_typed|].
  split.
  - intros W E page clock random stages. apply exploration_depth_recorded.
  - intros max_depth. split; vm_compute; reflexivity.
Qed.

Lemma depth_checked_by_prompt_only_witness :
  get_exploration_depth [Line " 9 "; Line "4"] = Returned 4.
Proof.
  rewrite (proj1 (proj2 depth_checked_by_prompt_only) " 9 " [Line "4"] 9 eq_refl eq_refl).
  reflexivity.
Defined.

(** C7 as stated fails: a run with depth 0, and one with depth 99, is not
    turned down; it returns its report. *)
Lemma out_of_range_depth_runs :
  ~ (1 <= 0 <= 5) /\ ~ (1 <= 99 <= 5) /\
  fst (blank_run 0) = Ok (blank_report 0) /\
  blank_report 0 !! "exploration_depth" = Some (PInt 0) /\
  fst (blank_run 99) = Ok (blank_report 99) /\
  blank_report 99 !! "exploration_depth" = Some (PInt 99).
Proof. repeat split; lia. Qed.

(** ** The statements at sample inputs *)

Lemma emails_differ_with_clock_or_suffix_witness :
  test_data_of first_persona 1700000000 "abc123" !! "email"
  <> test_data_of first_persona 1700000001 "abc123" !! "email".
Proof.
  intros Heq.
  apply (proj1 (proj1 (proj2 (proj2 (proj2 (proj2
           (emails_differ_with_clock_or_suffix (W:=Toy))))))
           first_persona 1700000000 "abc123" 1700000001 "abc123")) in Heq.
  destruct Heq as [Ht _]. discriminate Ht.
Defined.

Lemma security_findings_shapes_witness :
  exists findings w',
    _security_analysis unreachable = (Ok findings, w') /\
    Forall (fun f => headers_finding_shape f \/ csrf_finding_shape f
                     \/ error_finding_shape f) findings.
Proof. exact (security_findings_shapes unreachable). Defined.

(** * Further properties of the code *)

(** ** Case folding *)

Lemma lower_char_idem c : lower_char (lower_char c) = lower_char c.
Proof. destruct c as [[] [] [] [] [] [] [] []]; reflexivity. Qed.

Lemma lower_idem s : lower (lower s) = lower s.
Proof.
  induction s as [|c s IH]; cbn [lower]; [reflexivity|].
  now rewrite lower_char_idem, IH.
Qed.

Lemma map_lower_idem (xs : list string) : map lower (map lower xs) = map lower xs.
Proof. rewrite map_map. apply map_ext. intros s. apply lower_idem. Qed.

(** ** The classifier, further *)

Lemma classify_form_purpose_cases (form : Form) :
  In (_classify_form_purpose form) classifier_labels.
Proof.
  unfold _classify_form_purpose, classify_by_fields, classifier_labels.
  repeat match goal with
         | |- context [if ?b then _ else _] => destruct b
         end; cbn; tauto.
Qed.

(** X1.  The classifier only ever gives one of its six labels. *)
Theorem classifier_label_closed (form : Form) :
  In (_classify_form_purpose form) classifier_labels.
Proof. apply classify_form_purpose_cases. Qed.

Lemma text_lower_of_lower_form form : text_lower_of (lower_form form) = text_lower_of form.
Proof.
  unfold text_lower_of, lower_form. cbn [form_text nearby_text].
  now rewrite !lower_app, !lower_idem.
Qed.

Lemma input_types_of_lower_form form : input_types_of (lower_form form) = input_types_of form.
Proof.
  unfold input_types_of, lower_form. cbn [inputs]. rewrite map_map.
  apply map_ext. intros inp. unfold get_type, lower_input. cbn [type].
  destruct (type inp); cbn [option_map]; [apply lower_idem | reflexivity].
Qed.

Lemma input_names_of_lower_form form : input_names_of (lower_form form) = input_names_of form.
Proof.
  unfold input_names_of, lower_form. cbn [inputs]. rewrite map_map.
  apply map_ext. intros inp. cbn [lower_input name]. apply lower_idem.
Qed.

Lemma input_placeholders_of_lower_form form :
  input_placeholders_of (lower_form form) = input_placeholders_of form.
Proof.
  unfold input_placeholders_of, lower_form. cbn [inputs]. rewrite map_map.
  apply map_ext. intros inp. cbn [lower_input placeholder]. apply lower_idem.
Qed.

(** X2.  The classifier does not look at letter case: putting the texts of a
    form and the names, types and placeholders of its fields in lower case
    leaves its label as it was. *)
Theorem classifier_ignores_case (form : Form) :
  _classify_form_purpose (lower_form form) = _classify_form_purpose form.
Proof.
  unfold _classify_form_purpose, classify_by_fields, has_password_and_email,
    registration_indicators, all_input_text_of.
  rewrite !text_lower_of_lower_form, !input_types_of_lower_form,
    !input_names_of_lower_form, !input_placeholders_of_lower_form.
  unfold lower_form at 1. cbn [inputs]. rewrite length_map. reflexivity.
Qed.

(** X3.  A registration keyword in the text of the form or in the text around
    it, in any letter case, decides the label: the form is a registration
    form whatever else its text says and whatever its fields are. *)
Theorem registration_keyword_wins (form : Form) (keyword : string) :
  In keyword registration_keywords ->
  (str_in keyword (lower (form_text form))
   || str_in keyword (lower (nearby_text form))) = true ->
  _classify_form_purpose form = "registration".
Proof.
  intros Hin Hk. unfold _classify_form_purpose.
  assert (Ha : any_in registration_keywords (text_lower_of form) = true).
  { apply any_in_true with (kw := keyword); [exact Hin|].
    unfold text_lower_of. rewrite !lower_app.
    apply orb_true_iff in Hk as [Hk|Hk].
    - now apply str_in_app_l.
    - now apply str_in_app_r, str_in_app_r. }
  now rewrite Ha.
Qed.

Lemma registration_keyword_wins_witness :
  _classify_form_purpose login_form_near_signup = "registration".
Proof.
  apply (registration_keyword_wins login_form_near_signup "sign up").
  - cbn. tauto.
  - reflexivity.
Defined.

Section DiscoveryFacts.
Context {W E : Type} `{Page W E, Clock W, Random W, Stages W}.

Lemma classified_auth_forms_cons form rest :
  classified_auth_forms (form :: rest) =
  (if is_auth_label (_classify_form_purpose form)
   then [ {| af_form := form; purpose := _classify_form_purpose form;
             confidence := (8 # 10)%Q; source_url := None;
             trigger_button := None; switch_button := None |} ]
   else []) ++ classified_auth_forms rest.
Proof.
  unfold classified_auth_forms at 1. cbn [omap mbind option_bind list_omap].
  fold (classified_auth_forms rest).
  pose proof (classify_form_purpose_cases form) as Hl. unfold classifier_labels in Hl.
  cbn [In] in Hl.
  destruct Hl as [<-|[<-|[<-|[<-|[<-|[<-|[]]]]]]]; reflexivity.
Qed.

(** X4.  The auth forms found among the forms of the snapshot are the forms
    the classifier labels registration or login, in page order, each with its
    label, confidence 0.8 and no source, trigger or switch; the labels
    "signup" and "signin" that the code also lets through never occur. *)
Theorem classified_auth_forms_spec (page_forms : list Form) :
  map af_form (classified_auth_forms page_forms)
  = List.filter (fun form => is_auth_label (_classify_form_purpose form)) page_forms /\
  Forall (fun entry =>
            purpose entry = _classify_form_purpose (af_form entry) /\
            (purpose entry = "registration" \/ purpose entry = "login") /\
            confidence entry = (8 # 10)%Q /\
            source_url entry = None /\ trigger_button entry = None /\
            switch_button entry = None)
         (classified_auth_forms page_forms).
Proof.
  induction page_forms as [|form rest [IHm IHf]].
  - split; [reflexivity | constructor].
  - rewrite classified_auth_forms_cons. cbn [List.filter].
    destruct (is_auth_label (_classify_form_purpose form)) eqn:Hl; cbn [app map].
    + split; [now rewrite IHm|].
      constructor; [|exact IHf]. cbn.
      repeat split. unfold is_auth_label in Hl.
      apply orb_true_iff in Hl as [Hl|Hl]; apply String.eqb_eq in Hl; auto.
    + split; assumption.
Qed.

End DiscoveryFacts.

(** ** The field matcher, further *)

Lemma prefix_nil_r kw : String.prefix kw "" = match kw with "" => true | _ => false end.
Proof. destruct kw; reflexivity. Qed.

(** A keyword without the separator cannot reach across it. *)
Lemma prefix_sep kw a c b :
  str_in (String c "") kw = false ->
  String.prefix kw (a +:+ String c b) = String.prefix kw a.
Proof.
  revert a. induction kw as [|k kw IH]; intros a Hc.
  - destruct a; reflexivity.
  - assert (Hk : k <> c).
    { intros ->. assert (str_in (String c "") (String c kw) = true)
        by (apply str_in_split; exists "", kw; reflexivity). congruence. }
    assert (Hc' : str_in (String c "") kw = false).
    { rewrite str_in_cons in Hc. now apply orb_false_iff in Hc as [_ Hc]. }
    destruct a as [|x a]; simpl.
    + destruct (ascii_dec k c); [contradiction | reflexivity].
    + destruct (ascii_dec k x); [now apply IH | reflexivity].
Qed.

Lemma str_in_sep kw a c b :
  str_in (String c "") kw = false ->
  str_in kw (a +:+ String c b) = str_in kw a || str_in kw b.
Proof.
  intros Hc. induction a as [|x a IH].
  - change ("" +:+ String c b) with (String c b).
    rewrite str_in_cons, str_in_nil.
    rewrite <- (prefix_sep kw "" c b Hc). reflexivity.
  - change (String x a +:+ String c b) with (String x (a +:+ String c b)).
    rewrite !str_in_cons, IH.
    change (String x (a +:+ String c b)) with (String x a +:+ String c b).
    rewrite (prefix_sep kw (String x a) c b Hc).
    now rewrite orb_assoc.
Qed.

Lemma any_in_sep kws a c b :
  free_of c kws = true ->
  any_in kws (a +:+ String c b) = any_in kws a || any_in kws b.
Proof.
  unfold any_in, free_of. induction kws as [|kw kws IH]; cbn [existsb forallb].
  - reflexivity.
  - intros Hf. apply andb_true_iff in Hf as [Hkw Hf].
    apply negb_true_iff in Hkw.
    rewrite (str_in_sep kw a c b Hkw), (IH Hf).
    destruct (str_in kw a), (str_in kw b); cbn; try reflexivity;
      now rewrite ?orb_true_r.
Qed.

(** The hint string of a field is searched part by part. *)
Lemma any_in_hints kws field_name field_type placeholder :
  free_of " " kws = true ->
  any_in kws (lower (field_name +:+ " " +:+ field_type +:+ " " +:+ placeholder))
  = hint_has kws field_name field_type placeholder.
Proof.
  intros Hf. unfold hint_has. rewrite !lower_app.
  change (lower " ") with " ".
  change (" " +:+ lower field_type +:+ " " +:+ lower placeholder)
    with (String " " (lower field_type +:+ String " " (lower placeholder))).
  rewrite (any_in_sep kws _ " " _ Hf), (any_in_sep kws _ " " _ Hf).
  now rewrite orb_assoc.
Qed.

Lemma str_in_hints kw field_name field_type placeholder :
  str_in " " kw = false ->
  str_in kw (lower (field_name +:+ " " +:+ field_type +:+ " " +:+ placeholder))
  = hint_has [kw] field_name field_type placeholder.
Proof.
  intros Hf.
  rewrite <- (any_in_hints [kw]) by (cbn; now rewrite Hf).
  cbn. now rewrite orb_false_r.
Qed.

(** X5.  A field that the e-mail rule does not claim and whose name, type or
    placeholder contains "password" or "pass" is given the confirmation
    password when its name, type or placeholder contains "confirm" or
    "repeat", and the password otherwise. *)
Theorem password_field_slot (field_name field_type placeholder : string)
    (test_data : gmap string string) :
  hint_has ["email"; "e-mail"] field_name field_type placeholder = false ->
  hint_has ["password"; "pass"] field_name field_type placeholder = true ->
  _match_field_to_data field_name field_type placeholder test_data =
  if hint_has ["confirm"; "repeat"] field_name field_type placeholder
  then test_data !! "password_confirm"
  else test_data !! "password".
Proof.
  intros He Hp. unfold _match_field_to_data.
  rewrite !any_in_hints, He, Hp by reflexivity.
  rewrite !str_in_hints by reflexivity.
  unfold hint_has. cbn [any_in existsb].
  rewrite !orb_false_r.
  destruct (str_in "confirm" (lower field_name)),
    (str_in "confirm" (lower field_type)),
    (str_in "confirm" (lower placeholder)),
    (str_in "repeat" (lower field_name)),
    (str_in "repeat" (lower field_type)),
    (str_in "repeat" (lower placeholder)); reflexivity.
Qed.

Lemma password_field_slot_witness :
  _match_field_to_data "Repeat_PW" "Password" "" sample_test_data
  = sample_test_data !! "password_confirm".
Proof.
  exact (password_field_slot "Repeat_PW" "Password" "" sample_test_data
           eq_refl eq_refl).
Defined.

(** X6.  The matcher never makes data up: what it returns is a value of the
    data set, or the fixed filler for a free text field without a name. *)
Theorem matcher_returns_data_or_filler (field_name field_type placeholder : string)
    (test_data : gmap string string) (v : string) :
  _match_field_to_data field_name field_type placeholder test_data = Some v ->
  (exists slot, test_data !! slot = Some v) \/
  (v = "Test input" /\ field_type = "text" /\ field_name = "").
Proof.
  unfold _match_field_to_data.
  repeat match goal with
         | |- context [if ?b then _ else _] => destruct b eqn:?
         end;
    try discriminate; try (intros Hv; left; eexists; exact Hv).
  intros [= <-]. right. split; [reflexivity|].
  match goal with
  | Hb : _ && _ = true |- _ => apply andb_true_iff in Hb as [Ht Hn]
  end.
  apply String.eqb_eq in Ht. split; [exact Ht|].
  unfold truthy in Hn. apply negb_true_iff, negb_false_iff in Hn.
  now apply String.eqb_eq in Hn.
Qed.

Lemma matcher_returns_data_or_filler_witness :
  (exists slot, sample_test_data !! slot = Some "+1234567890") \/
  ("+1234567890" = "Test input" /\ "tel" = "text" /\ "mobile" = "").
Proof.
  exact (matcher_returns_data_or_filler "mobile" "tel" "" sample_test_data
           "+1234567890" eq_refl).
Defined.

Lemma any_in_matcher_keywords h :
  any_in matcher_keywords h =
  any_in ["email"; "e-mail"] h || any_in ["password"; "pass"] h
  || any_in ["username"; "user"; "login"] h || any_in ["first"; "fname"] h
  || any_in ["last"; "lname"; "surname"] h || any_in ["name"] h
  || any_in ["phone"; "tel"] h || any_in ["address"] h || any_in ["city"] h
  || any_in ["country"] h || any_in ["company"; "organization"] h
  || any_in ["age"] h || any_in ["zip"; "postal"] h.
Proof.
  unfold any_in, matcher_keywords. cbn [existsb].
  rewrite ?orb_false_r, ?orb_assoc. reflexivity.
Qed.

Lemma registration_data_hint_level persona timestamp random_suffix
    field_name field_type placeholder :
  let h := lower (field_name +:+ " " +:+ field_type +:+ " " +:+ placeholder) in
  is_Some (_match_field_to_data field_name field_type placeholder
             (test_data_of persona timestamp random_suffix))
  <-> any_in matcher_keywords h = true \/ (field_type = "text" /\ field_name = "").
Proof.
  intros h. unfold _match_field_to_data. fold h.
  rewrite any_in_matcher_keywords.
  set (td := test_data_of persona timestamp random_suffix).
  destruct (any_in ["email"; "e-mail"] h);
    [cbn [orb]; split; [intros _; now left | intros _; eexists; reflexivity]|].
  destruct (any_in ["password"; "pass"] h).
  { cbn [orb]. split; [intros _; now left|]. intros _.
    destruct (_ || _); eexists; reflexivity. }
  destruct (any_in ["username"; "user"; "login"] h) eqn:Huser;
    [cbn [orb]; split; [intros _; now left | intros _; eexists; reflexivity]|].
  destruct (any_in ["first"; "fname"] h);
    [cbn [orb]; split; [intros _; now left | intros _; eexists; reflexivity]|].
  destruct (any_in ["last"; "lname"; "surname"] h);
    [cbn [orb]; split; [intros _; now left | intros _; eexists; reflexivity]|].
  assert (Hu : str_in "user" h = false).
  { destruct (str_in "user" h) eqn:Hu; [|reflexivity].
    rewrite (any_in_true ["username"; "user"; "login"] "user" h) in Huser;
      [discriminate | cbn; tauto | exact Hu]. }
  rewrite Hu. cbn [negb]. rewrite andb_true_r.
  destruct (any_in ["name"] h);
    [cbn [orb]; split; [intros _; now left | intros _; eexists; reflexivity]|].
  destruct (any_in ["phone"; "tel"] h);
    [cbn [orb]; split; [intros _; now left | intros _; eexists; reflexivity]|].
  destruct (any_in ["address"] h);
    [cbn [orb]; split; [intros _; now left | intros _; eexists; reflexivity]|].
  destruct (any_in ["city"] h);
    [cbn [orb]; split; [intros _; now left | intros _; eexists; reflexivity]|].
  destruct (any_in ["country"] h);
    [cbn [orb]; split; [intros _; now left | intros _; eexists; reflexivity]|].
  destruct (any_in ["company"; "organization"] h);
    [cbn [orb]; split; [intros _; now left | intros _; eexists; reflexivity]|].
  destruct (any_in ["age"] h);
    [cbn [orb]; split; [intros _; now left | intros _; eexists; reflexivity]|].
  destruct (any_in ["zip"; "postal"] h);
    [cbn [orb]; split; [intros _; now left | intros _; eexists; reflexivity]|].
  cbn [orb].
  destruct (String.eqb field_type "checkbox") eqn:Hcb.
  { apply String.eqb_eq in Hcb. subst field_type. split.
    - intros [x Hx]. discriminate.
    - intros [Hf | [Ht _]]; discriminate. }
  destruct (String.eqb field_type "text") eqn:Htx; cbn [andb].
  - apply String.eqb_eq in Htx. unfold truthy. rewrite negb_involutive.
    destruct (String.eqb field_name "") eqn:Hn.
    + apply String.eqb_eq in Hn. split; [intros _; right; now split|].
      intros _. eexists; reflexivity.
    + apply String.eqb_neq in Hn. split.
      * intros [x Hx]. discriminate.
      * intros [Hf | [_ Hn']]; [discriminate | contradiction].
  - apply String.eqb_neq in Htx. split.
    + intros [x Hx]. discriminate.
    + intros [Hf | [Ht _]]; [discriminate | contradiction].
Qed.

(** X7.  With registration data, a field gets a value exactly when its name,
    type or placeholder contains one of the matcher's keywords, or it is a
    text field without a name: no rule asks for a slot that the registration
    data lacks. *)
Theorem registration_data_covers_matcher persona timestamp random_suffix
    field_name field_type placeholder :
  is_Some (_match_field_to_data field_name field_type placeholder
             (test_data_of persona timestamp random_suffix))
  <-> hint_has matcher_keywords field_name field_type placeholder = true
      \/ (field_type = "text" /\ field_name = "").
Proof.
  rewrite <- (any_in_hints matcher_keywords) by reflexivity.
  apply registration_data_hint_level.
Qed.

(** ** The data generator, further *)

Lemma get_in_string n s c : String.get n s = Some c -> str_in (String c "") s = true.
Proof.
  revert n. induction s as [|x s IH]; intros n; [discriminate|].
  destruct n as [|n]; cbn [String.get].
  - intros [= ->]. apply str_in_split. exists "", s. reflexivity.
  - intros Hg. rewrite str_in_cons. rewrite (IH n Hg). apply orb_true_r.
Qed.

Lemma get_lt n s : (n < String.length s)%nat -> exists c, String.get n s = Some c.
Proof.
  revert n. induction s as [|x s IH]; intros n; cbn [String.length]; [lia|].
  destruct n as [|n]; cbn [String.get]; [now exists x|].
  intros Hn. apply IH. lia.
Qed.

Lemma pick_char_spec population i :
  population <> "" ->
  exists c, pick_char population i = String c "" /\
            str_in (String c "") population = true.
Proof.
  intros Hne. unfold pick_char.
  assert (Hlen : (0 < String.length population)%nat)
    by (destruct population; [contradiction | cbn; lia]).
  destruct (get_lt (i mod String.length population) population) as [c Hc].
  { apply Nat.mod_upper_bound. lia. }
  rewrite Hc. exists c. split; [reflexivity | now apply get_in_string in Hc].
Qed.

Section GeneratorFurther.
Context {W : Type} `{Clock W, Random W}.

Lemma random_choices_spec population k (w w' : W) s :
  population <> "" ->
  random_choices population k w = (Ok s, w') ->
  String.length s = k /\ drawn_from population s = true.
Proof.
  intros Hne. revert w w' s.
  induction k as [|k IH]; intros w w' s; cbn [random_choices].
  - intros [= <- _]. now split.
  - unfold bind, lift. destruct (random_index _ w) as [i w1].
    destruct (random_choices population k w1) as [[rest|e] w2] eqn:Hr; [|discriminate].
    intros [= <- _]. destruct (IH _ _ _ Hr) as [Hl Hd].
    destruct (pick_char_spec population i Hne) as [c [-> Hc]].
    cbn. split; [now rewrite Hl | now rewrite Hc, Hd].
Qed.

(** X8.  Whatever the random source does, the registration generator returns
    the data set of a suffix of exactly six characters, each a lower-case
    letter or a digit. *)
Theorem random_suffix_shape (persona : Persona) (w : W) :
  exists random_suffix w',
    _generate_test_data persona w
    = (Ok (test_data_of persona (fst (time_time w)) random_suffix), w') /\
    String.length random_suffix = 6%nat /\
    drawn_from suffix_alphabet random_suffix = true.
Proof.
  unfold _generate_test_data, bind, lift.
  destruct (time_time w) as [t w1]. cbn [fst].
  destruct (random_choices_run suffix_alphabet 6 w1) as [s [w2 Hs]].
  rewrite Hs. exists s, w2. split; [reflexivity|].
  apply (random_choices_spec suffix_alphabet 6 w1 w2 s); [discriminate | exact Hs].
Qed.

(** X9.  Whatever the random source does, the search generator returns a data
    set with the three slots search, query and q and no other, each holding
    one of the five search terms. *)
Theorem search_data_in_vocabulary (w : W) :
  exists d w',
    _generate_search_data w = (Ok d, w') /\
    (forall slot, is_Some (d !! slot) <-> In slot ["search"; "query"; "q"]) /\
    (forall slot term, d !! slot = Some term -> In term search_terms).
Proof.
  destruct (generate_search_data_run w) as [i1 [i2 [i3 [w' Hrun]]]].
  exists (search_data_of i1 i2 i3), w'. split; [exact Hrun|].
  assert (Hterm : forall i, In (nth (i mod length search_terms) search_terms "") search_terms).
  { intros i. apply nth_In. apply Nat.mod_upper_bound. discriminate. }
  unfold search_data_of. cbn [list_to_map foldr uncurry fst snd].
  split.
  - intros slot. rewrite !lookup_insert. 
    repeat case_decide; subst; cbn [In]; split; intros Hs;
      try (eexists; reflexivity); try tauto.
    rewrite lookup_empty in Hs. now destruct Hs.
  - intros slot term. rewrite !lookup_insert.
    repeat case_decide; subst; intros [= <-]; apply Hterm.
Qed.

End GeneratorFurther.

(** ** The resolver, further *)

Section ResolverFurther.
Context {W E : Type} `{Page W E}.

(** X10.  Searching a list of candidates made of two parts is searching the
    first part and, only when that is exhausted, the second part from where
    the first left the page: the generic signup selectors are tried only
    after every selector built from the button's own text has failed. *)
Theorem resolve_app (first second : list string) (w : W) :
  resolve (first ++ second) w =
  match resolve first w with
  | (Ok (Some found), w') => (Ok (Some found), w')
  | (Ok None, w') => resolve second w'
  | (Raised e, w') => (Raised e, w')
  end.
Proof.
  revert w. induction first as [|s ss IH]; intros w.
  - reflexivity.
  - change ((s :: ss) ++ second) with (s :: (ss ++ second)).
    rewrite !resolve_cons.
    destruct (query_selector_all s w) as [[els|e] w1]; [|apply IH].
    destruct (click_first els w1) as [[[k|]|e] w2]; [reflexivity | apply IH..].
Qed.

End ResolverFurther.

(** ** Form filling, further *)

Lemma py_len_take_str n s : py_len (take_str n s) = Nat.min n (py_len s).
Proof.
  revert n. induction s as [|c s IH]; intros n; cbn [take_str py_len].
  - now rewrite Nat.min_0_r.
  - destruct (is_continuation c) eqn:Hc.
    + cbn [py_len]. rewrite Hc. cbn [Nat.add]. apply IH.
    + destruct n as [|n]; [reflexivity|].
      cbn [py_len]. rewrite Hc, IH. cbn [Nat.add]. lia.
Qed.

Lemma py_len_append a b : py_len (a +:+ b) = (py_len a + py_len b)%nat.
Proof.
  induction a as [|c a IH]; [reflexivity|].
  cbn [String.append py_len]. rewrite IH. lia.
Qed.

(** X11.  The preview of a value is the value itself when it has at most 20
    characters, and otherwise its first 20 characters followed by three dots:
    a preview has at most 23 characters.  Characters are counted as Python
    counts them, a letter outside ASCII being one character. *)
Theorem preview_bounded (v : string) :
  (py_len (preview v) <= 23)%nat /\
  ((py_len v <= 20)%nat -> preview v = v) /\
  ((20 < py_len v)%nat ->
   preview v = take_str 20 v +:+ "..." /\ py_len (preview v) = 23%nat).
Proof.
  unfold preview.
  destruct (20 <? py_len v)%nat eqn:Hl.
  - apply Nat.ltb_lt in Hl.
    assert (Hlen : py_len (take_str 20 v +:+ "...") = 23%nat).
    { rewrite py_len_append, py_len_take_str.
      change (py_len "...") with 3%nat. lia. }
    split; [lia|]. split; [lia|]. intros _. now split.
  - apply Nat.ltb_ge in Hl. split; [lia|]. split; [reflexivity | lia].
Qed.

Lemma preview_bounded_witness :
  (preview (address edge_case_user) = "Улица Пушкина, дом К" +:+ "..." /\
   py_len (preview (address edge_case_user)) = 23%nat) /\
  preview (company edge_case_user) = company edge_case_user.
Proof.
  split.
  - apply (proj2 (proj2 (preview_bounded (address edge_case_user)))).
    vm_compute. lia.
  - apply (proj1 (proj2 (preview_bounded (company edge_case_user)))).
    vm_compute. lia.
Defined.

Section FillerFurther.
Context {W E : Type} `{Page W E}.

Lemma fill_step_skipped test_data acc input_field (w : W) :
  skipped test_data input_field = true ->
  fill_step test_data acc input_field w = (Ok acc, w).
Proof.
  unfold skipped, matched_value, fill_step.
  destruct (_match_field_to_data _ _ _ test_data) as [v|]; [|reflexivity].
  intros Hv. apply negb_true_iff in Hv. now rewrite Hv.
Qed.

(** One turn of the loop appends at most one thing, to one of the two
    lists. *)
Lemma fill_step_grows test_data acc input_field (w w' : W) acc' :
  fill_step test_data acc input_field w = (Ok acc', w') ->
  (acc' = acc) \/
  (exists entry, entry_of test_data input_field entry /\
                 acc' = (fst acc ++ [entry], snd acc)) \/
  (exists e, acc' = (fst acc, snd acc ++ [fill_error (lower (name input_field)) e])).
Proof.
  unfold fill_step.
  destruct (_match_field_to_data _ _ _ test_data) as [v|] eqn:Hm;
    [|intros [= <- _]; now left].
  destruct (truthy v) eqn:Ht; [|intros [= <- _]; now left].
  unfold fill_located. cbv zeta. unfold try_, bind, ret.
  match goal with
  | |- context [query_selector ?sel w] =>
      destruct (query_selector sel w) as [[[el|]|e] w1]
  end.
  - destruct (fill el v w1) as [[[]|e] w2]; intros [= <- _].
    + right. left. eexists. split; [|reflexivity].
      repeat split. exists v. now repeat split.
    + right. right. now exists e.
  - intros [= <- _]. now left.
  - intros [= <- _]. right. right. now exists e.
Qed.

Lemma fill_loop_grows test_data inputs acc (w w' : W) acc' :
  fill_loop test_data inputs acc w = (Ok acc', w') ->
  exists entries messages,
    acc' = (fst acc ++ entries, snd acc ++ messages) /\
    (length entries + length messages <= length inputs)%nat /\
    Forall (fun entry => exists input_field,
              In input_field inputs /\ entry_of test_data input_field entry) entries.
Proof.
  revert acc acc' w. induction inputs as [|f fs IH]; intros acc acc' w; cbn [fill_loop].
  - intros [= <- _]. exists [], []. rewrite !app_nil_r.
    split; [now destruct acc|]. split; [cbn; lia | constructor].
  - intros Hrun. apply bind_Ok_inv in Hrun as [acc1 [w1 [Hstep Hrest]]].
    apply IH in Hrest as [entries [messages [-> [Hlen Hall]]]].
    assert (Hall' : Forall (fun entry => exists input_field,
                     In input_field (f :: fs) /\ entry_of test_data input_field entry) entries).
    { eapply Forall_impl; [exact Hall|]. intros entry [g [Hg He]].
      exists g. split; [now right | exact He]. }
    apply fill_step_grows in Hstep as [->|[[entry [He ->]]|[e ->]]]; cbn [fst snd].
    + exists entries, messages. split; [reflexivity|]. split; [cbn; lia | exact Hall'].
    + exists (entry :: entries), messages. rewrite <- app_assoc.
      split; [reflexivity|]. split; [cbn; lia|].
      constructor; [|exact Hall']. exists f. split; [now left | exact He].
    + exists entries, ([fill_error (lower (name f)) e] ++ messages).
      rewrite <- app_assoc. split; [reflexivity|].
      split; [cbn; lia | exact Hall'].
Qed.

(** X12.  Filling a form yields at most one record per field: the filled
    fields and the errors together are never more than the fields of the
    form, and every filled entry is the entry of a field of the form, with
    the preview of the value the matcher chose for that field. *)
Theorem fill_result_bounded (form : Form) (test_data : gmap string string) (w : W) :
  exists r w',
    _fill_form_intelligently form test_data w = (Ok r, w') /\
    (length (filled_fields r) + length (errors r) <= length (inputs form))%nat /\
    Forall (fun entry => exists input_field,
              In input_field (inputs form) /\ entry_of test_data input_field entry)
           (filled_fields r) /\
    success r = negb (Nat.eqb (length (filled_fields r)) 0).
Proof.
  destruct (fill_loop_total test_data (inputs form) ([], []) w) as [acc [w' Hrun]].
  exists (fill_result_of acc), w'. split; [now apply fill_form_run|].
  apply fill_loop_grows in Hrun as [entries [messages [-> [Hlen Hall]]]].
  cbn. split; [exact Hlen|]. split; [exact Hall|]. now destruct entries.
Qed.

Lemma fill_loop_all_skipped test_data inputs acc (w : W) :
  forallb (skipped test_data) inputs = true ->
  fill_loop test_data inputs acc w = (Ok acc, w).
Proof.
  induction inputs as [|f fs IH]; cbn [forallb fill_loop]; [reflexivity|].
  intros Hs. apply andb_true_iff in Hs as [Hf Hfs].
  unfold bind. rewrite (fill_step_skipped _ _ _ _ Hf). now apply IH.
Qed.

(** X13.  A form none of whose fields gets a value is left alone: the page is
    not queried, nothing is typed, and the result is a failure with no filled
    field and no error.  In particular this is so for a form without
    fields. *)
Theorem untouched_when_nothing_matches (form : Form) (test_data : gmap string string)
    (w : W) :
  forallb (skipped test_data) (inputs form) = true ->
  _fill_form_intelligently form test_data w
  = (Ok {| success := false; filled_fields := []; errors := [] |}, w).
Proof.
  intros Hs. unfold _fill_form_intelligently, try_, bind.
  now rewrite (fill_loop_all_skipped _ _ _ _ Hs).
Qed.

End FillerFurther.

Lemma untouched_when_nothing_matches_witness :
  _fill_form_intelligently comment_form sample_test_data stubborn_email_page
  = (Ok {| success := false; filled_fields := []; errors := [] |}, stubborn_email_page).
Proof.
  apply (untouched_when_nothing_matches (W:=Toy) (E:=ToyElem)
           comment_form sample_test_data stubborn_email_page).
  reflexivity.
Defined.

(** ** Submission *)

Section SubmitFacts.
Context {W E : Type} `{Page W E}.

(** X14.  Submitting a form never raises: it returns a record with a success
    flag.  The flag is set exactly when the submit button was found and
    clicked and the content of the page, read after the click and the wait
    (whether or not the wait timed out), has a success phrase and no error
    phrase in it, in any letter case; a record that carries an error message
    has the flag off. *)
Theorem submit_result_consistent (form : Form) (w : W) :
  exists d w',
    _submit_form_safely form w = (Ok (PDict d), w') /\
    exists ok, d !! "success" = Some (PBool ok) /\
      (ok = true <->
       exists b w1 current_url w2 w3 new_url w5 content,
         query_selector submit_button_selector w = (Ok (Some b), w1) /\
         page_url w1 = (Ok current_url, w2) /\
         click b false None w2 = (Ok tt, w3) /\
         page_url (snd (wait_for_load_state "networkidle" 10000 w3)) = (Ok new_url, w5) /\
         page_content w5 = (Ok content, w') /\
         any_in success_indicators (lower content) = true /\
         any_in error_indicators (lower content) = false) /\
      (is_Some (d !! "error") -> ok = false).
Proof.
  unfold _submit_form_safely, py_dict.
  unfold try_ at 1. unfold bind at 1.
  change (query_selector _ w) with (query_selector submit_button_selector w).
  destruct (query_selector submit_button_selector w) as [[[b|]|e] w1] eqn:Hq.
  - unfold bind at 1. destruct (page_url w1) as [[u|e] w2] eqn:Hu.
    2:{ eexists _, _. split; [reflexivity|]. exists false.
        split; [reflexivity|]. split; [|reflexivity].
        split; [discriminate|].
        intros (b' & w1' & u0 & w2' & w3' & n' & w5' & c' &
                Hq' & Hu' & Hc' & Hn' & Hcont' & Hs' & He').
        injection Hq' as <- <-. rewrite Hu in Hu'. discriminate. }
    unfold bind at 1. destruct (click b false None w2) as [[[]|e] w3] eqn:Hc.
    2:{ eexists _, _. split; [reflexivity|]. exists false.
        split; [reflexivity|]. split; [|reflexivity].
        split; [discriminate|].
        intros (b' & w1' & u0 & w2' & w3' & n' & w5' & c' &
                Hq' & Hu' & Hc' & Hn' & Hcont' & Hs' & He').
        injection Hq' as <- <-. rewrite Hu in Hu'. injection Hu' as <- <-.
        rewrite Hc in Hc'. discriminate. }
    unfold bind at 1.
    assert (Hwait : try_ (wait_for_load_state "networkidle" 10000) (fun _ => ret tt) w3
                    = (Ok tt, snd (wait_for_load_state "networkidle" 10000 w3))).
    { unfold try_, ret. destruct (wait_for_load_state _ _ w3) as [[[]|e] w4]; reflexivity. }
    rewrite Hwait.
    unfold bind at 1.
    destruct (page_url (snd (wait_for_load_state "networkidle" 10000 w3)))
      as [[u'|e] w5] eqn:Hu2.
    2:{ eexists _, _. split; [reflexivity|]. exists false.
        split; [reflexivity|]. split; [|reflexivity].
        split; [discriminate|].
        intros (b' & w1' & u0 & w2' & w3' & n' & w5' & c' &
                Hq' & Hu' & Hc' & Hn' & Hcont' & Hs' & He').
        injection Hq' as <- <-. rewrite Hu in Hu'. injection Hu' as <- <-.
        rewrite Hc in Hc'. injection Hc' as <-.
        rewrite Hu2 in Hn'. discriminate. }
    unfold bind at 1. destruct (page_content w5) as [[content|e] w6] eqn:Hcont.
    2:{ eexists _, _. split; [reflexivity|]. exists false.
        split; [reflexivity|]. split; [|reflexivity].
        split; [discriminate|].
        intros (b' & w1' & u0 & w2' & w3' & n' & w5' & c' &
                Hq' & Hu' & Hc' & Hn' & Hcont' & Hs' & He').
        injection Hq' as <- <-. rewrite Hu in Hu'. injection Hu' as <- <-.
        rewrite Hc in Hc'. injection Hc' as <-.
        rewrite Hu2 in Hn'. injection Hn' as <- <-.
        rewrite Hcont in Hcont'. discriminate. }
    unfold ret. eexists _, _. split; [reflexivity|].
    set (has_success := any_in success_indicators (lower content)).
    set (has_error := any_in error_indicators (lower content)).
    exists (has_success && negb has_error). split; [reflexivity|]. split.
    + split.
      * intros Hok. apply andb_true_iff in Hok as [Hs He].
        apply negb_true_iff in He.
        exists b, w1, u, w2, w3, u', w5, content.
        split; [reflexivity|]. repeat (split; [assumption|]). exact He.
      * intros (b' & w1' & u0 & w2' & w3' & n' & w5' & c' &
                Hq' & Hu' & Hc' & Hn' & Hcont' & Hs' & He').
        injection Hq' as <- <-. rewrite Hu in Hu'. injection Hu' as <- <-.
        rewrite Hc in Hc'. injection Hc' as <-.
        rewrite Hu2 in Hn'. injection Hn' as <- <-.
        rewrite Hcont in Hcont'. injection Hcont' as <-.
        subst has_success has_error. now rewrite Hs', He'.
    + intros [x Hx]. discriminate.
  - unfold ret. eexists _, _. split; [reflexivity|]. exists false.
    split; [reflexivity|]. split; [|reflexivity].
    split; [discriminate|].
    intros (b' & w1' & u0 & w2' & w3' & n' & w5' & c' & Hq' & _). discriminate.
  - eexists _, _. split; [reflexivity|]. exists false.
    split; [reflexivity|]. split; [|reflexivity].
    split; [discriminate|].
    intros (b' & w1' & u0 & w2' & w3' & n' & w5' & c' & Hq' & _). discriminate.
Qed.

End SubmitFacts.

(** ** Registration attempts *)

Section RegistrationFacts.
Context {W E : Type} `{Page W E, Clock W, Random W}.

Lemma registration_loop_total persona registration_forms :
  total (registration_loop (W:=W) persona registration_forms).
Proof.
  induction registration_forms as [|fd rest IH]; cbn [registration_loop].
  - apply total_ret.
  - apply total_bind.
    + apply total_try. intros e. apply total_ret.
    + intros [attempt|]; [apply total_ret | exact IH].
Qed.

(** X15.  A registration attempt never raises, whatever the page does: it
    returns the record of an attempt or nothing. *)
Theorem attempt_registration_total (auth_forms : list AuthForm) (persona : Persona) :
  total (_attempt_registration (W:=W) auth_forms persona).
Proof.
  unfold _attempt_registration.
  destruct (List.filter _ auth_forms) as [|fd rest] eqn:Hf.
  - apply total_ret.
  - apply registration_loop_total.
Qed.

Lemma attempt_without_registration_form (auth_forms : list AuthForm)
    (persona : Persona) (w : W) :
  Forall (fun f => purpose f <> "registration") auth_forms ->
  _attempt_registration auth_forms persona w = (Ok None, w).
Proof.
  intros Hnone. unfold _attempt_registration.
  replace (List.filter (fun f => String.eqb (purpose f) "registration") auth_forms)
    with (@nil AuthForm); [reflexivity|].
  induction Hnone as [|f fs Hf _ IH]; [reflexivity|].
  cbn [List.filter]. apply String.eqb_neq in Hf. now rewrite Hf.
Qed.

(** X16.  Without a form labelled registration among the auth forms, an
    attempt returns nothing and does nothing: no click, no navigation, no
    data generated. *)
Theorem no_registration_form_no_attempt (auth_forms : list AuthForm)
    (persona : Persona) (w : W) :
  Forall (fun f => purpose f <> "registration") auth_forms ->
  _attempt_registration auth_forms persona w = (Ok None, w).
Proof. apply attempt_without_registration_form. Qed.

End RegistrationFacts.

Lemma no_registration_form_no_attempt_witness :
  _attempt_registration login_only first_persona (signup_page covered_button)
  = (Ok None, signup_page covered_button).
Proof.
  apply (no_registration_form_no_attempt (W:=Toy) (E:=ToyElem)).
  repeat constructor. discriminate.
Defined.

(** ** Security analysis, further *)

Section SecurityFurther.
Context {W E : Type} `{Page W E}.

Lemma missing_headers_of_spec response header :
  In header (missing_headers_of response)
  <-> In header security_headers /\ response !! header = None.
Proof.
  unfold missing_headers_of. rewrite filter_In.
  rewrite negb_true_iff, bool_decide_eq_false.
  split; intros [Hin Hn]; (split; [exact Hin|]).
  - destruct (response !! header); [exfalso; apply Hn; eauto | reflexivity].
  - rewrite Hn. intros [x Hx]. discriminate.
Qed.

(** X17.  When both page evaluations go through, the security stage reports
    nothing exactly when each of the five hardening headers is present and no
    POST form lacks a token field; and the headers finding, when there is
    one, names exactly the headers of the checklist that are absent. *)
Theorem security_clean_iff (w w1 w2 : W) (response : gmap string pyval) (n : Z) :
  evaluate_fetch_headers w = (Ok response, w1) ->
  evaluate_count_forms_without_csrf w1 = (Ok n, w2) ->
  exists findings,
    _security_analysis w = (Ok findings, w2) /\
    (findings = [] <->
     Forall (fun header => is_Some (response !! header)) security_headers /\ n <= 0) /\
    (forall f names,
       In f findings -> f !! "headers" = Some (PList names) ->
       forall header, In (PStr header) names
                      <-> In header security_headers /\ response !! header = None).
Proof.
  intros Hf Hc.
  unfold _security_analysis, header_findings, bind, try_, ret. rewrite Hf, Hc.
  eexists. split; [reflexivity|].
  assert (Hmiss : missing_headers_of response = []
                  <-> Forall (fun header => is_Some (response !! header)) security_headers).
  { split.
    - intros Hnil. apply Forall_forall. intros h Hh.
      destruct (response !! h) eqn:Hr; [eauto|].
      assert (Hin : In h (missing_headers_of response))
        by (apply missing_headers_of_spec; split; [now apply list_elem_of_In | exact Hr]).
      rewrite Hnil in Hin. destruct Hin.
    - intros Hall. destruct (missing_headers_of response) as [|h hs] eqn:Hm; [reflexivity|].
      assert (Hin : In h (missing_headers_of response)) by (rewrite Hm; now left).
      apply missing_headers_of_spec in Hin as [Hin Hn].
      rewrite Forall_forall in Hall. apply list_elem_of_In in Hin.
      specialize (Hall h Hin). rewrite Hn in Hall. destruct Hall. discriminate. }
  split.
  - destruct (Z.ltb 0 n) eqn:Hn.
    + apply Z.ltb_lt in Hn. split.
      * intros Hnil. now destruct (missing_headers_of response).
      * intros [_ Hle]. lia.
    + apply Z.ltb_ge in Hn. split.
      * intros Hnil. split; [|exact Hn]. apply Hmiss.
        now destruct (missing_headers_of response).
      * intros [Hall _]. apply Hmiss in Hall. now rewrite Hall.
  - intros f names Hin Hnames header.
    assert (Hf' : f = missing_headers_finding (missing_headers_of response)).
    { destruct (Z.ltb 0 n); destruct (missing_headers_of response) as [|h hs];
        cbn in Hin; intuition (subst; try discriminate; auto). }
    subst f.
    change (missing_headers_finding (missing_headers_of response) !! "headers")
      with (Some (PList (map PStr (missing_headers_of response)))) in Hnames.
    injection Hnames as <-.
    rewrite <- missing_headers_of_spec. rewrite in_map_iff. split.
    + intros [x [[= ->] Hx]]. exact Hx.
    + intros Hx. now exists header.
Qed.

(** X18.  The security stage returns at most two findings. *)
Theorem security_findings_at_most_two (w : W) :
  exists findings w',
    _security_analysis w = (Ok findings, w') /\ (length findings <= 2)%nat.
Proof.
  unfold _security_analysis, header_findings, bind, try_, ret.
  destruct (evaluate_fetch_headers w) as [[response|e] w1].
  - destruct (evaluate_count_forms_without_csrf w1) as [[n|e] w2];
      eexists _, _; (split; [reflexivity|]);
      destruct (missing_headers_of response); try destruct (Z.ltb 0 n); cbn; lia.
  - eexists _, _. split; [reflexivity | cbn; lia].
Qed.

End SecurityFurther.

Lemma security_clean_iff_witness :
  exists findings,
    _security_analysis hardened = (Ok findings, hardened) /\ findings = [].
Proof.
  assert (Hf : evaluate_fetch_headers hardened
               = (Ok (match response_headers hardened with
                      | Ok r => r | Raised _ => ∅ end), hardened))
    by reflexivity.
  assert (Hc : evaluate_count_forms_without_csrf hardened = (Ok 0, hardened))
    by reflexivity.
  destruct (security_clean_iff (W:=Toy) (E:=ToyElem) hardened hardened hardened _ 0
              Hf Hc) as [findings [Hrun [Hiff _]]].
  exists findings. split; [exact Hrun|].
  apply Hiff. split; [|lia].
  repeat constructor; eexists; reflexivity.
Defined.

(** ** User flows and form exploration *)

Section FlowFacts.
Context {W E : Type} `{Page W E, Clock W, Random W, Stages W}.

Lemma trace_user_flow_run start_url max_depth (w : W) :
  exists r w', _trace_user_flow start_url max_depth w = (Ok r, w') /\
    forall flow, r = Some flow ->
      exists d, flow = PDict d /\ d !! "start_url" = Some (PStr start_url) /\
                d !! "depth_explored" = Some (PInt 1).
Proof.
  unfold _trace_user_flow, try_, bind, ret, py_dict.
  destruct (goto start_url w) as [[[]|e] w1];
    [|eexists _, _; split; [reflexivity | discriminate]].
  destruct (wait_for_load_state "networkidle" 5000 w1) as [[[]|e] w2];
    [|eexists _, _; split; [reflexivity | discriminate]].
  destruct (page_title w2) as [[t|e] w3];
    [|eexists _, _; split; [reflexivity | discriminate]].
  destruct (evaluate_interactive_elements w3) as [[ie|e] w4];
    [|eexists _, _; split; [reflexivity | discriminate]].
  eexists _, _. split; [reflexivity|].
  intros flow [= <-]. eexists. split; [reflexivity|]. now split.
Qed.

Lemma user_flows_of_spec main_links (w : W) :
  exists flows w',
    user_flows_of main_links w = (Ok flows, w') /\
    (length flows <= length (List.filter followed_link main_links))%nat /\
    Forall (fun flow => exists d link,
              flow = PDict d /\ In link main_links /\ followed_link link = true /\
              d !! "start_url" = Some (PStr link) /\
              d !! "depth_explored" = Some (PInt 1)) flows.
Proof.
  revert w. induction main_links as [|link rest IH]; intros w; cbn [user_flows_of].
  - exists [], w. split; [reflexivity|]. split; [cbn; lia | constructor].
  - unfold bind at 1. unfold try_ at 1. fold (followed_link link).
    cbn [List.filter].
    assert (Hflow : exists r w1,
      (if followed_link link then _trace_user_flow link 2 else ret None) w = (Ok r, w1) /\
      (followed_link link = false -> r = None) /\
      forall flow, r = Some flow ->
        exists d, flow = PDict d /\ d !! "start_url" = Some (PStr link) /\
                  d !! "depth_explored" = Some (PInt 1)).
    { destruct (followed_link link).
      - destruct (trace_user_flow_run link 2 w) as [r [w1 [Hr Hd]]].
        exists r, w1. split; [exact Hr|]. split; [discriminate | exact Hd].
      - exists None, w. split; [reflexivity|]. split; [reflexivity | discriminate]. }
    destruct Hflow as [r [w1 [-> [Hskip Hd]]]].
    unfold bind at 1. destruct (IH w1) as [more [w2 [-> [Hlen Hall]]]].
    unfold ret.
    assert (Hall' : Forall (fun flow => exists d link',
              flow = PDict d /\ In link' (link :: rest) /\ followed_link link' = true /\
              d !! "start_url" = Some (PStr link') /\
              d !! "depth_explored" = Some (PInt 1)) more).
    { eapply Forall_impl; [exact Hall|].
      intros flow [d [l [-> [Hin Hrest]]]]. exists d, l.
      split; [reflexivity|]. split; [now right | exact Hrest]. }
    destruct r as [flow|].
    + eexists _, _. split; [reflexivity|].
      destruct (followed_link link) eqn:Hfl;
        [|specialize (Hskip eq_refl); discriminate].
      split; [cbn; lia|].
      constructor; [|exact Hall'].
      destruct (Hd flow eq_refl) as [d [-> [Hs Hdepth]]].
      exists d, link. split; [reflexivity|]. split; [now left|]. now split.
    + eexists _, _. split; [reflexivity|].
      split; [destruct (followed_link link); cbn; lia | exact Hall'].
Qed.

(** X19.  The user-flow stage never raises and ignores the depth it is
    given: with any other depth it returns the same flows and leaves the
    page in the same state.  It returns at most ten flows, never more than
    there are links among the first ten of the page that start with "http"
    and do not contain "javascript:"; every flow starts at such a link and
    records a depth of one. *)
Theorem user_flows_bounded (page_info : PageInfo) (max_depth : Z) (w : W) :
  exists flows w',
    _analyze_user_flows page_info max_depth w = (Ok flows, w') /\
    (forall other_depth,
       _analyze_user_flows page_info other_depth w = (Ok flows, w')) /\
    (length flows <= 10)%nat /\
    (length flows <= length (List.filter followed_link (take 10 (links page_info))))%nat /\
    Forall (fun flow => exists d link,
              flow = PDict d /\ In link (take 10 (links page_info)) /\
              followed_link link = true /\
              d !! "start_url" = Some (PStr link) /\
              d !! "depth_explored" = Some (PInt 1)) flows.
Proof.
  unfold _analyze_user_flows.
  destruct (user_flows_of_spec (take 10 (links page_info)) w)
    as [flows [w' [Hrun [Hlen Hall]]]].
  exists flows, w'. split; [exact Hrun|]. split; [intros other_depth; exact Hrun|].
  split; [|now split].
  pose proof (filter_length_le followed_link (take 10 (links page_info))) as Hf.
  pose proof (length_take_le (links page_info) 10) as Ht.
  assert (length (take 10 (links page_info)) <= 10)%nat by (rewrite length_take; lia).
  lia.
Qed.

Lemma fill_form_total form test_data :
  total (_fill_form_intelligently (W:=W) form test_data).
Proof.
  unfold _fill_form_intelligently. apply total_try. intros e. apply total_ret.
Qed.

Lemma explore_forms_from_spec page_forms (i : Z) (w : W) :
  exists entries w',
    explore_forms_from i page_forms w = (Ok entries, w') /\
    length entries = length page_forms /\
    forall (n : nat) form, page_forms !! n = Some form ->
      exists d, entries !! n = Some (PDict d) /\
        d !! "form_index" = Some (PInt (i + Z.of_nat n + 1)) /\
        d !! "purpose" = Some (PStr (_classify_form_purpose form)) /\
        d !! "inputs_count" = Some (PInt (Z.of_nat (length (inputs form)))).
Proof.
  revert i w. induction page_forms as [|form rest IH]; intros i w; cbn [explore_forms_from].
  - exists [], w. split; [reflexivity|]. split; [reflexivity|]. intros n f Hn. discriminate.
  - unfold bind at 1.
    assert (Hgen : total (generate (W:=W) first_persona (_classify_form_purpose form))).
    { unfold generate. repeat match goal with |- context [if ?b then _ else _] => destruct b end.
      - intros w0. rewrite generate_contact_data_run. eauto.
      - intros w0. destruct (generate_search_data_run w0) as [? [? [? [? ->]]]]. eauto.
      - intros w0. rewrite generate_subscription_data_run. eauto.
      - intros w0. destruct (generate_test_data_run first_persona w0) as [? [? ->]]. eauto. }
    destruct (Hgen w) as [test_data [w1 ->]].
    unfold bind at 1.
    destruct (fill_form_total form test_data w1) as [fr [w2 ->]].
    unfold bind at 1. destruct (IH (i + 1) w2) as [more [w3 [-> [Hlen Hentries]]]].
    unfold ret. eexists _, _. split; [reflexivity|].
    split; [cbn; now rewrite Hlen|].
    intros [|n] f Hn.
    + injection Hn as <-. eexists. split; [reflexivity|].
      replace (i + Z.of_nat 0 + 1) with (i + 1) by lia. now repeat split.
    + destruct (Hentries n f Hn) as [d [Hd Hrest]].
      exists d. split; [exact Hd|].
      replace (i + Z.of_nat (S n) + 1) with (i + 1 + Z.of_nat n + 1) by lia.
      exact Hrest.
Qed.

(** X20.  Exploring the forms of a page never raises and returns one record
    per form, in page order; the record of the n-th form carries the index n
    (counted from one), the label the classifier gives the form and the
    number of its fields. *)
Theorem one_record_per_form (page_info : PageInfo) (w : W) :
  exists entries w',
    _explore_all_forms page_info w = (Ok entries, w') /\
    length entries = length (forms page_info) /\
    forall (n : nat) form, forms page_info !! n = Some form ->
      exists d, entries !! n = Some (PDict d) /\
        d !! "form_index" = Some (PInt (Z.of_nat n + 1)) /\
        d !! "purpose" = Some (PStr (_classify_form_purpose form)) /\
        d !! "inputs_count" = Some (PInt (Z.of_nat (length (inputs form)))).
Proof.
  unfold _explore_all_forms.
  destruct (explore_forms_from_spec (forms page_info) 0 w)
    as [entries [w' [Hrun [Hlen Hentries]]]].
  exists entries, w'. split; [exact Hrun|]. split; [exact Hlen|].
  intros n form Hn. destruct (Hentries n form Hn) as [d Hd]. exists d. exact Hd.
Qed.

End FlowFacts.

(** ** The report, further *)


Lemma py_append_is_Some key v (report : gmap string pyval) k :
  is_Some (py_append key v report !! k) <-> is_Some (report !! k).
Proof.
  unfold py_append. destruct (report !! key) as [[]|] eqn:Hk; try reflexivity.
  rewrite lookup_insert_is_Some. split.
  - intros [<-|[_ Hs]]; [rewrite Hk; eauto | exact Hs].
  - intros Hs. destruct (decide (key = k)); [now left | now right].
Qed.

Lemma list_to_map_is_Some (l : list (string * pyval)) k :
  is_Some ((list_to_map l : gmap string pyval) !! k) <-> In k (map fst l).
Proof.
  induction l as [|[key v] l IH]; cbn [list_to_map foldr uncurry map fst In].
  - rewrite lookup_empty. split; [intros [x Hx]; discriminate | tauto].
  - rewrite lookup_insert_is_Some, IH.
    destruct (decide (key = k)); tauto.
Qed.

Lemma initial_report_keys url timestamp max_depth analysis auth_forms k :
  is_Some (report_after_discovery url timestamp max_depth analysis auth_forms !! k)
  <-> In k report_keys.
Proof.
  unfold report_after_discovery, initial_report.
  rewrite !lookup_insert_is_Some, list_to_map_is_Some.
  unfold report_keys. cbn [map fst In].
  destruct (decide ("auth_forms_discovered" = k));
    destruct (decide ("main_page_analysis" = k)); tauto.
Qed.

Section ReportFacts.
Context {W E : Type} `{Page W E, Clock W, Random W, Stages W}.

Lemma explore_all_forms_length (page_info : PageInfo) (w : W) :
  exists entries w',
    _explore_all_forms page_info w = (Ok entries, w') /\
    length entries = length (forms page_info) /\ True.
Proof.
  destruct (explore_forms_from_spec (forms page_info) 0 w)
    as [entries [w' [Hrun [Hlen _]]]].
  now exists entries, w'.
Qed.

Lemma analyze_user_flows_length (page_info : PageInfo) (max_depth : Z) (w : W) :
  exists flows w',
    _analyze_user_flows page_info max_depth w = (Ok flows, w') /\
    (length flows <= 10)%nat /\ True.
Proof.
  unfold _analyze_user_flows.
  destruct (user_flows_of_spec (take 10 (links page_info)) w)
    as [flows [w' [Hrun [Hlen _]]]].
  exists flows, w'. split; [exact Hrun|]. split; [|exact I].
  pose proof (filter_length_le followed_link (take 10 (links page_info))).
  assert (length (take 10 (links page_info)) <= 10)%nat by (rewrite length_take; lia).
  lia.
Qed.

Lemma security_analysis_length (w : W) :
  exists findings w',
    _security_analysis w = (Ok findings, w') /\ (length findings <= 2)%nat.
Proof.
  unfold _security_analysis, header_findings, bind, try_, ret.
  destruct (evaluate_fetch_headers w) as [[response|e] w1].
  - destruct (evaluate_count_forms_without_csrf w1) as [[n|e] w2];
      eexists _, _; (split; [reflexivity|]);
      destruct (missing_headers_of response); try destruct (Z.ltb 0 n); cbn; lia.
  - eexists _, _. split; [reflexivity | cbn; lia].
Qed.

Lemma registration_stage_is_Some auth_forms personas report (w w' : W) report' k :
  registration_stage auth_forms personas report w = (Ok report', w') ->
  is_Some (report' !! k) <-> is_Some (report !! k).
Proof.
  revert report w. induction personas as [|p ps IH]; intros report w; cbn [registration_stage].
  - intros [= <- _]. reflexivity.
  - intros Hrun. apply bind_Ok_inv in Hrun as [r [w1 [_ Hrun]]].
    rewrite (IH _ _ Hrun). destruct r; [apply py_append_is_Some | reflexivity].
Qed.


(** What a run that returns a report went through, stage by stage. *)
Lemma deep_explore_stages url max_depth (w w' : W) report :
  deep_explore_website url max_depth w = (Ok report, w') ->
  exists timestamp main_page analysis auth_forms report3 form_results
         hidden_features user_flows security_findings performance_insights
         wt w0 w1 w2 w3 w4 w5 w6 w7 w8 w9,
    now_isoformat w = (timestamp, wt) /\
    browser_start wt = (Ok tt, w0) /\
    navigate_to_page url w0 = (Ok main_page, w1) /\
    _analyze_page_deeply main_page w1 = (Ok analysis, w2) /\
    _discover_auth_forms main_page w2 = (Ok auth_forms, w3) /\
    registration_stage auth_forms _create_user_personas
      (report_after_discovery url timestamp max_depth analysis auth_forms) w3
      = (Ok report3, w4) /\
    _explore_all_forms main_page w4 = (Ok form_results, w5) /\
    _discover_hidden_functionality w5 = (Ok hidden_features, w6) /\
    _analyze_user_flows main_page max_depth w6 = (Ok user_flows, w7) /\
    _security_analysis w7 = (Ok security_findings, w8) /\
    _performance_analysis w8 = (Ok performance_insights, w9) /\
    report =
      <["performance_insights" := performance_insights]>
        (<["security_findings" := PList (map PDict security_findings)]>
           (<["user_flows" := PList user_flows]>
              (<["hidden_functionality" := PList hidden_features]>
                 (<["form_interactions" := PList form_results]> report3)))).
Proof.
  unfold deep_explore_website. intros Hrun.
  unfold bind at 1 in Hrun. unfold lift in Hrun.
  destruct (now_isoformat w) as [timestamp wt] eqn:Hts.
  apply with_browser_Ok_inv in Hrun as [w0 [wz [Hstart Hrun]]].
  apply bind_Ok_inv in Hrun as [main_page [w1 [Hnav Hrun]]].
  apply bind_Ok_inv in Hrun as [analysis [w2 [Han Hrun]]].
  apply bind_Ok_inv in Hrun as [auth_forms [w3 [Hdisc Hrun]]].
  apply bind_Ok_inv in Hrun as [report3 [w4 [Hreg Hrun]]].
  apply bind_Ok_inv in Hrun as [form_results [w5 [Hforms Hrun]]].
  apply bind_Ok_inv in Hrun as [hidden_features [w6 [Hhid Hrun]]].
  apply bind_Ok_inv in Hrun as [user_flows [w7 [Hflows Hrun]]].
  apply bind_Ok_inv in Hrun as [security_findings [w8 [Hsec Hrun]]].
  apply bind_Ok_inv in Hrun as [performance_insights [w9 [Hperf Hrun]]].
  apply bind_Ok_inv in Hrun as [[] [w10 [_ Hrun]]].
  injection Hrun as <- _.
  exists timestamp, main_page, analysis, auth_forms, report3, form_results,
    hidden_features, user_flows, security_findings, performance_insights,
    wt, w0, w1, w2, w3, w4, w5, w6, w7, w8, w9.
  repeat split; assumption.
Qed.


(** X22.  Every report has exactly the thirteen top-level keys, and holds the
    address it was asked to explore under "url". *)
Theorem report_keys_fixed url max_depth (w w' : W) report :
  deep_explore_website url max_depth w = (Ok report, w') ->
  (forall k, is_Some (report !! k) <-> In k report_keys) /\
  report !! "url" = Some (PStr url).
Proof.
  intros Hrun. split.
  - apply deep_explore_stages in Hrun
      as (timestamp & main_page & analysis & auth_forms & report3 & form_results &
          hidden_features & user_flows & security_findings & performance_insights &
          wt & w0 & w1 & w2 & w3 & w4 & w5 & w6 & w7 & w8 & w9 & Hts & Hstart &
          Hnav & Han & Hdisc & Hreg & Hforms & Hhid & Hflows & Hsec & Hperf & ->).
    intros k. rewrite !lookup_insert_is_Some.
    rewrite (registration_stage_is_Some _ _ _ _ _ _ k Hreg), initial_report_keys.
    unfold report_keys. cbn [In].
    destruct (decide ("performance_insights" = k));
      destruct (decide ("security_findings" = k));
      destruct (decide ("user_flows" = k));
      destruct (decide ("hidden_functionality" = k));
      destruct (decide ("form_interactions" = k)); tauto.
  - apply deep_explore_report in Hrun
      as [timestamp [main_page [analysis [auth_forms [w0 [w1 [w2 [w3 [_ [_ [_ Hk]]]]]]]]]]].
    rewrite Hk by (cbn; intuition discriminate). reflexivity.
Qed.

(** X23.  In every report the list of discovered pages is empty: no stage
    records a page. *)
Theorem discovered_pages_empty url max_depth (w w' : W) report :
  deep_explore_website url max_depth w = (Ok report, w') ->
  report !! "discovered_pages" = Some (PList []).
Proof.
  intros Hrun. apply deep_explore_report in Hrun
    as [timestamp [main_page [analysis [auth_forms [w0 [w1 [w2 [w3 [_ [_ [_ Hk]]]]]]]]]]].
  rewrite Hk by (cbn; intuition discriminate). reflexivity.
Qed.

(** X24.  In every report, the form interactions are one record per form of
    the snapshot that this very run took of the main page (after reading the
    clock and starting the browser), the user flows are at most ten and the
    security findings at most two. *)
Theorem report_collections_bounded url max_depth (w w' : W) report :
  deep_explore_website url max_depth w = (Ok report, w') ->
  exists timestamp wt w0 main_page w1 form_results user_flows security_findings,
    now_isoformat w = (timestamp, wt) /\
    browser_start wt = (Ok tt, w0) /\
    navigate_to_page url w0 = (Ok main_page, w1) /\
    report !! "form_interactions" = Some (PList form_results) /\
    length form_results = length (forms main_page) /\
    report !! "user_flows" = Some (PList user_flows) /\
    (length user_flows <= 10)%nat /\
    report !! "security_findings" = Some (PList security_findings) /\
    (length security_findings <= 2)%nat.
Proof.
  intros Hrun. apply deep_explore_stages in Hrun
    as (timestamp & main_page & analysis & auth_forms & report3 & form_results &
        hidden_features & user_flows & security_findings & performance_insights &
        wt & w0 & w1 & w2 & w3 & w4 & w5 & w6 & w7 & w8 & w9 & Hts & Hstart &
        Hnav & Han & Hdisc & Hreg & Hforms & Hhid & Hflows & Hsec & Hperf & ->).
  exists timestamp, wt, w0, main_page, w1, form_results, user_flows,
    (map PDict security_findings).
  do 3 (split; [assumption|]).
  split; [now rewrite !lookup_insert_ne, lookup_insert_eq by discriminate|].
  split.
  { destruct (explore_all_forms_length main_page w4) as [entries [wx [Hr [Hl _]]]].
    rewrite Hforms in Hr. now injection Hr as -> _. }
  split; [now rewrite !lookup_insert_ne, lookup_insert_eq by discriminate|].
  split.
  { destruct (analyze_user_flows_length main_page max_depth w6) as [fl [wx [Hr [Hl _]]]].
    rewrite Hflows in Hr. now injection Hr as -> _. }
  split; [now rewrite !lookup_insert_ne, lookup_insert_eq by discriminate|].
  rewrite length_map.
  destruct (security_analysis_length w7) as [fs [wx [Hr Hl]]].
  rewrite Hsec in Hr. now injection Hr as -> _.
Qed.

End ReportFacts.


Lemma report_keys_fixed_witness :
  (forall k, is_Some (blank_report 3 !! k) <-> In k report_keys) /\
  blank_report 3 !! "url" = Some (PStr "https://example.com").
Proof.
  apply (report_keys_fixed (W:=Toy) (E:=ToyElem)
           "https://example.com" 3 blank (snd (blank_run 3)) (blank_report 3)).
  vm_compute. reflexivity.
Defined.

Lemma discovered_pages_empty_witness :
  blank_report 3 !! "discovered_pages" = Some (PList []).
Proof.
  apply (discovered_pages_empty (W:=Toy) (E:=ToyElem)
           "https://example.com" 3 blank (snd (blank_run 3)) (blank_report 3)).
  vm_compute. reflexivity.
Defined.

Lemma report_collections_bounded_witness :
  exists timestamp wt w0 main_page w1 form_results user_flows security_findings,
    now_isoformat login_page = (timestamp, wt) /\
    browser_start wt = (Ok tt, w0) /\
    navigate_to_page "https://example.com" w0 = (Ok main_page, w1) /\
    login_report !! "form_interactions" = Some (PList form_results) /\
    length form_results = length (forms main_page) /\
    login_report !! "user_flows" = Some (PList user_flows) /\
    (length user_flows <= 10)%nat /\
    login_report !! "security_findings" = Some (PList security_findings) /\
    (length security_findings <= 2)%nat.
Proof.
  apply (report_collections_bounded (W:=Toy) (E:=ToyElem)
           "https://example.com" 3 login_page (snd login_run) login_report).
  vm_compute. reflexivity.
Defined.

(** ** The prompts of the demo *)

(** The depth prompt with and without the events left over. *)
Lemma get_exploration_depth_on_result console :
  prompt_result (get_exploration_depth_on console) = get_exploration_depth console.
Proof.
  induction console as [|ev rest IH]; cbn [get_exploration_depth_on get_exploration_depth];
    [reflexivity|].
  destruct ev as [typed| |]; try reflexivity.
  destruct (negb (truthy (strip typed))); [reflexivity|].
  destruct (py_int (strip typed)) as [d|]; [|exact IH].
  destruct ((1 <=? d) && (d <=? 5)); [reflexivity | exact IH].
Qed.

Lemma get_user_choice_range console choice rest :
  get_user_choice console = Answered choice rest ->
  In choice ["1"; "2"; "3"; "4"; "5"].
Proof.
  induction console as [|ev more IH]; cbn [get_user_choice]; [discriminate|].
  destruct ev as [typed| |]; try discriminate.
  destruct (list_in (strip typed) ["1"; "2"; "3"; "4"; "5"]) eqn:Hc; [|exact IH].
  intros [= <- _]. unfold list_in in Hc. apply existsb_exists in Hc as [x [Hin Hx]].
  apply String.eqb_eq in Hx. now subst x.
Qed.

Lemma startswith_app p s : startswith p (p +:+ s) = true.
Proof. unfold startswith. apply prefix_split. now exists s. Qed.

Lemma custom_url_scheme_lemma console url rest :
  get_custom_url console = Answered url rest -> has_scheme url = true.
Proof.
  induction console as [|ev more IH]; cbn [get_custom_url]; [discriminate|].
  destruct ev as [typed| |]; try discriminate.
  destruct (truthy (strip typed)); [|exact IH].
  intros [= <- _]. fold (has_scheme (strip typed)).
  destruct (has_scheme (strip typed)) eqn:Hs; cbn [negb]; [exact Hs|].
  unfold has_scheme. apply orb_true_iff. right. apply (startswith_app "https://").
Qed.

(** X25.  The address prompt only ever returns a non-empty address that
    starts with "http://" or "https://": what was typed, stripped, when that
    has such a scheme, and otherwise what was typed with "https://" put in
    front; blank lines are asked again. *)
Theorem custom_url_has_scheme (console : list ConsoleEvent) (url : string)
    (rest : list ConsoleEvent) :
  get_custom_url console = Answered url rest ->
  has_scheme url = true /\ url <> "" /\
  exists typed, In (Line typed) console /\ strip typed <> "" /\
    url = if has_scheme (strip typed) then strip typed else "https://" +:+ strip typed.
Proof.
  induction console as [|ev more IH]; cbn [get_custom_url]; [discriminate|].
  destruct ev as [typed| |]; try discriminate.
  destruct (truthy (strip typed)) eqn:Ht.
  - intros [= <- _]. fold (has_scheme (strip typed)).
    assert (Hne : strip typed <> "").
    { intros Heq. rewrite Heq in Ht. discriminate. }
    destruct (has_scheme (strip typed)) eqn:Hs; cbn [negb].
    + split; [exact Hs|]. split; [exact Hne|].
      exists typed. rewrite Hs. split; [now left | now split].
    + split; [unfold has_scheme; apply orb_true_iff; right;
               apply (startswith_app "https://")|].
      split; [discriminate|].
      exists typed. rewrite Hs. split; [now left | now split].
  - intros Hrest. destruct (IH Hrest) as [Hs [Hne [typed' [Hin Hrest']]]].
    split; [exact Hs|]. split; [exact Hne|].
    exists typed'. split; [now right | exact Hrest'].
Qed.

Lemma custom_url_has_scheme_witness :
  has_scheme "https://shop.example.org" = true /\ "https://shop.example.org" <> "" /\
  exists typed, In (Line typed) [Line "   "; Line " shop.example.org "] /\
    strip typed <> "" /\
    "https://shop.example.org"
    = if has_scheme (strip typed) then strip typed else "https://" +:+ strip typed.
Proof.
  exact (custom_url_has_scheme [Line "   "; Line " shop.example.org "]
           "https://shop.example.org" [] eq_refl).
Defined.

Lemma get_exploration_depth_on_range console depth rest :
  get_exploration_depth_on console = Answered depth rest -> 1 <= depth <= 5.
Proof.
  intros Ha. apply get_exploration_depth_range with (console := console).
  rewrite <- get_exploration_depth_on_result, Ha. reflexivity.
Qed.

(** X26.  In the demo, a run is only ever started with an address that has a
    scheme and with a depth of 1 to 5: whatever is typed, the address and
    depth that a round of the main loop arrives at are of that kind. *)
Theorem demo_starts_valid_runs (console : list ConsoleEvent) (url : string)
    (depth : Z) (rest : list ConsoleEvent) :
  demo_inputs console = Answered (url, depth) rest ->
  has_scheme url = true /\ 1 <= depth <= 5.
Proof.
  unfold demo_inputs.
  destruct (get_user_choice console) as [choice r1| | |] eqn:Hc; try discriminate.
  destruct (String.eqb choice "5") eqn:H5.
  - destruct (get_custom_url r1) as [u r2| | |] eqn:Hu; try discriminate.
    destruct (get_exploration_depth_on r2) as [d r3| | |] eqn:Hd; try discriminate.
    intros [= <- <- _]. split.
    + now apply custom_url_scheme_lemma in Hu.
    + now apply get_exploration_depth_on_range in Hd.
  - destruct (demo_site_url choice) as [u|] eqn:Hsite; [|discriminate].
    destruct (get_exploration_depth_on r1) as [d r3| | |] eqn:Hd; try discriminate.
    intros [= <- <- _]. split.
    + unfold demo_site_url in Hsite.
      repeat match type of Hsite with
             | (if ?b then _ else _) = _ => destruct b
             end; try discriminate; injection Hsite as <-; reflexivity.
    + now apply get_exploration_depth_on_range in Hd.
Qed.

Lemma demo_starts_valid_runs_witness :
  has_scheme "https://shop.example.org" = true /\ 1 <= 2 <= 5.
Proof.
  exact (demo_starts_valid_runs
           [Line "7"; Line "5"; Line ""; Line "shop.example.org"; Line "0"; Line "2"]
           "https://shop.example.org" 2 [] eq_refl).
Defined.

(** ** Code that appends to a list *)

Section AccumulateFacts.
Context {W X : Type} (P : X -> Prop).

Lemma keeps_ret {A} (a : A) : keeps (W:=W) P (ret a).
Proof. intros s Hs. exact Hs. Qed.

Lemma keeps_bind {A B} (m : M (W * list X) A) (k : A -> M (W * list X) B) :
  keeps P m -> (forall a, keeps P (k a)) -> keeps P (bind m k).
Proof.
  intros Hm Hk s Hs. unfold bind. specialize (Hm s Hs).
  destruct (m s) as [[a|e] s1]; cbn [snd] in *; [now apply Hk | exact Hm].
Qed.

Lemma keeps_try {A} (m : M (W * list X) A) (handler : string -> M (W * list X) A) :
  keeps P m -> (forall e, keeps P (handler e)) -> keeps P (try_ m handler).
Proof.
  intros Hm Hh s Hs. unfold try_. specialize (Hm s Hs).
  destruct (m s) as [[a|e] s1]; cbn [snd] in *; [exact Hm | now apply Hh].
Qed.

Lemma keeps_lift_acc {A} (m : M W A) : keeps P (lift_acc (X:=X) m).
Proof.
  intros s Hs. unfold lift_acc. destruct (m (fst s)) as [r w']. exact Hs.
Qed.

Lemma keeps_append (x : X) : P x -> keeps (W:=W) P (append_acc x).
Proof.
  intros Hx s Hs. cbn. apply Forall_app. split; [exact Hs | now constructor].
Qed.

Lemma keeps_read (k : list X -> M (W * list X) unit) :
  (forall acc, keeps P (k acc)) -> keeps P (bind read_acc k).
Proof. intros Hk s Hs. unfold bind, read_acc. now apply Hk. Qed.

Lemma keeps_for_each {A} (body : A -> M (W * list X) unit) (xs : list A) :
  (forall x, In x xs -> keeps P (body x)) -> keeps P (for_each body xs).
Proof.
  induction xs as [|x xs IH]; intros Hb; cbn [for_each].
  - apply keeps_ret.
  - apply keeps_bind; [apply Hb; now left|].
    intros _. apply IH. intros y Hy. apply Hb. now right.
Qed.

Lemma collect_keeps (m : M (W * list X) unit) (w : W) :
  keeps P m ->
  exists found w', collect m w = (Ok found, w') /\ Forall P found.
Proof.
  intros Hm. unfold collect. specialize (Hm (w, []) (List.Forall_nil P)).
  destruct (m (w, [])) as [r [w' found]]. now exists found, w'.
Qed.

End AccumulateFacts.

(** ** The search for auth forms *)

Section SearchFacts.
Context {W E : Type} `{Page W E, Stage.AuthProbe W}.

Lemma auth_label_cases label :
  list_in label ["registration"; "login"] = true ->
  label = "registration" \/ label = "login".
Proof.
  unfold list_in. cbn [existsb]. rewrite orb_false_r. intros Hl.
  apply orb_true_iff in Hl as [Hl|Hl]; apply String.eqb_eq in Hl; auto.
Qed.

Section Invariant.
Variable P : AuthForm -> Prop.

Lemma keeps_debug search_text : keeps P (Stage._debug_page_elements search_text).
Proof.
  unfold Stage._debug_page_elements. apply keeps_try.
  - apply keeps_lift_acc.
  - intros e. apply keeps_ret.
Qed.

Lemma keeps_add_first_registration button_text switch_text updated_forms :
  modal_ok P button_text ->
  keeps P (Stage.add_first_registration (W:=W) button_text switch_text updated_forms).
Proof.
  intros [_ Hs]. induction updated_forms as [|f fs IH]; cbn [Stage.add_first_registration].
  - apply keeps_ret.
  - destruct (String.eqb (_classify_form_purpose f) "registration") eqn:Hr; [|exact IH].
    apply keeps_append. apply Hs. now apply String.eqb_eq.
Qed.

Lemma keeps_use_switch button_text switch :
  modal_ok P button_text -> keeps P (Stage.use_switch button_text switch).
Proof.
  intros Hok. unfold Stage.use_switch. cbv zeta.
  apply keeps_bind; [apply keeps_lift_acc|].
  intros [el|]; [|apply keeps_ret].
  apply keeps_bind; [apply keeps_lift_acc|]. intros _.
  apply keeps_bind; [apply keeps_lift_acc|]. intros _.
  apply keeps_bind; [apply keeps_lift_acc|]. intros updated_forms.
  apply keeps_bind; [now apply keeps_add_first_registration|]. intros _.
  apply keeps_ret.
Qed.

Lemma keeps_try_switches button_text mode_switches :
  modal_ok P button_text -> keeps P (Stage.try_switches button_text mode_switches).
Proof.
  intros Hok. induction mode_switches as [|sw rest IH]; cbn [Stage.try_switches].
  - apply keeps_ret.
  - destruct (any_in _ (lower (Stage.sw_text sw))); [|exact IH].
    apply keeps_bind.
    + apply keeps_try; [now apply keeps_use_switch | intros e; apply keeps_ret].
    + intros [|]; [apply keeps_ret | exact IH].
Qed.

Lemma keeps_handle_modal_form button_text form :
  modal_ok P button_text -> keeps P (Stage.handle_modal_form button_text form).
Proof.
  intros Hok. unfold Stage.handle_modal_form. cbv zeta.
  apply keeps_bind.
  { destruct (list_in _ _) eqn:Hl; [|apply keeps_ret].
    apply keeps_append. now apply (proj1 Hok). }
  intros _. apply keeps_read. intros acc.
  apply keeps_bind; [|intros _; apply keeps_lift_acc].
  destruct (existsb _ acc); [|apply keeps_ret].
  apply keeps_bind; [apply keeps_lift_acc|].
  intros mode_switches. now apply keeps_try_switches.
Qed.

Lemma keeps_try_button button_info :
  modal_ok P (bi_text button_info) -> keeps P (Stage.try_button button_info).
Proof.
  intros Hok. unfold Stage.try_button.
  apply keeps_try; [|intros e; apply keeps_ret].
  apply keeps_bind; [apply keeps_lift_acc|].
  intros [found|]; [|apply keeps_debug].
  apply keeps_bind; [apply keeps_lift_acc|]. intros _.
  apply keeps_bind; [apply keeps_lift_acc|]. intros modal_forms.
  apply keeps_for_each. intros form _. now apply keeps_handle_modal_form.
Qed.

Lemma keeps_visit_link link :
  link_ok P (Stage.link_href link) -> keeps P (Stage.visit_link link).
Proof.
  intros Hok. unfold Stage.visit_link.
  apply keeps_try; [|intros e; apply keeps_ret].
  apply keeps_bind; [apply keeps_lift_acc|]. intros _.
  apply keeps_bind; [apply keeps_lift_acc|]. intros _.
  apply keeps_bind; [apply keeps_lift_acc|]. intros page_forms.
  apply keeps_for_each. intros form _. cbv zeta.
  destruct (list_in _ _) eqn:Hl; [|apply keeps_ret].
  apply keeps_append. now apply Hok.
Qed.

(** The part of the search that follows the two evaluations. *)
Lemma keeps_search_rest signup_buttons auth_links :
  (forall b, In b (take 2 signup_buttons) -> modal_ok P (bi_text b)) ->
  (forall l, In l (take 3 auth_links) -> link_ok P (Stage.link_href l)) ->
  keeps P
    ((if Nat.eqb (length signup_buttons) 0
      then Stage._debug_page_elements "sign up" ;;; Stage._debug_page_elements "register"
      else ret tt) ;;;
     for_each Stage.try_button (take 2 signup_buttons) ;;;
     for_each Stage.visit_link (take 3 auth_links)).
Proof.
  intros Hb Hl.
  apply keeps_bind.
  { destruct (Nat.eqb _ 0); [|apply keeps_ret].
    apply keeps_bind; [apply keeps_debug | intros _; apply keeps_debug]. }
  intros _. apply keeps_bind.
  - apply keeps_for_each. intros b Hin. apply keeps_try_button. now apply Hb.
  - intros _. apply keeps_for_each. intros l Hin. apply keeps_visit_link. now apply Hl.
Qed.

Lemma keeps_search_body :
  (forall button_text, modal_ok P button_text) ->
  (forall link, link_ok P link) ->
  keeps P (Stage.search_body (W:=W)).
Proof.
  intros Hb Hl. unfold Stage.search_body.
  apply keeps_try; [|intros e; apply keeps_ret].
  apply keeps_bind; [apply keeps_lift_acc|]. intros auth_links.
  apply keeps_bind; [apply keeps_lift_acc|]. intros signup_buttons.
  apply keeps_search_rest; intros; [apply Hb | apply Hl].
Qed.

End Invariant.

Lemma found_entry_ok_modal button_text : modal_ok found_entry_ok button_text.
Proof.
  split.
  - intros form Hl. unfold found_entry_ok. cbn.
    repeat split; [now apply auth_label_cases | eauto].
  - intros form switch_text Hr. unfold found_entry_ok. cbn.
    repeat split; eauto.
Qed.

Lemma found_entry_ok_link link : link_ok found_entry_ok link.
Proof.
  intros form Hl. unfold found_entry_ok. cbn.
  repeat split; [now apply auth_label_cases | eauto |].
  intros [x Hx]. discriminate.
Qed.

(** X27.  The search for auth forms never raises.  Every entry it returns
    holds a form with the label the classifier gives it, and that label is
    registration or login; an entry reached through a mode switch is a
    registration form of confidence 0.95 found in a modal window, any other
    entry has confidence 0.9.  When the two lists of candidates could be read
    off the page, every entry comes from a modal window opened by one of the
    first two signup buttons or from the page of one of the first three auth
    links. *)
Theorem search_for_auth_links_sound (w : W) :
  exists found w',
    Stage._search_for_auth_links w = (Ok found, w') /\
    Forall found_entry_ok found /\
    forall auth_links signup_buttons w1 w2,
      Stage.evaluate_auth_links w = (Ok auth_links, w1) ->
      Stage.evaluate_signup_buttons w1 = (Ok signup_buttons, w2) ->
      Forall (found_entry_from (take 2 signup_buttons) (take 3 auth_links)) found.
Proof.
  unfold Stage._search_for_auth_links.
  destruct (collect_keeps found_entry_ok Stage.search_body w) as [found [w' [Hrun Hok]]].
  { apply keeps_search_body; [apply found_entry_ok_modal | apply found_entry_ok_link]. }
  exists found, w'. split; [exact Hrun|]. split; [exact Hok|].
  intros auth_links signup_buttons w1 w2 Hlinks Hbuttons.
  revert Hrun. unfold collect, Stage.search_body.
  unfold try_ at 1. unfold bind at 1. unfold lift_acc at 1. cbn [fst snd].
  rewrite Hlinks.
  unfold bind at 1. unfold lift_acc at 1. cbn [fst snd]. rewrite Hbuttons.
  match goal with
  | |- context [let (_, _) := ?m (w2, []) in _] =>
      pose proof (keeps_search_rest
                    (found_entry_from (take 2 signup_buttons) (take 3 auth_links))
                    signup_buttons auth_links) as Hrest;
      destruct (m (w2, [])) as [r s] eqn:Hm
  end.
  assert (Hs : Forall (found_entry_from (take 2 signup_buttons) (take 3 auth_links)) (snd s)).
  { assert (Hk := Hrest). clear Hrest.
    match type of Hm with
    | ?m _ = _ =>
        assert (Hkeeps : keeps (found_entry_from (take 2 signup_buttons) (take 3 auth_links)) m)
    end.
    { apply Hk.
      - intros b Hin. split.
        + intros form _. left. exists b. now repeat split.
        + intros form st _. left. exists b. now repeat split.
      - intros l Hin form _. right. exists l. now repeat split. }
    specialize (Hkeeps (w2, []) (List.Forall_nil _)). now rewrite Hm in Hkeeps. }
  destruct r as [[]|e]; unfold ret; intros [= <- _]; exact Hs.
Qed.

End SearchFacts.

(** ** Hidden functionality *)

Section HiddenFacts.
Context {W : Type} `{Stage.HiddenProbe W}.

#[local] Ltac order_kinds :=
  repeat first [ apply sublist_nil_l | apply sublist_skip | apply sublist_cons ].

#[local] Ltac entry_ok :=
  first [ left; eexists; split; [|reflexivity]; discriminate
        | right; left; eexists; split; [|reflexivity]; discriminate
        | right; right; left; eexists; split; [|reflexivity]; discriminate
        | right; right; right; eexists; reflexivity ].

#[local] Ltac entries_ok :=
  repeat (apply List.Forall_cons; [entry_ok|]); apply List.Forall_nil.

#[local] Ltac finish_hidden :=
  cbn [Stage.append_if_any append_acc ret fst snd app];
  eexists _, _; split; [reflexivity|];
  split; [cbn [length]; lia|]; split; [vm_compute; order_kinds | entries_ok].

(** X28.  The search for hidden functionality never raises.  It returns at
    most three entries, of different kinds and in the order hidden elements,
    HTML comments, data attributes, error: an error entry comes last.  An
    entry of one of the three kinds is only added for a list that is not
    empty. *)
Theorem hidden_functionality_shape (w : W) :
  exists found w',
    Stage._discover_hidden_functionality w = (Ok found, w') /\
    (length found <= 3)%nat /\
    sublist (map kind_of found) hidden_kinds /\
    Forall hidden_entry_ok found.
Proof.
  unfold Stage._discover_hidden_functionality, collect, try_, bind, lift_acc.
  cbn [fst snd].
  destruct (Stage.evaluate_hidden_elements w) as [[xs|e1] w1]; [|finish_hidden].
  destruct xs as [|x xs]; cbn [Stage.append_if_any append_acc ret fst snd app];
    (destruct (Stage.evaluate_html_comments w1) as [[ys|e2] w2]; [|finish_hidden]);
    destruct ys as [|y ys]; cbn [Stage.append_if_any append_acc ret fst snd app];
    (destruct (Stage.evaluate_data_attributes w2) as [[zs|e3] w3]; [|finish_hidden]);
    destruct zs as [|z zs]; finish_hidden.
Qed.

End HiddenFacts.

(** ** Performance recommendations *)

Lemma Qgtb_spec (a b : Q) : Stage.Qgtb a b = true <-> (b < a)%Q.
Proof.
  unfold Stage.Qgtb. rewrite negb_true_iff. split.
  - intros Hle. apply Qnot_le_lt. intros Hab.
    apply Qle_bool_iff in Hab. congruence.
  - intros Hlt. destruct (Qle_bool a b) eqn:Hle; [|reflexivity].
    apply Qle_bool_iff in Hle. exfalso. exact (Qlt_not_le _ _ Hlt Hle).
Qed.

(** X29.  Each of the three performance recommendations is given exactly when
    its metric is over its threshold (3000 for the page load time, 50 for the
    number of resources, 1000000 for the largest resource), a metric that is
    missing counting as 0; the recommendations come in that order, each at
    most once. *)
Theorem performance_recommendations_spec (metrics : gmap string Q) :
  let recommendations := Stage._generate_performance_recommendations metrics in
  (In Stage.slow_page_advice recommendations <->
     (inject_Z 3000 < Stage.metric metrics "page_load_time")%Q) /\
  (In Stage.many_resources_advice recommendations <->
     (inject_Z 50 < Stage.metric metrics "resources_count")%Q) /\
  (In Stage.large_resource_advice recommendations <->
     (inject_Z 1000000 < Stage.metric metrics "largest_resource")%Q) /\
  sublist recommendations
    [Stage.slow_page_advice; Stage.many_resources_advice; Stage.large_resource_advice].
Proof.
  cbv zeta. unfold Stage._generate_performance_recommendations.
  rewrite <- !Qgtb_spec.
  destruct (Stage.Qgtb (Stage.metric metrics "page_load_time") _);
    destruct (Stage.Qgtb (Stage.metric metrics "resources_count") _);
    destruct (Stage.Qgtb (Stage.metric metrics "largest_resource") _);
    cbn [app In];
    (split; [|split; [|split]]);
    try (split; [intros Hin; try reflexivity;
                 repeat (destruct Hin as [Hin|Hin]; try discriminate Hin); try contradiction
                | intros Heq; try discriminate Heq; auto 6 ]);
    repeat first [ apply sublist_nil_l | apply sublist_skip | apply sublist_cons ].
Qed.

(** ** Navigation *)

Section NavigateFacts.
Context {W : Type} `{Stage.Navigator W}.

(** X30.  Without an open page, [navigate_to_page] raises and leaves the
    browser as it is.  With an open page it never raises.  When the
    navigation, the wait for the network and the extraction all go through,
    each from the state the step before it left, it returns the snapshot the
    extraction gave for the address, the status of the response and the
    seconds read after the wait, with its list of errors set empty.  When one
    of the three raises, it reads the seconds from the state the failure left
    and returns the empty snapshot of the address, with no status code and
    the message of the failure as its one error. *)
Theorem navigate_to_page_outcome (u : string) (w : W) :
  if Stage.page_open w
  then
    (exists status w1 w2 seconds w3 page_info w4,
       Stage.goto_status u w = (Ok status, w1) /\
       Stage.wait_network_idle Stage.PAGE_LOAD_TIMEOUT w1 = (Ok tt, w2) /\
       Stage.seconds_since_start w2 = (seconds, w3) /\
       Stage._extract_page_info u status seconds w3 = (Ok page_info, w4) /\
       Stage.navigate_to_page u w = (Ok (Stage.with_errors page_info []), w4)) \/
    (exists e wf seconds w',
       (Stage.goto_status u w = (Raised e, wf) \/
        (exists status w1,
           Stage.goto_status u w = (Ok status, w1) /\
           Stage.wait_network_idle Stage.PAGE_LOAD_TIMEOUT w1 = (Raised e, wf)) \/
        (exists status w1 w2 seconds0 w3,
           Stage.goto_status u w = (Ok status, w1) /\
           Stage.wait_network_idle Stage.PAGE_LOAD_TIMEOUT w1 = (Ok tt, w2) /\
           Stage.seconds_since_start w2 = (seconds0, w3) /\
           Stage._extract_page_info u status seconds0 w3 = (Raised e, wf))) /\
       Stage.seconds_since_start wf = (seconds, w') /\
       Stage.navigate_to_page u w = (Ok (Stage.failed_snapshot u seconds e), w'))
  else
    Stage.navigate_to_page u w
    = (Raised "Браузер не запущен. Используйте async with или вызовите start()", w).
Proof.
  unfold Stage.navigate_to_page.
  destruct (Stage.page_open w); cbn [negb]; [|reflexivity].
  unfold try_, bind, lift, ret.
  destruct (Stage.goto_status u w) as [[status|e] w1] eqn:Hgo.
  2:{ destruct (Stage.seconds_since_start w1) as [s w2] eqn:Hs.
      right. exists e, w1, s, w2. split; [now left|]. now split. }
  destruct (Stage.wait_network_idle Stage.PAGE_LOAD_TIMEOUT w1) as [[[]|e] w2] eqn:Hwait.
  2:{ destruct (Stage.seconds_since_start w2) as [s w3] eqn:Hs.
      right. exists e, w2, s, w3. split; [|now split].
      right; left. now exists status, w1. }
  destruct (Stage.seconds_since_start w2) as [s w3] eqn:Hs.
  destruct (Stage._extract_page_info u status s w3) as [[page_info|e] w4] eqn:Hex.
  2:{ destruct (Stage.seconds_since_start w4) as [s' w5] eqn:Hs'.
      right. exists e, w4, s', w5. split; [|now split].
      right; right. now exists status, w1, w2, s, w3. }
  left. now exists status, w1, w2, s, w3, page_info, w4.
Qed.

End NavigateFacts.
